(** * MarginfiClient transaction lifecycle (patch/marginfi-client-v2/src/client.ts)

    A shallow embedding of the client's submission paths.  Every [await] on
    the RPC node, the wallet or the relay is a call to an oracle of the
    [Network] record; each call is appended to a chronological trace, so that
    what was sent, polled or simulated (and with which options) can be read
    back from the final world.  Promises that reject and [throw] statements
    are the [Throw] outcome; [try]/[catch] is [catch] of the monad.  The two
    unbounded [while] loops take fuel, and [Diverge] is the outcome of a run
    that is still looping when the fuel is spent. *)

From Stdlib Require Import String List ZArith Bool Lia.
From Stdlib Require Import PrimFloat SpecFloat FloatOps Uint63.
From ExtLib Require Import Structures.Monad Structures.MonadExc.
Import ListNotations.
Import MonadNotation.
Local Open Scope string_scope.
Local Open Scope Z_scope.
Local Open Scope monad_scope.

(** ** Values shared by all paths *)

Definition PublicKey := string.
Definition Blockhash := string.
Definition TransactionSignature := string.
Definition Commitment := string.
Definition Buffer := list nat.

Inductive ProcessTransactionErrorType : Type :=
| TransactionBuildingError
| SimulationError
| FallthroughError
| TimeoutError.

(** The values the code throws and catches.  [SendTransactionError] is the
    class of web3.js ([message], optional [logs]); [ProcessTransactionError]
    is built everywhere as [new ProcessTransactionError(message, type, logs?)];
    [RangeError] and [TypeError] are the built-in classes, thrown by the
    runtime and by the libraries; [Error] stands for every other thrown
    value, with its [message]. *)
Inductive JsError : Type :=
| SendTransactionError (message : string) (logs : option (list string))
| ProcessTransactionError (message : string) (type : ProcessTransactionErrorType)
    (logs : option (list string))
| RangeError (message : string)
| TypeError (message : string)
| Error (message : string).

Definition error_message (e : JsError) : string :=
  match e with
  | SendTransactionError m _ => m
  | ProcessTransactionError m _ _ => m
  | RangeError m => m
  | TypeError m => m
  | Error m => m
  end.

(** [error.name]: the two built-in classes have a name of their own, the
    others inherit [Error]. *)
Definition error_name (e : JsError) : string :=
  match e with
  | RangeError _ => "RangeError"
  | TypeError _ => "TypeError"
  | _ => "Error"
  end.

(** [String(error)], which [new Error(error)] takes as its message:
    [Error.prototype.toString] gives the name, and the message after a colon
    when there is one. *)
Definition error_toString (e : JsError) : string :=
  if (error_message e =? "")%string then error_name e
  else error_name e ++ ": " ++ error_message e.

(** A settled promise. *)
Inductive Response (A : Type) : Type :=
| Resolved (a : A)
| Rejected (e : JsError).
Arguments Resolved {A} a.
Arguments Rejected {A} e.

(** [TransactionError = {} | string] of web3.js: a string, or an object given
    here by its JSON text. *)
Inductive TransactionError : Type :=
| TxErrString (s : string)
| TxErrObject (json : string).

(** Truthiness, as [if (response.value.err)] tests it: [null] and the empty
    string are falsy, every object is truthy. *)
Definition err_truthy (e : option TransactionError) : bool :=
  match e with
  | None => false
  | Some (TxErrString s) => negb (s =? "")%string
  | Some (TxErrObject _) => true
  end.

Record Connection : Type := {
  rpcEndpoint : string;
  commitment : option Commitment
}.

Record ConfirmOptions : Type := {
  co_skipPreflight : option bool;
  co_commitment : option Commitment;
  co_preflightCommitment : option Commitment;
  co_maxRetries : option Z;
  co_minContextSlot : option Z
}.

(** [TransactionOptions extends ConfirmOptions { dryRun?: boolean }]. *)
Record TransactionOptions : Type := {
  to_confirm : ConfirmOptions;
  dryRun : option bool
}.

Record SendOptions : Type := {
  so_skipPreflight : option bool;
  so_preflightCommitment : option Commitment;
  so_maxRetries : option Z;
  so_minContextSlot : option Z
}.

Record SimulateTransactionConfig : Type := {
  sim_commitment : option Commitment;
  sim_sigVerify : option bool;
  sim_minContextSlot : option Z;
  sim_accounts : option (string * list string)
}.

Record SignatureStatusConfig : Type := {
  searchTransactionHistory : bool
}.

Record SignatureStatus : Type := {
  ss_slot : Z;
  ss_err : option TransactionError;
  confirmationStatus : option string
}.

Record BlockhashWithContext : Type := {
  context_slot : Z;
  value_blockhash : Blockhash;
  value_lastValidBlockHeight : Z
}.

Record SimulatedAccount : Type := {
  acc_data : string * string
}.

Record SimulatedTransactionResponse : Type := {
  sr_err : option TransactionError;
  sr_logs : option (list string);
  sr_accounts : option (list (option SimulatedAccount));
  sr_unitsConsumed : option Z
}.

Record BlockheightBasedStrategy : Type := {
  st_blockhash : Blockhash;
  st_lastValidBlockHeight : Z;
  st_signature : TransactionSignature
}.

(** An instruction, as the client sees it: the two kinds it asks web3.js to
    build, with the integer they encode, and every other instruction by its
    program, accounts and data. *)
Inductive TransactionInstruction : Type :=
| ComputeUnitPriceInstruction (microLamports : Z)
| TransferInstruction (fromPubkey toPubkey : PublicKey) (lamports : Z)
| ProgramInstruction (programId : PublicKey) (keys : list PublicKey) (data : Buffer).

Record Transaction : Type := {
  instructions : list TransactionInstruction
}.

Record TransactionMessage : Type := {
  tm_instructions : list TransactionInstruction;
  tm_payerKey : PublicKey;
  tm_recentBlockhash : Blockhash
}.

Record AddressLookupTableAccount : Type := {
  lut_key : PublicKey;
  lut_addresses : list PublicKey
}.

Record Signer : Type := {
  signer_publicKey : PublicKey;
  signer_secretKey : Buffer
}.

Record ProgramError : Type := {
  pe_code : Z;
  description : string
}.

(** ** Numbers

    A JS number is an IEEE 754 binary64 value; [*] is the correctly rounded
    product, [==] between numbers is the IEEE equality (both zeros are
    equal, [NaN] equals nothing). *)
Definition Number := PrimFloat.float.

(** The number of an integer literal (exact below [2^53]). *)
Definition Number_of_Z (z : Z) : Number :=
  if (z <? 0)%Z then PrimFloat.opp (PrimFloat.of_uint63 (Uint63.of_Z (- z)))
  else PrimFloat.of_uint63 (Uint63.of_Z z).

Definition LAMPORTS_PER_SOL : Number := Number_of_Z 1000000000.

(** Truthiness of a number: [0], [-0] and [NaN] are falsy. *)
Definition Number_truthy (x : Number) : bool :=
  negb (PrimFloat.eqb x PrimFloat.zero) && negb (PrimFloat.is_nan x).

(** The integer that a number is, when it is one: what [BigInt(x)] returns,
    and it throws a [RangeError] on every other number. *)
Definition Number_integer (x : Number) : option Z :=
  match Prim2SF x with
  | S754_zero _ => Some 0%Z
  | S754_finite s m e =>
      let n := if s then Z.neg m else Z.pos m in
      if (0 <=? e)%Z then Some (n * 2 ^ e)%Z
      else if (n mod 2 ^ (- e) =? 0)%Z then Some (n / 2 ^ (- e))%Z
      else None
  | _ => None
  end.

(** [Math.round]: the integer nearest to [x], the one towards [+Infinity] of
    two that are as near; [-0] for a negative [x] that rounds to zero; [x]
    itself when it is an integer, infinite or [NaN]. *)
Definition Math_round (x : Number) : Number :=
  match Prim2SF x with
  | S754_finite s m e =>
      if (0 <=? e)%Z then x
      else
        let n := if s then Z.neg m else Z.pos m in
        let r := ((2 * n + 2 ^ (- e)) / 2 ^ (1 - e))%Z in
        if (r =? 0)%Z then (if s then PrimFloat.neg_zero else PrimFloat.zero)
        else Number_of_Z r
  | _ => x
  end.

(** [a ?? b]. *)
Definition nullish {A : Type} (a : option A) (b : A) : A :=
  match a with Some x => x | None => b end.

(** [a ?? b] where [b] may itself be undefined. *)
Definition nullish_opt {A : Type} (a b : option A) : option A :=
  match a with Some x => Some x | None => b end.

(** ** Outcomes, worlds and the monad of the model *)

Inductive Outcome (A : Type) : Type :=
| Return (a : A)
| Throw (e : JsError)
| Diverge.
Arguments Return {A} a.
Arguments Throw {A} e.
Arguments Diverge {A}.

(** The RPC, wallet and relay methods the client awaits. *)
Inductive Method : Type :=
| m_getLatestBlockhashAndContext
| m_getLatestBlockhash
| m_simulateTransaction
| m_walletSignTransaction
| m_sendTransaction
| m_sendRawTransaction
| m_getSignatureStatus
| m_getBlockHeight
| m_confirmTransaction
| m_sleep
| m_axiosPost
| m_getAddressLookupTable
| m_loadBankMetadatas
| m_bankFetchMultiple
| m_bankAll
| m_getMultipleAccountsInfo.

Definition Method_eqb (a b : Method) : bool :=
  match a, b with
  | m_getLatestBlockhashAndContext, m_getLatestBlockhashAndContext
  | m_getLatestBlockhash, m_getLatestBlockhash
  | m_simulateTransaction, m_simulateTransaction
  | m_walletSignTransaction, m_walletSignTransaction
  | m_sendTransaction, m_sendTransaction
  | m_sendRawTransaction, m_sendRawTransaction
  | m_getSignatureStatus, m_getSignatureStatus
  | m_getBlockHeight, m_getBlockHeight
  | m_confirmTransaction, m_confirmTransaction
  | m_sleep, m_sleep
  | m_axiosPost, m_axiosPost
  | m_getAddressLookupTable, m_getAddressLookupTable
  | m_loadBankMetadatas, m_loadBankMetadatas
  | m_bankFetchMultiple, m_bankFetchMultiple
  | m_bankAll, m_bankAll
  | m_getMultipleAccountsInfo, m_getMultipleAccountsInfo => true
  | _, _ => false
  end.

(** The body of the POST to the relay: [method: "sendTransaction"] with the
    base58 transaction and the three fixed parameters. *)
Record JitoPayload : Type := {
  jp_method : string;
  jp_encodedTx : string;
  jp_maxRetries : Z;
  jp_skipPreflight : bool;
  jp_preflightCommitment : Commitment
}.

Record AccountInfo : Type := {
  ai_data : Buffer
}.

Record MarginfiConfig : Type := {
  cluster : string;
  programId : PublicKey;
  groupPk : PublicKey
}.

Record Wallet : Type := {
  wallet_publicKey : PublicKey
}.

Record AnchorProvider : Type := {
  provider_connection : Connection;
  provider_opts : ConfirmOptions;
  provider_publicKey : PublicKey
}.

Record MarginfiProgram : Type := {
  program_id : PublicKey;
  program_provider : AnchorProvider
}.

Record MarginfiClientOptions : Type := {
  mo_confirmOpts : option ConfirmOptions;
  mo_readOnly : option bool;
  mo_sendEndpoint : option string;
  mo_spamSendTx : option bool;
  mo_skipPreflightInSpam : option bool;
  mo_preloadedBankAddresses : option (list PublicKey)
}.

(** A JS [Map] with string keys, in insertion order: [set] on a key that is
    present keeps its place and replaces its value. *)
Fixpoint Map_set {V : Type} (k : string) (v : V) (m : list (string * V)) : list (string * V) :=
  match m with
  | [] => [(k, v)]
  | (k', v') :: rest =>
      if (k' =? k)%string then (k, v) :: rest else (k', v') :: Map_set k v rest
  end.

Definition new_Map {V : Type} (entries : list (string * V)) : list (string * V) :=
  fold_left (fun m kv => Map_set (fst kv) (snd kv) m) entries [].

Fixpoint Map_get {V : Type} (k : string) (m : list (string * V)) : option V :=
  match m with
  | [] => None
  | (k', v) :: rest => if (k' =? k)%string then Some v else Map_get k rest
  end.

Section Client.

(** The compiled message of web3.js and the decoded on-chain accounts are
    produced by code outside this file; the client only passes them on. *)
Context {MessageV0 MarginfiGroup Bank OraclePrice BankRaw BankMetadata : Type}.

Record VersionedTransaction : Type := {
  message : MessageV0;
  signatures : list Buffer
}.

(** What the client imports: web3.js, anchor, mrgn-common and the decoders of
    the sibling modules.  All of it is pure; what can throw returns a
    [Response].  [Connection_assertEndpoint] is the check that the
    constructor of [Connection] makes on its endpoint.  [message_serialize]
    is [MessageV0.serialize()], which encodes into a buffer of the packet
    size and throws when the encoding does not fit.  The two instruction
    builders take a JS number and convert it with [BigInt]. *)
Record Platform : Type := {
  Connection_assertEndpoint : string -> Response unit;
  ComputeBudgetProgram_setComputeUnitPrice : Number -> Response TransactionInstruction;
  SystemProgram_transfer : PublicKey -> PublicKey -> Number -> Response TransactionInstruction;
  compileToV0Message : TransactionMessage -> list AddressLookupTableAccount -> Response MessageV0;
  new_VersionedTransaction : MessageV0 -> VersionedTransaction;
  message_serialize : MessageV0 -> Response Buffer;
  getAccountKeys : MessageV0 -> option (list AddressLookupTableAccount) -> Response (list PublicKey);
  vtx_sign : VersionedTransaction -> list Signer -> Response VersionedTransaction;
  vtx_serialize : VersionedTransaction -> Buffer;
  bs58_encode : Buffer -> string;
  signature_toString : Buffer -> string;
  JSON_stringify : TransactionError -> string;
  parseErrorFromLogs : list string -> PublicKey -> option ProgramError;
  Buffer_from_base64 : string -> Buffer;
  DEFAULT_CONFIRM_OPTS : ConfirmOptions;
  AnchorProvider_defaultOptions : ConfirmOptions;
  ADDRESS_LOOKUP_TABLE_FOR_GROUP : string -> option (list PublicKey);
  MarginfiGroup_fromBuffer : PublicKey -> Buffer -> Response MarginfiGroup;
  Bank_fromAccountParsed : PublicKey -> BankRaw -> option BankMetadata -> Response Bank;
  oracleKeys0 : BankRaw -> PublicKey;
  parsePriceInfo : BankRaw -> Buffer -> Response OraclePrice
}.

(** The nodes, the wallet and the relay.  The first argument of an oracle is
    the number of earlier calls of the same method in the run, so a network is
    a script of answers per method, which may also depend on the request. *)
Record Network : Type := {
  rpc_getLatestBlockhashAndContext : nat -> Connection -> Response BlockhashWithContext;
  rpc_getLatestBlockhash : nat -> Connection -> Response BlockhashWithContext;
  rpc_simulateTransaction :
    nat -> Connection -> VersionedTransaction -> SimulateTransactionConfig ->
    Response SimulatedTransactionResponse;
  wallet_signTransaction : nat -> VersionedTransaction -> Response VersionedTransaction;
  rpc_sendTransaction :
    nat -> Connection -> VersionedTransaction -> SendOptions -> Response TransactionSignature;
  rpc_sendRawTransaction :
    nat -> Connection -> Buffer -> SendOptions -> Response TransactionSignature;
  rpc_getSignatureStatus :
    nat -> Connection -> TransactionSignature -> option SignatureStatusConfig ->
    Response (option SignatureStatus);
  rpc_getBlockHeight : nat -> Connection -> option Commitment -> Response Z;
  rpc_confirmTransaction :
    nat -> Connection -> BlockheightBasedStrategy -> Commitment -> Response unit;
  axios_post : nat -> string -> JitoPayload -> Response TransactionSignature;
  rpc_getAddressLookupTable :
    nat -> Connection -> PublicKey -> Response (option AddressLookupTableAccount);
  loadBankMetadatas : nat -> Response (list (string * BankMetadata));
  bank_fetchMultiple : nat -> list PublicKey -> Response (list (option BankRaw));
  bank_all : nat -> Z -> string -> Response (list (PublicKey * BankRaw));
  rpc_getMultipleAccountsInfo :
    nat -> list PublicKey -> option Commitment -> Response (list (option AccountInfo))
}.

Inductive Event : Type :=
| EvGetLatestBlockhashAndContext (c : Connection)
| EvGetLatestBlockhash (c : Connection)
| EvSimulateTransaction (c : Connection) (tx : VersionedTransaction)
    (config : SimulateTransactionConfig)
| EvWalletSignTransaction (tx : VersionedTransaction)
| EvSendTransaction (c : Connection) (tx : VersionedTransaction) (options : SendOptions)
| EvSendRawTransaction (c : Connection) (raw : Buffer) (options : SendOptions)
| EvGetSignatureStatus (c : Connection) (signature : TransactionSignature)
    (config : option SignatureStatusConfig)
| EvGetBlockHeight (c : Connection) (cm : option Commitment)
| EvConfirmTransaction (c : Connection) (strategy : BlockheightBasedStrategy) (cm : Commitment)
| EvSleep (ms : Z)
| EvAxiosPost (url : string) (payload : JitoPayload)
| EvGetAddressLookupTable (c : Connection) (address : PublicKey)
| EvLoadBankMetadatas
| EvBankFetchMultiple (addresses : list PublicKey)
| EvBankAll (offset : Z) (bytes : string)
| EvGetMultipleAccountsInfo (keys : list PublicKey) (cm : option Commitment).

Definition method_of (e : Event) : Method :=
  match e with
  | EvGetLatestBlockhashAndContext _ => m_getLatestBlockhashAndContext
  | EvGetLatestBlockhash _ => m_getLatestBlockhash
  | EvSimulateTransaction _ _ _ => m_simulateTransaction
  | EvWalletSignTransaction _ => m_walletSignTransaction
  | EvSendTransaction _ _ _ => m_sendTransaction
  | EvSendRawTransaction _ _ _ => m_sendRawTransaction
  | EvGetSignatureStatus _ _ _ => m_getSignatureStatus
  | EvGetBlockHeight _ _ => m_getBlockHeight
  | EvConfirmTransaction _ _ _ => m_confirmTransaction
  | EvSleep _ => m_sleep
  | EvAxiosPost _ _ => m_axiosPost
  | EvGetAddressLookupTable _ _ => m_getAddressLookupTable
  | EvLoadBankMetadatas => m_loadBankMetadatas
  | EvBankFetchMultiple _ => m_bankFetchMultiple
  | EvBankAll _ _ => m_bankAll
  | EvGetMultipleAccountsInfo _ _ => m_getMultipleAccountsInfo
  end.

(** How many calls of method [m] the trace holds. *)
Definition calls (m : Method) (tr : list Event) : nat :=
  length (filter (fun e => Method_eqb (method_of e) m) tr).

(** The fields of [class MarginfiClient]. *)
Record MarginfiClient : Type := {
  config : MarginfiConfig;
  program : MarginfiProgram;
  wallet : Wallet;
  isReadOnly : bool;
  group : MarginfiGroup;
  banks : list (string * Bank);
  oraclePrices : list (string * OraclePrice);
  addressLookupTables : list AddressLookupTableAccount;
  preloadedBankAddresses : option (list PublicKey);
  bankMetadataMap : option (list (string * BankMetadata));
  sendEndpoint : option string;
  spamSendTx : bool;
  skipPreflightInSpam : bool
}.

(** A world is the object a method runs on ([this]; [unit] for the static
    functions) and the calls made so far, oldest first. *)
Record World (St : Type) : Type := {
  this : St;
  trace : list Event
}.
Arguments this {St} w.
Arguments trace {St} w.

Definition M (St A : Type) : Type := World St -> Outcome A * World St.

#[export] Instance Monad_M {St : Type} : Monad (M St) := {|
  ret := fun A (a : A) w => (Return a, w);
  bind := fun A B (m : M St A) (k : A -> M St B) w =>
    match m w with
    | (Return a, w') => k a w'
    | (Throw e, w') => (Throw e, w')
    | (Diverge, w') => (Diverge, w')
    end
|}.

(** [throw] and [try { body } catch (error) { handler }]. *)
#[export] Instance Exc_M {St : Type} : MonadExc JsError (M St) := {|
  raise := fun A (e : JsError) w => (Throw e, w);
  catch := fun A (body : M St A) (handler : JsError -> M St A) w =>
    match body w with
    | (Throw e, w') => handler e w'
    | r => r
    end
|}.

Definition diverge {St A : Type} : M St A := fun w => (Diverge, w).

(** A value of a pure library call that may throw. *)
Definition lift {St A : Type} (r : Response A) : M St A :=
  match r with
  | Resolved a => ret a
  | Rejected e => raise e
  end.

(** [await] of one call: the request is recorded, then the promise settles
    with the oracle's answer for this call number. *)
Definition await {St A : Type} (ev : Event) (oracle : nat -> Response A) : M St A :=
  fun w =>
    let w' := {| this := this w; trace := trace w ++ [ev] |} in
    match oracle (calls (method_of ev) (trace w)) with
    | Resolved a => (Return a, w')
    | Rejected e => (Throw e, w')
    end.

Definition get_this {St : Type} : M St St := fun w => (Return (this w), w).

Variable lib : Platform.
Variable net : Network.

Definition sleep {St : Type} (ms : Z) : M St unit :=
  await (EvSleep ms) (fun _ => Resolved tt).

(** [Promise.all(requests)]: every call is issued, in order, before any
    answer is looked at; the result is the answers, or the first rejection. *)
Fixpoint Promise_all {St A : Type} (reqs : list (Event * (nat -> Response A)))
  (tr : list Event) : list (Response A) * list Event :=
  match reqs with
  | [] => ([], tr)
  | (ev, oracle) :: rest =>
      let r := oracle (calls (method_of ev) tr) in
      let '(rs, tr') := Promise_all (St := St) rest (tr ++ [ev]) in
      (r :: rs, tr')
  end.

Fixpoint settle_all {A : Type} (rs : list (Response A)) : Response (list A) :=
  match rs with
  | [] => Resolved []
  | Resolved a :: rest =>
      match settle_all rest with
      | Resolved l => Resolved (a :: l)
      | Rejected e => Rejected e
      end
  | Rejected e :: _ => Rejected e
  end.

Definition await_all {St A : Type} (reqs : list (Event * (nat -> Response A))) : M St (list A) :=
  fun w =>
    let '(rs, tr') := Promise_all (St := St) reqs (trace w) in
    let w' := {| this := this w; trace := tr' |} in
    match settle_all rs with
    | Resolved l => (Return l, w')
    | Rejected e => (Throw e, w')
    end.

(** [array.map(f)] for a callback that may throw. *)
Fixpoint map_throwing {A B : Type} (f : nat -> A -> Response B) (i : nat) (l : list A)
  : Response (list B) :=
  match l with
  | [] => Resolved []
  | a :: rest =>
      match f i a with
      | Rejected e => Rejected e
      | Resolved b =>
          match map_throwing f (S i) rest with
          | Resolved bs => Resolved (b :: bs)
          | Rejected e => Rejected e
          end
      end
  end.

(** ** Factories *)

(** The constructor; [spamSendTx] and [skipPreflightInSpam] default to [true]
    when the argument is [undefined]. *)
Definition new_MarginfiClient
  (config : MarginfiConfig) (program : MarginfiProgram) (wallet : Wallet) (isReadOnly : bool)
  (group : MarginfiGroup) (banks : list (string * Bank))
  (priceInfos : list (string * OraclePrice))
  (addressLookupTables : option (list AddressLookupTableAccount))
  (preloadedBankAddresses : option (list PublicKey))
  (bankMetadataMap : option (list (string * BankMetadata)))
  (sendEndpoint : option string)
  (spamSendTx : option bool) (skipPreflightInSpam : option bool) : MarginfiClient :=
  {| config := config;
     program := program;
     wallet := wallet;
     isReadOnly := isReadOnly;
     group := group;
     banks := banks;
     oraclePrices := priceInfos;
     addressLookupTables := nullish addressLookupTables [];
     preloadedBankAddresses := preloadedBankAddresses;
     bankMetadataMap := bankMetadataMap;
     sendEndpoint := sendEndpoint;
     spamSendTx := nullish spamSendTx true;
     skipPreflightInSpam := nullish skipPreflightInSpam true |}.

(** [{...base, ...over}] on confirm options: a field set in [over] wins (a
    key of [over] that is present with the value [undefined] is read as
    absent). *)
Definition spread_ConfirmOptions (base over : ConfirmOptions) : ConfirmOptions :=
  {| co_skipPreflight := nullish_opt (co_skipPreflight over) (co_skipPreflight base);
     co_commitment := nullish_opt (co_commitment over) (co_commitment base);
     co_preflightCommitment :=
       nullish_opt (co_preflightCommitment over) (co_preflightCommitment base);
     co_maxRetries := nullish_opt (co_maxRetries over) (co_maxRetries base);
     co_minContextSlot := nullish_opt (co_minContextSlot over) (co_minContextSlot base) |}.

Definition empty_ConfirmOptions : ConfirmOptions :=
  {| co_skipPreflight := None; co_commitment := None; co_preflightCommitment := None;
     co_maxRetries := None; co_minContextSlot := None |}.

(** The loop of [fetchGroupData] over [bankAccountsData]: entry [i] is kept,
    with [bankAddresses[i]], when it is not [null]. *)
Fixpoint keyBankDatas (bankAddresses : list PublicKey) (datas : list (option BankRaw))
  : list (PublicKey * BankRaw) :=
  match datas with
  | [] => []
  | d :: ds =>
      let rest := keyBankDatas (tl bankAddresses) ds in
      match d with
      | Some raw => (hd "" bankAddresses, raw) :: rest
      | None => rest
      end
  end.

Definition fetchGroupData {St : Type}
  (program : MarginfiProgram) (groupAddress : PublicKey) (cm : option Commitment)
  (bankAddresses : option (list PublicKey))
  (bankMetadataMap : option (list (string * BankMetadata)))
  : M St (MarginfiGroup * list (string * Bank) * list (string * OraclePrice)) :=
  bankDatasKeyed <-
    match bankAddresses with
    | Some (a :: more) =>
        bankAccountsData <- await (EvBankFetchMultiple (a :: more))
                              (fun n => bank_fetchMultiple net n (a :: more)) ;;
        ret (keyBankDatas (a :: more) bankAccountsData)
    | _ =>
        await (EvBankAll (8 + 32 + 1) groupAddress)
          (fun n => bank_all net n (8 + 32 + 1) groupAddress)
    end ;;
  let keys := groupAddress :: map (fun b => oracleKeys0 lib (snd b)) bankDatasKeyed in
  ais <- await (EvGetMultipleAccountsInfo keys cm)
           (fun n => rpc_getMultipleAccountsInfo net n keys cm) ;;
  let priceFeedAis := tl ais in
  match hd None ais with
  | None => raise (Error "Failed to fetch the on-chain group data")
  | Some groupAi =>
      marginfiGroup <- lift (MarginfiGroup_fromBuffer lib groupAddress (ai_data groupAi)) ;;
      banks <- lift (map_throwing
                 (fun _ b =>
                    let bankMetadata :=
                      match bankMetadataMap with
                      | Some mm => Map_get (fst b) mm
                      | None => None
                      end in
                    match Bank_fromAccountParsed lib (fst b) (snd b) bankMetadata with
                    | Resolved bank => Resolved (fst b, bank)
                    | Rejected e => Rejected e
                    end)
                 0%nat bankDatasKeyed) ;;
      priceInfos <- lift (map_throwing
                 (fun index b =>
                    match nth_error priceFeedAis index with
                    | Some (Some priceDataRaw) =>
                        match parsePriceInfo lib (snd b) (ai_data priceDataRaw) with
                        | Resolved p => Resolved (fst b, p)
                        | Rejected e => Rejected e
                        end
                    | _ => Rejected (Error ("Failed to fetch price oracle account for bank "
                                            ++ fst b))
                    end)
                 0%nat bankDatasKeyed) ;;
      ret (marginfiGroup, new_Map banks, new_Map priceInfos)
  end.

(** [static async fetch(config, wallet, connection, clientOptions?)]. *)
Definition fetch (config : MarginfiConfig) (wallet : Wallet) (connection : Connection)
  (clientOptions : option MarginfiClientOptions) : M unit MarginfiClient :=
  let opt {A : Type} (f : MarginfiClientOptions -> option A) : option A :=
    match clientOptions with Some o => f o | None => None end in
  let confirmOpts := nullish (opt mo_confirmOpts) empty_ConfirmOptions in
  let readOnly := nullish (opt mo_readOnly) false in
  let sendEndpoint := opt mo_sendEndpoint in
  let preloadedBankAddresses := opt mo_preloadedBankAddresses in
  let spamSendTx := nullish (opt mo_spamSendTx) false in
  let skipPreflightInSpam := nullish (opt mo_skipPreflightInSpam) false in
  let defaults := AnchorProvider_defaultOptions lib in
  let provider :=
    {| provider_connection := connection;
       provider_opts :=
         spread_ConfirmOptions
           {| co_skipPreflight := co_skipPreflight defaults;
              co_commitment := nullish_opt (commitment connection) (co_commitment defaults);
              co_preflightCommitment := co_preflightCommitment defaults;
              co_maxRetries := co_maxRetries defaults;
              co_minContextSlot := co_minContextSlot defaults |}
           confirmOpts;
       provider_publicKey := wallet_publicKey wallet |} in
  let program := {| program_id := programId config; program_provider := provider |} in
  bankMetadataMap <-
    catch (m <- await EvLoadBankMetadatas (loadBankMetadatas net) ;; ret (Some m))
          (fun _ => ret None) ;;
  data <- fetchGroupData program (groupPk config) (commitment connection)
            preloadedBankAddresses bankMetadataMap ;;
  let '(marginfiGroup, banks, priceInfos) := data in
  let addressLookupTableAddresses :=
    nullish (ADDRESS_LOOKUP_TABLE_FOR_GROUP lib (groupPk config)) [] in
  responses <- await_all
                 (map (fun address =>
                         (EvGetAddressLookupTable connection address,
                          fun n => rpc_getAddressLookupTable net n connection address))
                      addressLookupTableAddresses) ;;
  let addressLookupTables :=
    flat_map (fun table => match table with Some t => [t] | None => [] end) responses in
  ret (new_MarginfiClient config program wallet readOnly marginfiGroup banks priceInfos
         (Some addressLookupTables) preloadedBankAddresses bankMetadataMap sendEndpoint
         (Some spamSendTx) (Some skipPreflightInSpam)).

(** Assignments to one field of [this]. *)
Definition set_group (g : MarginfiGroup) (c : MarginfiClient) : MarginfiClient :=
  {| config := config c; program := program c; wallet := wallet c;
     isReadOnly := isReadOnly c; group := g; banks := banks c;
     oraclePrices := oraclePrices c; addressLookupTables := addressLookupTables c;
     preloadedBankAddresses := preloadedBankAddresses c;
     bankMetadataMap := bankMetadataMap c; sendEndpoint := sendEndpoint c;
     spamSendTx := spamSendTx c; skipPreflightInSpam := skipPreflightInSpam c |}.

Definition set_banks (b : list (string * Bank)) (c : MarginfiClient) : MarginfiClient :=
  {| config := config c; program := program c; wallet := wallet c;
     isReadOnly := isReadOnly c; group := group c; banks := b;
     oraclePrices := oraclePrices c; addressLookupTables := addressLookupTables c;
     preloadedBankAddresses := preloadedBankAddresses c;
     bankMetadataMap := bankMetadataMap c; sendEndpoint := sendEndpoint c;
     spamSendTx := spamSendTx c; skipPreflightInSpam := skipPreflightInSpam c |}.

Definition set_oraclePrices (p : list (string * OraclePrice)) (c : MarginfiClient)
  : MarginfiClient :=
  {| config := config c; program := program c; wallet := wallet c;
     isReadOnly := isReadOnly c; group := group c; banks := banks c;
     oraclePrices := p; addressLookupTables := addressLookupTables c;
     preloadedBankAddresses := preloadedBankAddresses c;
     bankMetadataMap := bankMetadataMap c; sendEndpoint := sendEndpoint c;
     spamSendTx := spamSendTx c; skipPreflightInSpam := skipPreflightInSpam c |}.

Definition assign {St : Type} (f : St -> St) : M St unit :=
  fun w => (Return tt, {| this := f (this w); trace := trace w |}).

(** [async reload()]: three assignments to [this], after the fetch. *)
Definition reload : M MarginfiClient unit :=
  c <- get_this ;;
  data <- fetchGroupData (program c) (groupPk (config c))
            (commitment (provider_connection (program_provider (program c))))
            (preloadedBankAddresses c) None ;;
  let '(marginfiGroup, fetchedBanks, priceInfos) := data in
  assign (set_group marginfiGroup) ;;
  assign (set_banks fetchedBanks) ;;
  assign (set_oraclePrices priceInfos).

(** ** Helpers of the submission paths *)

Definition provider (c : MarginfiClient) : AnchorProvider := program_provider (program c).

(** The handle that [new Connection(endpoint, this.provider.opts)] builds
    when it builds one: its commitment is the one of the options object.
    For the endpoint of the provider's own connection, which passed the
    constructor when that connection was built, this is the constructor. *)
Definition new_Connection (endpoint : string) (opts : ConfirmOptions) : Connection :=
  {| rpcEndpoint := endpoint; commitment := co_commitment opts |}.

(** The connection a submission path works on: the one given by the caller,
    or [new Connection(this.provider.connection.rpcEndpoint, this.provider.opts)]. *)
Definition connection_of (c : MarginfiClient) (connection_args : option Connection)
  : Connection :=
  match connection_args with
  | Some a => a
  | None => new_Connection (rpcEndpoint (provider_connection (provider c)))
              (provider_opts (provider c))
  end.

(** The send connection, when it can be built: the handle on
    [this.sendEndpoint], or [connection] when there is no send endpoint (an
    empty string is falsy). *)
Definition sendConnection_of (c : MarginfiClient) (connection : Connection) : Connection :=
  match sendEndpoint c with
  | Some e => if (e =? "")%string then connection
              else new_Connection e (provider_opts (provider c))
  | None => connection
  end.

(** [this.sendEndpoint ? new Connection(this.sendEndpoint, this.provider.opts)
    : connection]: the send endpoint is a string of the options, and the
    constructor throws when it is not an [http:] or [https:] URL. *)
Definition new_sendConnection (c : MarginfiClient) (connection : Connection)
  : Response Connection :=
  match sendEndpoint c with
  | Some e =>
      if (e =? "")%string then Resolved connection
      else
        match Connection_assertEndpoint lib e with
        | Resolved _ => Resolved (new_Connection e (provider_opts (provider c)))
        | Rejected err => Rejected err
        end
  | None => Resolved connection
  end.

(** [opts ?? { minContextSlot, sigVerify: false }], read as the configuration
    of [simulateTransaction]: an options object given by the caller is passed
    as it is, and has no [sigVerify]. *)
Definition simulate_config (opts : option TransactionOptions) (minContextSlot : Z)
  : SimulateTransactionConfig :=
  match opts with
  | Some o =>
      {| sim_commitment := co_commitment (to_confirm o);
         sim_sigVerify := None;
         sim_minContextSlot := co_minContextSlot (to_confirm o);
         sim_accounts := None |}
  | None =>
      {| sim_commitment := None;
         sim_sigVerify := Some false;
         sim_minContextSlot := Some minContextSlot;
         sim_accounts := None |}
  end.

(** The [mergedOpts] of both submission paths. *)
Definition mergedOpts_of (connection : Connection) (minContextSlot : Z)
  (opts : option TransactionOptions) : ConfirmOptions :=
  let d := DEFAULT_CONFIRM_OPTS lib in
  let base :=
    {| co_skipPreflight := co_skipPreflight d;
       co_commitment := nullish_opt (commitment connection) (co_commitment d);
       co_preflightCommitment := nullish_opt (commitment connection) (co_commitment d);
       co_maxRetries := co_maxRetries d;
       co_minContextSlot := Some minContextSlot |} in
  match opts with
  | Some o => spread_ConfirmOptions base (to_confirm o)
  | None => base
  end.

Definition timeout_message : string :=
  "Transaction was not confirmed within †he alloted time".

(** The [catch] block shared by [processTransaction],
    [sendAndConfirmTransaction] and the simulation of [signTranscationJito]. *)
Definition classify (c : MarginfiClient) (error : JsError) : JsError :=
  match error with
  | SendTransactionError msg (Some logs) =>
      let errorParsed := parseErrorFromLogs lib logs (programId (config c)) in
      ProcessTransactionError
        (match errorParsed with Some p => description p | None => msg end)
        SimulationError (Some logs)
  | _ => ProcessTransactionError (error_message error) FallthroughError None
  end.

(** [signatureStatus.value?.confirmationStatus === s]. *)
Definition status_is (v : option SignatureStatus) (s : string) : bool :=
  match v with
  | Some st =>
      match confirmationStatus st with
      | Some cs => (cs =? s)%string
      | None => false
      end
  | None => false
  end.

Definition is_finalized (v : option SignatureStatus) : bool := status_is v "finalized".

Definition is_processed_or_better (v : option SignatureStatus) : bool :=
  status_is v "processed" || status_is v "confirmed" || status_is v "finalized".

(** [for (let i = 0; i < 5; i++) { status query; if (hit) { status = ...; break; }
    await sleep(ms); }] with [n] rounds left; the result tells whether the
    loop left through [break]. *)
Fixpoint pollSignatureStatus {St : Type} (hit : option SignatureStatus -> bool) (ms : Z)
  (connection : Connection) (signature : TransactionSignature) (n : nat) : M St bool :=
  match n with
  | O => ret false
  | S n' =>
      let cfg := Some {| searchTransactionHistory := false |} in
      signatureStatus <- await (EvGetSignatureStatus connection signature cfg)
                           (fun k => rpc_getSignatureStatus net k connection signature cfg) ;;
      if hit signatureStatus then ret true
      else sleep ms ;; pollSignatureStatus hit ms connection signature n'
  end.

(** One pass through the body of [while (true)] in spam mode, up to the test
    of [status] that ends it.  [status] is the variable declared before the
    loop; [label] is the value the sub-poll assigns to it. *)
Definition spamIteration {St : Type} (sendOptions : SendOptions)
  (hit : option SignatureStatus -> bool) (label : string) (ms : Z)
  (sendConnection connection : Connection) (versionedTransaction : VersionedTransaction)
  (lastValidBlockHeight : Z) (status : string) : M St (TransactionSignature * string) :=
  signature <- await (EvSendTransaction sendConnection versionedTransaction sendOptions)
                 (fun k => rpc_sendTransaction net k sendConnection versionedTransaction
                             sendOptions) ;;
  found <- pollSignatureStatus hit ms connection signature 5 ;;
  let status := if (found : bool) then label else status in
  blockHeight <- await (EvGetBlockHeight connection None)
                   (fun k => rpc_getBlockHeight net k connection None) ;;
  if blockHeight >? lastValidBlockHeight
  then raise (ProcessTransactionError timeout_message TimeoutError None)
  else ret (signature, status).

(** [while (true) { ...; if (status === label) break; }]. *)
Fixpoint spamLoop {St : Type} (fuel : nat) (sendOptions : SendOptions)
  (hit : option SignatureStatus -> bool) (label : string) (ms : Z)
  (sendConnection connection : Connection) (versionedTransaction : VersionedTransaction)
  (lastValidBlockHeight : Z) (status : string) : M St TransactionSignature :=
  match fuel with
  | O => diverge
  | S fuel' =>
      r <- spamIteration sendOptions hit label ms sendConnection connection
             versionedTransaction lastValidBlockHeight status ;;
      let '(signature, status) := r in
      if (status =? label)%string then ret signature
      else spamLoop fuel' sendOptions hit label ms sendConnection connection
             versionedTransaction lastValidBlockHeight status
  end.

(** The options of the two spam sends. *)
Definition spamSendOptions_process : SendOptions :=
  {| so_skipPreflight := None; so_preflightCommitment := None;
     so_maxRetries := Some 0; so_minContextSlot := None |}.

Definition spamSendOptions_confirm : SendOptions :=
  {| so_skipPreflight := Some true; so_preflightCommitment := None;
     so_maxRetries := Some 0; so_minContextSlot := None |}.

(** The simulation that precedes the spam loop when [skipPreflightInSpam] is
    set. *)
Definition preflightSimulation {St : Type} (connection : Connection)
  (versionedTransaction : VersionedTransaction) (opts : option TransactionOptions)
  (minContextSlot : Z) : M St unit :=
  let cfg := simulate_config opts minContextSlot in
  response <- await (EvSimulateTransaction connection versionedTransaction cfg)
                (fun k => rpc_simulateTransaction net k connection versionedTransaction cfg) ;;
  if err_truthy (sr_err response)
  then raise (SendTransactionError
                (match sr_err response with
                 | Some e => JSON_stringify lib e
                 | None => ""
                 end)
                (Some (nullish (sr_logs response) [])))
  else ret tt.

(** The first [try] block of [processTransaction], [signTransaction] and
    [simulateTransaction]: a legacy transaction is compiled with the client's
    lookup tables, a versioned one is taken as it is. *)
Definition toVersioned {St : Type} (c : MarginfiClient)
  (transaction : Transaction + VersionedTransaction) (blockhash : Blockhash)
  : M St VersionedTransaction :=
  match transaction with
  | inl tx =>
      let versionedMessage :=
        {| tm_instructions := instructions tx;
           tm_payerKey := provider_publicKey (provider c);
           tm_recentBlockhash := blockhash |} in
      m <- lift (compileToV0Message lib versionedMessage (addressLookupTables c)) ;;
      ret (new_VersionedTransaction lib m)
  | inr vtx => ret vtx
  end.

Definition signWith {St : Type} (versionedTransaction : VersionedTransaction)
  (signers : option (list Signer)) : M St VersionedTransaction :=
  match signers with
  | Some s => lift (vtx_sign lib versionedTransaction s)
  | None => ret versionedTransaction
  end.

(** ** The submission paths *)

(** What the first [try] of [processTransaction] leaves in the variables
    declared before it. *)
Record Built : Type := {
  b_minContextSlot : Z;
  b_blockhash : Blockhash;
  b_lastValidBlockHeight : Z;
  b_versionedTransaction : VersionedTransaction
}.

Definition processTransaction_build (c : MarginfiClient) (connection : Connection)
  (transaction : Transaction + VersionedTransaction) (signers : option (list Signer))
  : M MarginfiClient Built :=
  getLatestBlockhashAndContext <-
    await (EvGetLatestBlockhashAndContext connection)
      (fun k => rpc_getLatestBlockhashAndContext net k connection) ;;
  let minContextSlot := context_slot getLatestBlockhashAndContext - 4 in
  let blockhash := value_blockhash getLatestBlockhashAndContext in
  let lastValidBlockHeight := value_lastValidBlockHeight getLatestBlockhashAndContext in
  versionedTransaction <- toVersioned c transaction blockhash ;;
  versionedTransaction <- signWith versionedTransaction signers ;;
  ret {| b_minContextSlot := minContextSlot;
         b_blockhash := blockhash;
         b_lastValidBlockHeight := lastValidBlockHeight;
         b_versionedTransaction := versionedTransaction |}.

(** The body of the second [try] of [processTransaction].  The console
    output is left out; of the explorer link that is printed, the
    serialization of the message is kept, because it can throw. *)
Definition processTransaction_send (fuel : nat) (c : MarginfiClient)
  (connection sendConnection : Connection) (opts : option TransactionOptions) (b : Built)
  : M MarginfiClient TransactionSignature :=
  let minContextSlot := b_minContextSlot b in
  let versionedTransaction := b_versionedTransaction b in
  if nullish (match opts with Some o => dryRun o | None => None end) false || isReadOnly c
  then
    let cfg := simulate_config opts minContextSlot in
    response <- await (EvSimulateTransaction connection versionedTransaction cfg)
                  (fun k => rpc_simulateTransaction net k connection versionedTransaction cfg) ;;
    lift (message_serialize lib (message versionedTransaction)) ;;
    if err_truthy (sr_err response)
    then raise (SendTransactionError
                  (match sr_err response with
                   | Some e => JSON_stringify lib e
                   | None => ""
                   end)
                  (Some (nullish (sr_logs response) [])))
    else
      match signatures versionedTransaction with
      | s :: _ => ret (signature_toString lib s)
      | [] => raise (TypeError "Cannot read properties of undefined (reading 'toString')")
      end
  else
    versionedTransaction <-
      await (EvWalletSignTransaction versionedTransaction)
        (fun k => wallet_signTransaction net k versionedTransaction) ;;
    let mergedOpts := mergedOpts_of connection minContextSlot opts in
    if spamSendTx c then
      (if skipPreflightInSpam c
       then preflightSimulation connection versionedTransaction opts minContextSlot
       else ret tt) ;;
      spamLoop fuel spamSendOptions_process is_finalized "finalized" 200
        sendConnection connection versionedTransaction (b_lastValidBlockHeight b) "pending"
    else
      let sendOptions :=
        {| so_skipPreflight := co_skipPreflight mergedOpts;
           so_preflightCommitment := co_preflightCommitment mergedOpts;
           so_maxRetries := co_maxRetries mergedOpts;
           so_minContextSlot := None |} in
      signature <- await (EvSendTransaction connection versionedTransaction sendOptions)
                     (fun k => rpc_sendTransaction net k connection versionedTransaction
                                 sendOptions) ;;
      let strategy :=
        {| st_blockhash := b_blockhash b;
           st_lastValidBlockHeight := b_lastValidBlockHeight b;
           st_signature := signature |} in
      await (EvConfirmTransaction connection strategy "finalized")
        (fun k => rpc_confirmTransaction net k connection strategy "finalized") ;;
      ret signature.

(** [async processTransaction(transaction, signers?, opts?, connection_args?)]. *)
Definition processTransaction (fuel : nat)
  (transaction : Transaction + VersionedTransaction) (signers : option (list Signer))
  (opts : option TransactionOptions) (connection_args : option Connection)
  : M MarginfiClient TransactionSignature :=
  c <- get_this ;;
  let connection := connection_of c connection_args in
  sendConnection <- lift (new_sendConnection c connection) ;;
  b <- catch (processTransaction_build c connection transaction signers)
         (fun error =>
            raise (ProcessTransactionError (error_message error) TransactionBuildingError None)) ;;
  catch (processTransaction_send fuel c connection sendConnection opts b)
    (fun error => raise (classify c error)).

(** [async signTransaction(transaction, signers?, connectionArgs?)]. *)
Definition signTransaction
  (transaction : Transaction + VersionedTransaction) (signers : option (list Signer))
  (connectionArgs : option Connection) : M MarginfiClient VersionedTransaction :=
  c <- get_this ;;
  let connection := connection_of c connectionArgs in
  versionedTransaction <-
    catch (r <- await (EvGetLatestBlockhashAndContext connection)
                  (fun k => rpc_getLatestBlockhashAndContext net k connection) ;;
           v <- toVersioned c transaction (value_blockhash r) ;;
           signWith v signers)
      (fun error =>
         raise (ProcessTransactionError (error_message error) TransactionBuildingError None)) ;;
  catch (await (EvWalletSignTransaction versionedTransaction)
           (fun k => wallet_signTransaction net k versionedTransaction))
    (fun error =>
       raise (ProcessTransactionError (error_message error) FallthroughError None)).

(** The body of the single [try] of [sendAndConfirmTransaction]. *)
Definition sendAndConfirmTransaction_body (fuel : nat) (c : MarginfiClient)
  (connection sendConnection : Connection) (versionedTransaction : VersionedTransaction)
  (opts : option TransactionOptions) : M MarginfiClient TransactionSignature :=
  getLatestBlockhashAndContext <-
    await (EvGetLatestBlockhashAndContext connection)
      (fun k => rpc_getLatestBlockhashAndContext net k connection) ;;
  let minContextSlot := context_slot getLatestBlockhashAndContext - 4 in
  let blockhash := value_blockhash getLatestBlockhashAndContext in
  let lastValidBlockHeight := value_lastValidBlockHeight getLatestBlockhashAndContext in
  let mergedOpts := mergedOpts_of connection minContextSlot opts in
  if spamSendTx c then
    (if skipPreflightInSpam c
     then preflightSimulation connection versionedTransaction opts minContextSlot
     else ret tt) ;;
    spamLoop fuel spamSendOptions_confirm is_processed_or_better "processed" 400
      sendConnection connection versionedTransaction lastValidBlockHeight "pending"
  else
    let sendOptions :=
      {| so_skipPreflight := None; so_preflightCommitment := Some "processed";
         so_maxRetries := None; so_minContextSlot := None |} in
    signature <- await (EvSendTransaction connection versionedTransaction sendOptions)
                   (fun k => rpc_sendTransaction net k connection versionedTransaction
                               sendOptions) ;;
    let strategy :=
      {| st_blockhash := blockhash;
         st_lastValidBlockHeight := lastValidBlockHeight;
         st_signature := signature |} in
    await (EvConfirmTransaction connection strategy "processed")
      (fun k => rpc_confirmTransaction net k connection strategy "processed") ;;
    ret signature.

(** [async sendAndConfirmTransaction(versionedTransaction, opts?, connectionArgs?)]. *)
Definition sendAndConfirmTransaction (fuel : nat)
  (versionedTransaction : VersionedTransaction) (opts : option TransactionOptions)
  (connectionArgs : option Connection) : M MarginfiClient TransactionSignature :=
  c <- get_this ;;
  let connection := connection_of c connectionArgs in
  sendConnection <- lift (new_sendConnection c connection) ;;
  catch (sendAndConfirmTransaction_body fuel c connection sendConnection
           versionedTransaction opts)
    (fun error => raise (classify c error)).

(** ** The relay path *)

(** [signTranscationJito] returns [false] or the signed transaction. *)
Inductive JitoSigned : Type :=
| ReturnedFalse
| ReturnedTransaction (vTx : VersionedTransaction).

(** [if (priorityFee)]: a number that is given and is truthy. *)
Definition fee_truthy (priorityFee : option Number) : bool :=
  match priorityFee with
  | Some f => Number_truthy f
  | None => false
  end.

Definition JITO_TIP_ACCOUNT : PublicKey := "DttWaMuVvTiduZRnguLF7jNxTgiMBZ1hyAumKUiL2KRL".

(** [tx.instructions] after the [unshift] of the priority fee and the [push]
    of the tip, both made before the blockhash is asked for (the code changes
    the list of the caller's [tx] in place; the client keeps no reference to
    it).  The products are products of JS numbers; each builder throws when
    the number it is given is not an integer, the fee builder first. *)
Definition jitoInstructions (c : MarginfiClient) (jitoTip : Number) (tx : Transaction)
  (priorityFee : option Number) : Response (list TransactionInstruction) :=
  let jitoTipInLamport := PrimFloat.mul jitoTip LAMPORTS_PER_SOL in
  match
    (if fee_truthy priorityFee
     then
       let priorityFeeMicroLamports :=
         PrimFloat.mul (PrimFloat.mul (nullish priorityFee PrimFloat.zero) LAMPORTS_PER_SOL)
           (Number_of_Z 1000000) in
       match ComputeBudgetProgram_setComputeUnitPrice lib
               (Math_round priorityFeeMicroLamports) with
       | Resolved fee => Resolved (fee :: instructions tx)
       | Rejected e => Rejected e
       end
     else Resolved (instructions tx))
  with
  | Rejected e => Rejected e
  | Resolved withFee =>
      match SystemProgram_transfer lib (provider_publicKey (provider c)) JITO_TIP_ACCOUNT
              jitoTipInLamport with
      | Resolved tip => Resolved (withFee ++ [tip])%list
      | Rejected e => Rejected e
      end
  end.

(** [async signTranscationJito(jitoTip, tx, luts?, priorityFee?)].  The
    serialization that measures the message is outside every [try]; the one
    made for the log line after the wallet has signed is inside the last. *)
Definition signTranscationJito (jitoTip : Number) (tx : Transaction)
  (luts : option (list AddressLookupTableAccount)) (priorityFee : option Number)
  : M MarginfiClient JitoSigned :=
  c <- get_this ;;
  if PrimFloat.eqb jitoTip PrimFloat.zero
  then raise (Error "Jito bundle tip has not been set.")
  else
    instructions <- lift (jitoInstructions c jitoTip tx priorityFee) ;;
    let connection := provider_connection (provider c) in
    getLatestBlockhashAndContext <-
      await (EvGetLatestBlockhashAndContext connection)
        (fun k => rpc_getLatestBlockhashAndContext net k connection) ;;
    let minContextSlot := context_slot getLatestBlockhashAndContext - 4 in
    let recentBlockhash := value_blockhash getLatestBlockhashAndContext in
    m <- lift (compileToV0Message lib
                 {| tm_instructions := instructions;
                    tm_payerKey := provider_publicKey (provider c);
                    tm_recentBlockhash := recentBlockhash |}
                 (nullish luts [])) ;;
    let vTx := new_VersionedTransaction lib m in
    serialized <- lift (message_serialize lib (message vTx)) ;;
    let totalSize := Z.of_nat (length serialized) in
    keys <- lift (getAccountKeys lib (message vTx) luts) ;;
    let totalKeys := Z.of_nat (length keys) in
    if (totalSize >? 1232) || (totalKeys >=? 64) then ret ReturnedFalse
    else
      let cfg :=
        {| sim_commitment := None; sim_sigVerify := Some false;
           sim_minContextSlot := Some minContextSlot; sim_accounts := None |} in
      catch (txSim <- await (EvSimulateTransaction connection vTx cfg)
                        (fun k => rpc_simulateTransaction net k connection vTx cfg) ;;
             ret tt)
        (fun error => raise (classify c error)) ;;
      catch (vTx <- await (EvWalletSignTransaction vTx)
                      (fun k => wallet_signTransaction net k vTx) ;;
             lift (message_serialize lib (message vTx)) ;;
             ret (ReturnedTransaction vTx))
        (fun error =>
           raise (ProcessTransactionError (error_message error) FallthroughError None)).

Definition jitoURL : string := "https://mainnet.block-engine.jito.wtf/api/v1/transactions".

Definition jitoSendOptions (connection : Connection) : SendOptions :=
  {| so_skipPreflight := Some true;
     so_preflightCommitment := commitment connection;
     so_maxRetries := Some 0;
     so_minContextSlot := None |}.

Definition not_confirmed_message (txSig : TransactionSignature) : string :=
  "Transaction " ++ txSig ++ " was not confirmed".

(** [while (currentBlockHeight < recentBlockhash.lastValidBlockHeight) { ... }
    throw Error(...)]. *)
Fixpoint jitoLoop {St : Type} (fuel : nat) (connection : Connection) (rawTx : Buffer)
  (txSig : TransactionSignature) (lastValidBlockHeight : Z) (currentBlockHeight : Z)
  : M St TransactionSignature :=
  if currentBlockHeight <? lastValidBlockHeight then
    match fuel with
    | O => diverge
    | S fuel' =>
        txSigHash <- await (EvSendRawTransaction connection rawTx (jitoSendOptions connection))
                       (fun k => rpc_sendRawTransaction net k connection rawTx
                                   (jitoSendOptions connection)) ;;
        signatureStatus <- await (EvGetSignatureStatus connection txSig None)
                             (fun k => rpc_getSignatureStatus net k connection txSig None) ;;
        currentBlockHeight <- await (EvGetBlockHeight connection (commitment connection))
                                (fun k => rpc_getBlockHeight net k connection
                                            (commitment connection)) ;;
        if is_processed_or_better signatureStatus then ret txSig
        else
          sleep 500 ;;
          jitoLoop fuel' connection rawTx txSig lastValidBlockHeight currentBlockHeight
    end
  else raise (Error (not_confirmed_message txSig)).

(** [async sendAndConfirmTrancationJito(tx)]. *)
Definition sendAndConfirmTrancationJito (fuel : nat) (tx : VersionedTransaction)
  : M MarginfiClient TransactionSignature :=
  c <- get_this ;;
  let connection := provider_connection (provider c) in
  let rawTx := vtx_serialize lib tx in
  recentBlockhash <- await (EvGetLatestBlockhash connection)
                       (fun k => rpc_getLatestBlockhash net k connection) ;;
  let encodedTx := bs58_encode lib rawTx in
  let payload :=
    {| jp_method := "sendTransaction"; jp_encodedTx := encodedTx; jp_maxRetries := 0;
       jp_skipPreflight := true; jp_preflightCommitment := "processed" |} in
  txSig <- catch (await (EvAxiosPost jitoURL payload) (fun k => axios_post net k jitoURL payload))
             (fun _ => raise (Error "Jito Bundle Error: cannot send.")) ;;
  currentBlockHeight <- await (EvGetBlockHeight connection (commitment connection))
                          (fun k => rpc_getBlockHeight net k connection
                                      (commitment connection)) ;;
  jitoLoop fuel connection rawTx txSig (value_lastValidBlockHeight recentBlockhash)
    currentBlockHeight.

(** ** The simulation path *)

(** [async simulateTransaction(transaction, accountsToInspect)]. *)
Definition simulateTransaction
  (transaction : Transaction + VersionedTransaction) (accountsToInspect : list PublicKey)
  : M MarginfiClient (list (option Buffer)) :=
  c <- get_this ;;
  let connection :=
    new_Connection (rpcEndpoint (provider_connection (provider c)))
      (provider_opts (provider c)) in
  versionedTransaction <-
    catch (r <- await (EvGetLatestBlockhashAndContext connection)
                  (fun k => rpc_getLatestBlockhashAndContext net k connection) ;;
           toVersioned c transaction (value_blockhash r))
      (fun error =>
         raise (ProcessTransactionError (error_message error) TransactionBuildingError None)) ;;
  let cfg :=
    {| sim_commitment := None; sim_sigVerify := Some false; sim_minContextSlot := None;
       sim_accounts := Some ("base64", accountsToInspect) |} in
  catch (response <- await (EvSimulateTransaction connection versionedTransaction cfg)
                       (fun k => rpc_simulateTransaction net k connection
                                   versionedTransaction cfg) ;;
         if err_truthy (sr_err response)
         then raise (Error (match sr_err response with
                            | Some e => JSON_stringify lib e
                            | None => ""
                            end))
         else
           ret (match sr_accounts response with
                | Some accounts =>
                    map (fun a => match a with
                                  | Some a => Some (Buffer_from_base64 lib (fst (acc_data a)))
                                  | None => None
                                  end)
                      accounts
                | None => []
                end))
    (fun error => raise (Error (error_toString error))).

End Client.

Arguments this {MessageV0 St} w.
Arguments trace {MessageV0 St} w.

(** ** A toy platform and scripted networks, for concrete runs

    The compiled message of the toy platform is the message it was compiled
    from, with the lookup tables it was compiled with.  Its size follows the
    wire format: 32 bytes for a key that stays in the message, one byte for a
    key found in a table, 34 bytes for a table that is used.  A message
    larger than the packet does not serialize, and a transaction whose
    message does not serialize can be neither signed nor simulated nor
    sent. *)

Definition dquote : string := String (Ascii.ascii_of_nat 34) EmptyString.

Record ToyMessageV0 : Type := {
  cm_message : TransactionMessage;
  cm_tables : list AddressLookupTableAccount
}.

Definition SYSTEM_PROGRAM : PublicKey := "11111111111111111111111111111111".
Definition COMPUTE_BUDGET_PROGRAM : PublicKey := "ComputeBudget111111111111111111111111111111".

Definition toy_program (i : TransactionInstruction) : PublicKey :=
  match i with
  | ComputeUnitPriceInstruction _ => COMPUTE_BUDGET_PROGRAM
  | TransferInstruction _ _ _ => SYSTEM_PROGRAM
  | ProgramInstruction p _ _ => p
  end.

Definition toy_accounts (i : TransactionInstruction) : list PublicKey :=
  match i with
  | ComputeUnitPriceInstruction _ => []
  | TransferInstruction a b _ => [a; b]
  | ProgramInstruction _ keys _ => keys
  end.

Definition toy_data_length (i : TransactionInstruction) : nat :=
  match i with
  | ComputeUnitPriceInstruction _ => 9%nat
  | TransferInstruction _ _ _ => 12%nat
  | ProgramInstruction _ _ data => length data
  end.

Definition key_in (k : PublicKey) (ks : list PublicKey) : bool :=
  existsb (fun k' => (k' =? k)%string) ks.

(** The keys of a message, each once. *)
Definition toy_keys (m : TransactionMessage) : list PublicKey :=
  nodup string_dec
    (tm_payerKey m :: flat_map (fun i => toy_program i :: toy_accounts i) (tm_instructions m)).

(** The keys that are never looked up: the payer, the programs invoked and
    the signer of a transfer. *)
Definition toy_pinned (m : TransactionMessage) : list PublicKey :=
  tm_payerKey m
  :: flat_map (fun i => toy_program i
                          :: match i with
                             | TransferInstruction a _ _ => [a]
                             | _ => []
                             end) (tm_instructions m).

Definition toy_looked_up (cm : ToyMessageV0) : list PublicKey :=
  filter (fun k => negb (key_in k (toy_pinned (cm_message cm)))
                   && existsb (fun t => key_in k (lut_addresses t)) (cm_tables cm))
    (toy_keys (cm_message cm)).

Definition toy_static (cm : ToyMessageV0) : list PublicKey :=
  filter (fun k => negb (key_in k (toy_looked_up cm))) (toy_keys (cm_message cm)).

Definition toy_size (cm : ToyMessageV0) : nat :=
  (39 + 32 * length (toy_static cm)
   + list_sum (map (fun i => 3 + length (toy_accounts i) + toy_data_length i)
                 (tm_instructions (cm_message cm)))
   + 34 * length (filter (fun t => existsb (fun k => key_in k (lut_addresses t))
                                     (toy_looked_up cm)) (cm_tables cm))
   + length (toy_looked_up cm))%nat.

Definition toy_serialize (cm : ToyMessageV0) : Response Buffer :=
  if (1232 <? toy_size cm)%nat then Rejected (RangeError "encoding overruns Uint8Array")
  else Resolved (repeat 0%nat (toy_size cm)).

(** What a method that puts a transaction on the wire answers: the error of
    the serialization when there is one. *)
Definition on_the_wire {A : Type} (cm : ToyMessageV0) (answer : Response A) : Response A :=
  match toy_serialize cm with
  | Resolved _ => answer
  | Rejected e => Rejected e
  end.

(** [BigInt(x)] in the two instruction builders; the message of the error,
    which quotes the number, is shortened. *)
Definition toy_BigInt (x : Number) : Response Z :=
  match Number_integer x with
  | Some z => Resolved z
  | None =>
      Rejected (RangeError "The number cannot be converted to a BigInt because it is not an integer")
  end.

Definition toy_parseErrorFromLogs (logs : list string) (pid : PublicKey) : option ProgramError :=
  if existsb (fun l => (l =? "Program log: AnchorError: BankPaused")%string) logs
  then Some {| pe_code := 6016; description := "Bank is paused" |}
  else None.

Definition toy_confirm_opts : ConfirmOptions :=
  {| co_skipPreflight := Some false; co_commitment := Some "processed";
     co_preflightCommitment := Some "processed"; co_maxRetries := None;
     co_minContextSlot := None |}.

Definition toy_lib : @Platform ToyMessageV0 unit unit unit unit unit :=
  {| Connection_assertEndpoint := fun endpoint =>
       if String.prefix "http:" endpoint || String.prefix "https:" endpoint
       then Resolved tt
       else Rejected (TypeError "Endpoint URL must start with `http:` or `https:`.");
     ComputeBudgetProgram_setComputeUnitPrice := fun microLamports =>
       match toy_BigInt microLamports with
       | Resolved z => Resolved (ComputeUnitPriceInstruction z)
       | Rejected e => Rejected e
       end;
     SystemProgram_transfer := fun a b lamports =>
       match toy_BigInt lamports with
       | Resolved z => Resolved (TransferInstruction a b z)
       | Rejected e => Rejected e
       end;
     compileToV0Message := fun m luts => Resolved {| cm_message := m; cm_tables := luts |};
     new_VersionedTransaction := fun m => {| message := m; signatures := [repeat 0%nat 64] |};
     message_serialize := toy_serialize;
     getAccountKeys := fun cm luts =>
       match toy_looked_up cm, luts with
       | _ :: _, None =>
           Rejected (Error "Failed to get account keys because address table lookups were not resolved")
       | _, _ => Resolved (toy_static cm ++ toy_looked_up cm)%list
       end;
     vtx_sign := fun v signers =>
       on_the_wire (message v)
         (Resolved {| message := message v; signatures := map signer_secretKey signers |});
     vtx_serialize := fun v =>
       (List.concat (signatures v)
        ++ match toy_serialize (message v) with Resolved b => b | Rejected _ => [] end)%list;
     bs58_encode := fun b => "B58x" ++ String (Ascii.ascii_of_nat (48 + length b mod 10)) "";
     signature_toString := fun _ => "0,0,0";
     JSON_stringify := fun e =>
       match e with
       | TxErrString s => dquote ++ s ++ dquote
       | TxErrObject json => json
       end;
     parseErrorFromLogs := toy_parseErrorFromLogs;
     Buffer_from_base64 := fun s => repeat 1%nat (String.length s);
     DEFAULT_CONFIRM_OPTS := toy_confirm_opts;
     AnchorProvider_defaultOptions := toy_confirm_opts;
     ADDRESS_LOOKUP_TABLE_FOR_GROUP := fun g =>
       if (g =? "group1")%string then Some ["lutA"; "lutB"] else None;
     MarginfiGroup_fromBuffer := fun _ _ => Resolved tt;
     Bank_fromAccountParsed := fun _ _ _ => Resolved tt;
     oracleKeys0 := fun _ => "oracle1";
     parsePriceInfo := fun _ _ => Resolved tt |}.

(** A network that answers every call, with the given blockhash snapshot,
    simulation result, signature statuses and block heights. *)
Definition scripted (bh : BlockhashWithContext) (sim : SimulatedTransactionResponse)
  (status : nat -> option SignatureStatus) (height : nat -> Z)
  : @Network ToyMessageV0 unit unit :=
  {| rpc_getLatestBlockhashAndContext := fun _ _ => Resolved bh;
     rpc_getLatestBlockhash := fun _ _ => Resolved bh;
     rpc_simulateTransaction := fun _ _ v _ => on_the_wire (message v) (Resolved sim);
     wallet_signTransaction := fun _ v =>
       on_the_wire (message v)
         (Resolved {| message := message v; signatures := [repeat 7%nat 64] |});
     rpc_sendTransaction := fun _ _ v _ => on_the_wire (message v) (Resolved "5igNatur3");
     rpc_sendRawTransaction := fun _ _ _ _ => Resolved "5igNatur3";
     rpc_getSignatureStatus := fun n _ _ _ => Resolved (status n);
     rpc_getBlockHeight := fun n _ _ => Resolved (height n);
     rpc_confirmTransaction := fun _ _ _ _ => Resolved tt;
     axios_post := fun _ _ _ => Resolved "5igNatur3";
     rpc_getAddressLookupTable := fun _ _ a =>
       Resolved (if (a =? "lutA")%string
                 then Some {| lut_key := a; lut_addresses := ["k1"; "k2"] |}
                 else None);
     loadBankMetadatas := fun _ => Rejected (Error "offline");
     bank_fetchMultiple := fun _ l => Resolved (map (fun _ => Some tt) l);
     bank_all := fun _ _ _ => Resolved [("bank1", tt)];
     rpc_getMultipleAccountsInfo := fun _ keys _ =>
       Resolved (map (fun _ => Some {| ai_data := [1%nat] |}) keys) |}.

Definition toy_snapshot : BlockhashWithContext :=
  {| context_slot := 100; value_blockhash := "hash1"; value_lastValidBlockHeight := 150 |}.

Definition sim_ok : SimulatedTransactionResponse :=
  {| sr_err := None; sr_logs := Some ["Program log: ok"];
     sr_accounts := Some [Some {| acc_data := ("AAEC", "base64") |}; None];
     sr_unitsConsumed := Some 1400 |}.

Definition sim_failed : SimulatedTransactionResponse :=
  {| sr_err := Some (TxErrString "AccountInUse");
     sr_logs := Some ["Program log: AnchorError: BankPaused"];
     sr_accounts := Some [Some {| acc_data := ("AAEC", "base64") |}; None];
     sr_unitsConsumed := Some 1400 |}.

Definition with_status (s : string) : option SignatureStatus :=
  Some {| ss_slot := 101; ss_err := None; confirmationStatus := Some s |}.

Definition toy_connection : Connection :=
  {| rpcEndpoint := "https://rpc.example"; commitment := Some "confirmed" |}.

Definition toy_config : MarginfiConfig :=
  {| cluster := "mainnet"; programId := "MFv2hWf31Z9kbCa1snEPYctwafyhdvnV7FZnsebVacA";
     groupPk := "group1" |}.

Definition toy_wallet : Wallet := {| wallet_publicKey := "payer1" |}.

Definition toy_client (spam preflight : bool) : @MarginfiClient unit unit unit unit :=
  new_MarginfiClient toy_config
    {| program_id := programId toy_config;
       program_provider :=
         {| provider_connection := toy_connection; provider_opts := toy_confirm_opts;
            provider_publicKey := "payer1" |} |}
    toy_wallet false tt [("bank1", tt)] [("bank1", tt)]
    (Some [{| lut_key := "lutA"; lut_addresses := ["k1"; "k2"] |}])
    None None None (Some spam) (Some preflight).

Definition toy_world (spam preflight : bool)
  : World (MessageV0 := ToyMessageV0) (@MarginfiClient unit unit unit unit) :=
  {| this := toy_client spam preflight; trace := [] |}.

(** A legacy transaction of [n] program instructions. *)
Definition toy_tx (n : nat) : Transaction :=
  {| instructions := repeat (ProgramInstruction "prog1" ["acct1"; "acct2"] [1%nat]) n |}.

Definition toy_vtx (n : nat) : @VersionedTransaction ToyMessageV0 :=
  {| message :=
       {| cm_message := {| tm_instructions := instructions (toy_tx n);
                           tm_payerKey := "payer1"; tm_recentBlockhash := "hash0" |};
          cm_tables := [] |};
     signatures := [repeat 0%nat 64] |}.

(** ** Networks and inputs of the concrete runs *)

(** A network on which nothing is ever confirmed and the block height reads
    149, 150, 151: the third reading is past the last valid height 150 of
    the snapshot. *)
Definition expired_net : @Network ToyMessageV0 unit unit :=
  scripted toy_snapshot sim_ok (fun _ => None) (fun n => 149 + Z.of_nat n).

(** A network that confirms at once and whose block height stays at 120. *)
Definition healthy_net : @Network ToyMessageV0 unit unit :=
  scripted toy_snapshot sim_ok (fun _ => with_status "finalized") (fun _ => 120).

(** A network that reports ["processed"] for four status queries and
    ["finalized"] from the fifth on. *)
Definition slow_net : @Network ToyMessageV0 unit unit :=
  scripted toy_snapshot sim_ok
    (fun n => if (n <? 4)%nat then with_status "processed" else with_status "finalized")
    (fun _ => 120).

(** Options of a caller who only asks for a dry run. *)
Definition dry_run_opts : TransactionOptions :=
  {| to_confirm := empty_ConfirmOptions; dryRun := Some true |}.

(** The world in which the spam run on [expired_net] ends. *)
Definition timed_out_world :=
  snd (processTransaction toy_lib expired_net 5 (inl (toy_tx 2)) None None None
         (toy_world true false)).

(** A network on which nothing is confirmed while the block height climbs
    from 148 by one per query. *)
Definition climbing_net : @Network ToyMessageV0 unit unit :=
  scripted toy_snapshot sim_ok (fun _ => None) (fun n => 148 + Z.of_nat n).

(** The client that [fetch] builds without options. *)
Definition toy_fetched : @MarginfiClient unit unit unit unit :=
  match fst (fetch toy_lib healthy_net toy_config toy_wallet toy_connection None
               {| this := tt; trace := [] |}) with
  | Return c => c
  | _ => toy_client true true
  end.

(** The number that the decimal literal of [p / q] denotes: the double
    nearest to the quotient. *)
Definition Number_ratio (p q : Z) : Number :=
  PrimFloat.div (Number_of_Z p) (Number_of_Z q).

(** A tip of [0.001] SOL, a whole number of lamports; and one of [0.000065]
    SOL, whose product with [LAMPORTS_PER_SOL] is [64999.99999999999]. *)
Definition whole_tip : Number := Number_ratio 1 1000.

Definition fractional_tip : Number := Number_ratio 65 1000000.

(** A lookup table of 70 addresses, a client that holds it, and a
    transaction whose single instruction touches all of them. *)
Definition key_name (n : nat) : PublicKey :=
  "key" ++ String (Ascii.ascii_of_nat (48 + n / 10))
             (String (Ascii.ascii_of_nat (48 + n mod 10)) EmptyString).

Definition wide_table : AddressLookupTableAccount :=
  {| lut_key := "lutW"; lut_addresses := map key_name (seq 0 70) |}.

Definition wide_client : @MarginfiClient unit unit unit unit :=
  new_MarginfiClient toy_config
    {| program_id := programId toy_config;
       program_provider :=
         {| provider_connection := toy_connection; provider_opts := toy_confirm_opts;
            provider_publicKey := "payer1" |} |}
    toy_wallet false tt [("bank1", tt)] [("bank1", tt)]
    (Some [wide_table]) None None None (Some false) (Some false).

Definition wide_world
  : World (MessageV0 := ToyMessageV0) (@MarginfiClient unit unit unit unit) :=
  {| this := wide_client; trace := [] |}.

Definition wide_tx : Transaction :=
  {| instructions := [ProgramInstruction "prog1" (map key_name (seq 0 70)) [1%nat]] |}.

(** The message compiled from [wide_tx] by [wide_client]. *)
Definition wide_message : ToyMessageV0 :=
  {| cm_message := {| tm_instructions := instructions wide_tx; tm_payerKey := "payer1";
                      tm_recentBlockhash := "hash1" |};
     cm_tables := [wide_table] |}.

(** A transaction whose single instruction carries 1200 bytes of data: its
    message does not fit in a packet. *)
Definition bulky_tx : Transaction :=
  {| instructions := [ProgramInstruction "prog1" ["acct1"; "acct2"] (repeat 1%nat 1200)] |}.

(** A client whose send endpoint lacks the scheme. *)
Definition stray_client : @MarginfiClient unit unit unit unit :=
  new_MarginfiClient toy_config
    {| program_id := programId toy_config;
       program_provider :=
         {| provider_connection := toy_connection; provider_opts := toy_confirm_opts;
            provider_publicKey := "payer1" |} |}
    toy_wallet false tt [("bank1", tt)] [("bank1", tt)]
    (Some [{| lut_key := "lutA"; lut_addresses := ["k1"; "k2"] |}])
    None None (Some "rpc.example:8899") (Some false) (Some false).

Definition stray_world
  : World (MessageV0 := ToyMessageV0) (@MarginfiClient unit unit unit unit) :=
  {| this := stray_client; trace := [] |}.

(** The message that [signTranscationJito] compiles from [toy_tx 2] with a
    tip of [0.001] SOL and no lookup table. *)
Definition tipped_message : ToyMessageV0 :=
  {| cm_message :=
       {| tm_instructions :=
            (instructions (toy_tx 2)
             ++ [TransferInstruction "payer1" JITO_TIP_ACCOUNT 1000000])%list;
          tm_payerKey := "payer1"; tm_recentBlockhash := "hash1" |};
     cm_tables := [] |}.

(** The message that [signTranscationJito] compiles from [wide_tx] with a
    tip of [0.001] SOL and the table. *)
Definition tipped_wide_message : ToyMessageV0 :=
  {| cm_message :=
       {| tm_instructions :=
            (instructions wide_tx
             ++ [TransferInstruction "payer1" JITO_TIP_ACCOUNT 1000000])%list;
          tm_payerKey := "payer1"; tm_recentBlockhash := "hash1" |};
     cm_tables := [wide_table] |}.

(** The transaction that [processTransaction] compiles from [toy_tx 2] on
    the toy client, and what the scripted wallet returns for it. *)
Definition compiled_vtx : @VersionedTransaction ToyMessageV0 :=
  {| message :=
       {| cm_message := {| tm_instructions := instructions (toy_tx 2);
                           tm_payerKey := "payer1"; tm_recentBlockhash := "hash1" |};
          cm_tables := [{| lut_key := "lutA"; lut_addresses := ["k1"; "k2"] |}] |};
     signatures := [repeat 0%nat 64] |}.

Definition wallet_signed : @VersionedTransaction ToyMessageV0 :=
  {| message := message compiled_vtx; signatures := [repeat 7%nat 64] |}.

(** * Vocabulary of the properties *)

Local Open Scope list_scope.

Section Vocabulary.

Context {MessageV0 MarginfiGroup Bank OraclePrice BankRaw BankMetadata : Type}.
Variable lib : @Platform MessageV0 MarginfiGroup Bank OraclePrice BankRaw BankMetadata.
Variable net : @Network MessageV0 BankRaw BankMetadata.

Abbreviation Client := (@MarginfiClient MarginfiGroup Bank OraclePrice BankMetadata).
Abbreviation Ev := (@Event MessageV0).
Abbreviation Mon := (@M MessageV0).

(** [emits P m]: from every world, [m] leaves [this] as it was and extends
    the trace by calls that all satisfy [P], whatever its outcome. *)
Definition emits {St A : Type} (P : Ev -> Prop) (m : Mon St A) : Prop :=
  forall w, this (snd (m w)) = this w /\
            exists evs, trace (snd (m w)) = trace w ++ evs /\ Forall P evs.

(** The fields of the client other than [group], [banks] and [oraclePrices]. *)
Definition same_but_fetched (c c' : Client) : Prop :=
  config c' = config c /\
  program c' = program c /\
  wallet c' = wallet c /\
  isReadOnly c' = isReadOnly c /\
  addressLookupTables c' = addressLookupTables c /\
  preloadedBankAddresses c' = preloadedBankAddresses c /\
  bankMetadataMap c' = bankMetadataMap c /\
  sendEndpoint c' = sendEndpoint c /\
  spamSendTx c' = spamSendTx c /\
  skipPreflightInSpam c' = skipPreflightInSpam c.

(** The fetch that [reload] performs from world [w]. *)
Definition reload_fetch (w : World Client) :=
  fetchGroupData lib net (program (this w)) (groupPk (config (this w)))
    (commitment (provider_connection (provider (this w))))
    (preloadedBankAddresses (this w)) None w.

(** The option of [clientOptions] read by [clientOptions?.field]. *)
Definition option_of {A : Type} (clientOptions : option MarginfiClientOptions)
  (field : MarginfiClientOptions -> option A) : option A :=
  match clientOptions with Some o => field o | None => None end.

(** A status query of the spam sub-poll: no search of the transaction
    history. *)
Definition status_query (connection : Connection) (signature : TransactionSignature) : Ev :=
  EvGetSignatureStatus connection signature (Some {| searchTransactionHistory := false |}).

(** [k] rounds that did not hit: a query and the sleep after it, [k] times. *)
Fixpoint poll_rounds (connection : Connection) (signature : TransactionSignature) (ms : Z)
  (k : nat) : list Ev :=
  match k with
  | O => []
  | S k' => status_query connection signature :: EvSleep ms
            :: poll_rounds connection signature ms k'
  end.

(** The answer to the [i]-th status query of a sub-poll started in [w]. *)
Definition status_answer {St : Type} (w : World (MessageV0 := MessageV0) St)
  (connection : Connection) (signature : TransactionSignature) (i : nat) : Response (option SignatureStatus) :=
  rpc_getSignatureStatus net (calls m_getSignatureStatus (trace w) + i) connection signature
    (Some {| searchTransactionHistory := false |}).

(** The calls of one pass: the send, the sub-poll, the block height. *)
Definition iteration_trace (sendOptions : SendOptions) (ms : Z)
  (sendConnection connection : Connection) (vtx : VersionedTransaction) (evs : list Ev)
  : Prop :=
  exists signature k last tail,
    evs = EvSendTransaction sendConnection vtx sendOptions
          :: poll_rounds connection signature ms k ++ last ++ tail /\
    (last = [] \/ last = [status_query connection signature]) /\
    (k + length last <= 5)%nat /\
    (tail = [] \/ tail = [EvGetBlockHeight connection None]).

(** The trace of a run in spam mode: calls that are neither sends nor status
    queries first (blockhash, simulation, wallet), then passes of the loop,
    all of them on one signed transaction. *)
Definition spam_trace (sendOptions : SendOptions) (ms : Z)
  (sendConnection connection : Connection) (evs : list Ev) : Prop :=
  exists pre iters,
    evs = pre ++ List.concat iters /\
    calls m_sendTransaction pre = 0%nat /\
    calls m_getSignatureStatus pre = 0%nat /\
    (iters = [] \/
     exists vtx, Forall (iteration_trace sendOptions ms sendConnection connection vtx) iters).

(** Some status query of the run was answered with a status that hits. *)
Definition observed (hit : option SignatureStatus -> bool) : Prop :=
  exists k connection signature st,
    rpc_getSignatureStatus net k connection signature
      (Some {| searchTransactionHistory := false |}) = Resolved st /\
    hit st = true.

(** A status answer that does not stop the sub-poll of [processTransaction]. *)
Definition not_finalized (v : option SignatureStatus) : Prop :=
  forall st, v = Some st -> confirmationStatus st <> Some "finalized"%string.

(** A status answer that does not stop the sub-poll of
    [sendAndConfirmTransaction]. *)
Definition not_processed (v : option SignatureStatus) : Prop :=
  forall st, v = Some st ->
             confirmationStatus st <> Some "processed"%string /\
             confirmationStatus st <> Some "confirmed"%string /\
             confirmationStatus st <> Some "finalized"%string.

(** The calls of a pass whose five status answers all missed. *)
Definition missed_pass (sendOptions : SendOptions) (ms : Z)
  (sendConnection connection : Connection) (vtx : VersionedTransaction)
  (signature : TransactionSignature) : list Ev :=
  EvSendTransaction sendConnection vtx sendOptions
  :: poll_rounds connection signature ms 5 ++ [EvGetBlockHeight connection None].

(** The calls of such passes, one after the other; a pass is given by the
    signature its send returned and the block height read at its end. *)
Fixpoint missed_passes (sendOptions : SendOptions) (ms : Z)
  (sendConnection connection : Connection) (vtx : VersionedTransaction)
  (passes : list (TransactionSignature * Z)) : list Ev :=
  match passes with
  | [] => []
  | (signature, _) :: rest =>
      missed_pass sendOptions ms sendConnection connection vtx signature
      ++ missed_passes sendOptions ms sendConnection connection vtx rest
  end.

(** The network answers the passes [passes] without ever confirming, when
    the first of them makes send number [s], status query number [q] and
    block height query number [g]: every send is accepted and returns the
    signature of its pass, none of the five status answers of a pass hits,
    and the block height read is the one of the pass. *)
Fixpoint never_confirmed (hit : option SignatureStatus -> bool) (sendOptions : SendOptions)
  (sendConnection connection : Connection) (vtx : VersionedTransaction) (s q g : nat)
  (passes : list (TransactionSignature * Z)) : Prop :=
  match passes with
  | [] => True
  | (signature, h) :: rest =>
      rpc_sendTransaction net s sendConnection vtx sendOptions = Resolved signature /\
      (forall i, (i < 5)%nat ->
         exists st, rpc_getSignatureStatus net (q + i) connection signature
                      (Some {| searchTransactionHistory := false |}) = Resolved st /\
                    hit st = false) /\
      rpc_getBlockHeight net g connection None = Resolved h /\
      never_confirmed hit sendOptions sendConnection connection vtx (S s) (q + 5) (S g) rest
  end.

(** The calls of one pass of the loop of [sendAndConfirmTrancationJito] that
    ends with the sleep. *)
Definition jito_round (connection : Connection) (rawTx : Buffer)
  (txSig : TransactionSignature) : list Ev :=
  [EvSendRawTransaction connection rawTx (jitoSendOptions connection);
   EvGetSignatureStatus connection txSig None;
   EvGetBlockHeight connection (commitment connection);
   EvSleep 500].

(** [n] such passes. *)
Fixpoint jito_rounds (connection : Connection) (rawTx : Buffer)
  (txSig : TransactionSignature) (n : nat) : list Ev :=
  match n with
  | O => []
  | S n' => jito_round connection rawTx txSig ++ jito_rounds connection rawTx txSig n'
  end.

(** The answers to the [i]-th pass of a loop whose first pass starts after
    [s], [q] and [g] earlier sends, status queries and block height queries. *)
Record JitoScript : Type := {
  js_connection : Connection;
  js_rawTx : Buffer;
  js_txSig : TransactionSignature;
  js_sends : nat;
  js_queries : nat;
  js_heights : nat
}.

(** Pass [i] resends, sees a status that does not confirm, and reads block
    height [h]. *)
Definition unconfirmed_pass (s : JitoScript) (i : nat) (h : Z) : Prop :=
  (exists sg, rpc_sendRawTransaction net (js_sends s + i) (js_connection s) (js_rawTx s)
                (jitoSendOptions (js_connection s)) = Resolved sg) /\
  (exists st, rpc_getSignatureStatus net (js_queries s + i) (js_connection s) (js_txSig s) None
              = Resolved st /\ is_processed_or_better st = false) /\
  rpc_getBlockHeight net (js_heights s + i) (js_connection s) (commitment (js_connection s))
  = Resolved h.

(** Pass [i] resends and sees a status that confirms. *)
Definition confirming_pass (s : JitoScript) (i : nat) : Prop :=
  (exists sg, rpc_sendRawTransaction net (js_sends s + i) (js_connection s) (js_rawTx s)
                (jitoSendOptions (js_connection s)) = Resolved sg) /\
  (exists st, rpc_getSignatureStatus net (js_queries s + i) (js_connection s) (js_txSig s) None
              = Resolved st /\ is_processed_or_better st = true) /\
  (exists h, rpc_getBlockHeight net (js_heights s + i) (js_connection s)
               (commitment (js_connection s)) = Resolved h).

(** The script of a loop that starts in world [w]. *)
Definition script_at {St : Type} (w : World (MessageV0 := MessageV0) St)
  (connection : Connection) (rawTx : Buffer) (txSig : TransactionSignature) : JitoScript :=
  {| js_connection := connection; js_rawTx := rawTx; js_txSig := txSig;
     js_sends := calls m_sendRawTransaction (trace w);
     js_queries := calls m_getSignatureStatus (trace w);
     js_heights := calls m_getBlockHeight (trace w) |}.

(** The script of the rest of the loop, one pass later. *)
Definition shift (s : JitoScript) : JitoScript :=
  {| js_connection := js_connection s; js_rawTx := js_rawTx s; js_txSig := js_txSig s;
     js_sends := S (js_sends s); js_queries := S (js_queries s);
     js_heights := S (js_heights s) |}.

(** The request posted to the relay for raw transaction [rawTx]. *)
Definition jito_payload (rawTx : Buffer) : JitoPayload :=
  {| jp_method := "sendTransaction"; jp_encodedTx := bs58_encode lib rawTx;
     jp_maxRetries := 0; jp_skipPreflight := true; jp_preflightCommitment := "processed" |}.

(** What a path passes as [minContextSlot] to a simulation, given the options
    of the caller and the slot of the blockhash fetch. *)
Definition passed_minContextSlot (opts : option TransactionOptions) (slot : Z) : option Z :=
  match opts with
  | Some o => co_minContextSlot (to_confirm o)
  | None => Some (slot - 4)
  end.

(** Every simulation of the trace is given [s] as its minimum context slot;
    no send is given one. *)
Definition slot_use (s : option Z) (e : Ev) : Prop :=
  match e with
  | EvSimulateTransaction _ _ cfg => sim_minContextSlot cfg = s
  | EvSendTransaction _ _ o => so_minContextSlot o = None
  | _ => True
  end.

(** The transaction that [simulateTransaction] builds. *)
Definition built_from (c : Client) (transaction : Transaction + VersionedTransaction)
  (blockhash : Blockhash) : Response VersionedTransaction :=
  match transaction with
  | inl tx =>
      match compileToV0Message lib
              {| tm_instructions := instructions tx;
                 tm_payerKey := provider_publicKey (provider c);
                 tm_recentBlockhash := blockhash |}
              (addressLookupTables c) with
      | Resolved m => Resolved (new_VersionedTransaction lib m)
      | Rejected e => Rejected e
      end
  | inr vtx => Resolved vtx
  end.

End Vocabulary.

(** The keys after [set]: the key is appended when it is new. *)
Definition key_set (k : string) (ks : list string) : list string :=
  if existsb (fun k' => (k' =? k)%string) ks then ks else (ks ++ [k])%list.

(** * Queries and account helpers of the client *)

Section Queries.

Context {MessageV0 MarginfiGroup Bank OraclePrice BankRaw BankMetadata : Type}.
Context {MarginfiAccountRaw MarginfiAccountWrapper : Type}.

Abbreviation Client := (@MarginfiClient MarginfiGroup Bank OraclePrice BankMetadata).
Abbreviation Mon := (@M MessageV0).

(** What the queries read of a decoded bank, and the collaborators of the
    account helpers: the anchor account client, the instruction builder and
    the account wrapper of the sibling modules.  The awaited ones are
    computations of the model, whatever they call. *)
Record Accounts : Type := {
  bank_mint : Bank -> PublicKey;
  bank_tokenSymbol : Bank -> option string;
  marginfiAccount_fetchMultiple : list PublicKey -> Mon Client (list (option MarginfiAccountRaw));
  fromAccountParsed :
    option PublicKey -> Client -> MarginfiAccountRaw -> Response MarginfiAccountWrapper;
  makeInitMarginfiAccountIx :
    MarginfiProgram -> PublicKey -> PublicKey -> PublicKey -> PublicKey ->
    Mon Client TransactionInstruction;
  MarginfiAccountWrapper_fetch :
    PublicKey -> Client -> option Commitment -> Mon Client MarginfiAccountWrapper
}.

Variable lib : @Platform MessageV0 MarginfiGroup Bank OraclePrice BankRaw BankMetadata.
Variable net : @Network MessageV0 BankRaw BankMetadata.
Variable acc : Accounts.

(** [getBankByPk(bankAddress)]: [this.banks.get(address) ?? null]. *)
Definition getBankByPk (c : Client) (bankAddress : PublicKey) : option Bank :=
  Map_get bankAddress (banks c).

(** [getBankByMint(mint)]: the first bank, in the order of the map, whose
    mint is [mint]. *)
Definition getBankByMint (c : Client) (mint : PublicKey) : option Bank :=
  find (fun bank => (bank_mint acc bank =? mint)%string) (map snd (banks c)).

(** [getBankByTokenSymbol(tokenSymbol)]; [undefined] is answered [null]
    before the banks are looked at. *)
Definition getBankByTokenSymbol (c : Client) (tokenSymbol : option string) : option Bank :=
  match tokenSymbol with
  | None => None
  | Some s =>
      find (fun bank => match bank_tokenSymbol acc bank with
                        | Some t => (t =? s)%string
                        | None => false
                        end)
        (map snd (banks c))
  end.

(** [getOraclePriceByBank(bankAddress)]. *)
Definition getOraclePriceByBank (c : Client) (bankAddress : PublicKey) : option OraclePrice :=
  Map_get bankAddress (oraclePrices c).

(** The callback of [accounts.map] in [getMultipleMarginfiAccounts]. *)
Definition wrapFetched (c : Client) (pubkeys : list PublicKey) (index : nat)
  (account : option MarginfiAccountRaw) : Response MarginfiAccountWrapper :=
  match account with
  | None =>
      match nth_error pubkeys index with
      | Some pk => Rejected (Error ("Account not found for pubkey: " ++ pk))
      | None =>
          Rejected (TypeError "Cannot read properties of undefined (reading 'toBase58')")
      end
  | Some a => fromAccountParsed acc (nth_error pubkeys index) c a
  end.

(** [async getMultipleMarginfiAccounts(pubkeys)]. *)
Definition getMultipleMarginfiAccounts (pubkeys : list PublicKey)
  : Mon Client (list MarginfiAccountWrapper) :=
  accounts <- marginfiAccount_fetchMultiple acc pubkeys ;;
  c <- get_this ;;
  lift (map_throwing (wrapFetched c pubkeys) 0%nat accounts).

(** [InstructionsWrapper]: instructions and the keys that sign them. *)
Record InstructionsWrapper : Type := {
  iw_instructions : list TransactionInstruction;
  iw_keys : list Signer
}.

(** [async makeCreateMarginfiAccountIx(marginfiAccountPk)]. *)
Definition makeCreateMarginfiAccountIx (marginfiAccountPk : PublicKey)
  : Mon Client InstructionsWrapper :=
  c <- get_this ;;
  initMarginfiAccountIx <-
    makeInitMarginfiAccountIx acc (program c) (groupPk (config c)) marginfiAccountPk
      (provider_publicKey (provider c)) (provider_publicKey (provider c)) ;;
  ret {| iw_instructions := [initMarginfiAccountIx]; iw_keys := [] |}.

(** [async createMarginfiAccount(opts?, createOpts?)]; [accountKeypair] is
    the keypair that [Keypair.generate()] draws, [newAccountKey] is
    [createOpts?.newAccountKey].  The result is [undefined] ([None]) or the
    wrapper that was fetched. *)
Definition createMarginfiAccount (fuel : nat) (accountKeypair : Signer)
  (opts : option TransactionOptions) (newAccountKey : option PublicKey)
  : Mon Client (option MarginfiAccountWrapper) :=
  let accountKey := nullish newAccountKey (signer_publicKey accountKeypair) in
  ixs <- makeCreateMarginfiAccountIx accountKey ;;
  let signers :=
    match newAccountKey with
    | Some _ => iw_keys ixs
    | None => iw_keys ixs ++ [accountKeypair]
    end in
  let tx := {| instructions := iw_instructions ixs |} in
  sig <- processTransaction lib net fuel (inl tx) (Some signers) opts None ;;
  match nullish (match opts with Some o => dryRun o | None => None end) false, newAccountKey with
  | false, None =>
      c <- get_this ;;
      w <- MarginfiAccountWrapper_fetch acc accountKey c
             (match opts with Some o => co_commitment (to_confirm o) | None => None end) ;;
      ret (Some w)
  | _, _ => ret None
  end.

End Queries.

(** * Vocabulary of the properties of [fetchGroupData] *)

Section GroupDataVocabulary.

Context {MessageV0 MarginfiGroup Bank OraclePrice BankRaw BankMetadata : Type}.
Variable lib : @Platform MessageV0 MarginfiGroup Bank OraclePrice BankRaw BankMetadata.
Variable net : @Network MessageV0 BankRaw BankMetadata.

(** The first request of [fetchGroupData]: the banks by address when
    addresses are preloaded, all the banks of the group otherwise. *)
Definition bank_request (groupAddress : PublicKey) (bankAddresses : option (list PublicKey))
  : @Event MessageV0 :=
  match bankAddresses with
  | Some (a :: more) => EvBankFetchMultiple (a :: more)
  | _ => EvBankAll (8 + 32 + 1) groupAddress
  end.

(** Its answer, as [bankDatasKeyed], when it is call number [n] of its
    method. *)
Definition bank_answer (n : nat) (groupAddress : PublicKey)
  (bankAddresses : option (list PublicKey)) : Response (list (PublicKey * BankRaw)) :=
  match bankAddresses with
  | Some (a :: more) =>
      match bank_fetchMultiple net n (a :: more) with
      | Resolved datas => Resolved (keyBankDatas (a :: more) datas)
      | Rejected e => Rejected e
      end
  | _ => bank_all net n (8 + 32 + 1) groupAddress
  end.

(** The keys of the second request: the group, then the first oracle key of
    every bank. *)
Definition account_keys (groupAddress : PublicKey) (keyed : list (PublicKey * BankRaw))
  : list PublicKey :=
  groupAddress :: map (fun b => oracleKeys0 lib (snd b)) keyed.

(** The metadata [fetchGroupData] decodes bank [address] with. *)
Definition metadata_of (bankMetadataMap : option (list (string * BankMetadata)))
  (address : PublicKey) : option BankMetadata :=
  match bankMetadataMap with
  | Some mm => Map_get address mm
  | None => None
  end.

(** The account info at position [index] of the price feeds, when it is
    there and is not [null]. *)
Definition price_feed (ais : list (option AccountInfo)) (index : nat) : option AccountInfo :=
  match nth_error (tl ais) index with
  | Some (Some a) => Some a
  | _ => None
  end.

(** The callbacks of the two [bankDatasKeyed.map] of [fetchGroupData]: the
    entry of the bank map, and the entry of the price map. *)
Definition decode_bank (bankMetadataMap : option (list (string * BankMetadata)))
  (index : nat) (b : PublicKey * BankRaw) : Response (string * Bank) :=
  match Bank_fromAccountParsed lib (fst b) (snd b) (metadata_of bankMetadataMap (fst b)) with
  | Resolved bank => Resolved (fst b, bank)
  | Rejected e => Rejected e
  end.

Definition decode_price (ais : list (option AccountInfo)) (index : nat)
  (b : PublicKey * BankRaw) : Response (string * OraclePrice) :=
  match price_feed ais index with
  | Some priceDataRaw =>
      match parsePriceInfo lib (snd b) (ai_data priceDataRaw) with
      | Resolved p => Resolved (fst b, p)
      | Rejected e => Rejected e
      end
  | None =>
      Rejected (Error ("Failed to fetch price oracle account for bank " ++ fst b)%string)
  end.

(** The world after the calls [evs]. *)
Definition after {St : Type} (w : World (MessageV0 := MessageV0) St)
  (evs : list (@Event MessageV0)) : World St :=
  {| this := this w; trace := trace w ++ evs |}.

(** The decoding that follows the two requests of [fetchGroupData]. *)
Definition decoded (groupAddress : PublicKey)
  (bankMetadataMap : option (list (string * BankMetadata)))
  (keyed : list (PublicKey * BankRaw)) (ais : list (option AccountInfo))
  : Response (MarginfiGroup * list (string * Bank) * list (string * OraclePrice)) :=
  match hd None ais with
  | None => Rejected (Error "Failed to fetch the on-chain group data")
  | Some groupAi =>
      match MarginfiGroup_fromBuffer lib groupAddress (ai_data groupAi) with
      | Rejected e => Rejected e
      | Resolved g =>
          match map_throwing (decode_bank bankMetadataMap) 0%nat keyed with
          | Rejected e => Rejected e
          | Resolved bl =>
              match map_throwing (decode_price ais) 0%nat keyed with
              | Rejected e => Rejected e
              | Resolved pl => Resolved (g, new_Map bl, new_Map pl)
              end
          end
      end
  end.

End GroupDataVocabulary.

(** * A ledger of banks, for concrete runs

    On the ledger platform a raw bank is its oracle key, a decoded bank is
    the token symbol of its metadata, a price is the first byte of its feed,
    and a group decodes from any buffer that is not empty.  The transaction
    side is the one of the toy platform. *)

Definition ledger_lib : @Platform ToyMessageV0 unit (option string) nat string string :=
  {| Connection_assertEndpoint := Connection_assertEndpoint toy_lib;
     ComputeBudgetProgram_setComputeUnitPrice :=
       ComputeBudgetProgram_setComputeUnitPrice toy_lib;
     SystemProgram_transfer := SystemProgram_transfer toy_lib;
     compileToV0Message := compileToV0Message toy_lib;
     new_VersionedTransaction := new_VersionedTransaction toy_lib;
     message_serialize := message_serialize toy_lib;
     getAccountKeys := getAccountKeys toy_lib;
     vtx_sign := vtx_sign toy_lib;
     vtx_serialize := vtx_serialize toy_lib;
     bs58_encode := bs58_encode toy_lib;
     signature_toString := signature_toString toy_lib;
     JSON_stringify := JSON_stringify toy_lib;
     parseErrorFromLogs := parseErrorFromLogs toy_lib;
     Buffer_from_base64 := Buffer_from_base64 toy_lib;
     DEFAULT_CONFIRM_OPTS := toy_confirm_opts;
     AnchorProvider_defaultOptions := toy_confirm_opts;
     ADDRESS_LOOKUP_TABLE_FOR_GROUP := ADDRESS_LOOKUP_TABLE_FOR_GROUP toy_lib;
     MarginfiGroup_fromBuffer := fun _ data =>
       match data with
       | [] => Rejected (Error "Invalid group buffer")
       | _ => Resolved tt
       end;
     Bank_fromAccountParsed := fun _ _ metadata => Resolved metadata;
     oracleKeys0 := fun raw => raw;
     parsePriceInfo := fun _ data => Resolved (hd 0%nat data) |}.

(** The ledger holds the banks [bankA] and [bankB]; [bankX] does not exist.
    The metadata service answers [metadata], the batch of account infos is
    [infos] of the keys asked; every other call is answered as on
    [healthy_net], except the relay, which answers [relay]. *)
Definition ledger_net (metadata : Response (list (string * string)))
  (infos : list PublicKey -> list (option AccountInfo))
  (relay : Response TransactionSignature)
  : @Network ToyMessageV0 string string :=
  {| rpc_getLatestBlockhashAndContext := rpc_getLatestBlockhashAndContext healthy_net;
     rpc_getLatestBlockhash := rpc_getLatestBlockhash healthy_net;
     rpc_simulateTransaction := rpc_simulateTransaction healthy_net;
     wallet_signTransaction := wallet_signTransaction healthy_net;
     rpc_sendTransaction := rpc_sendTransaction healthy_net;
     rpc_sendRawTransaction := rpc_sendRawTransaction healthy_net;
     rpc_getSignatureStatus := rpc_getSignatureStatus healthy_net;
     rpc_getBlockHeight := rpc_getBlockHeight healthy_net;
     rpc_confirmTransaction := rpc_confirmTransaction healthy_net;
     axios_post := fun _ _ _ => relay;
     rpc_getAddressLookupTable := rpc_getAddressLookupTable healthy_net;
     loadBankMetadatas := fun _ => metadata;
     bank_fetchMultiple := fun _ l =>
       Resolved (map (fun a => if (a =? "bankX")%string then None
                               else Some ("oracle-" ++ a)%string) l);
     bank_all := fun _ _ _ =>
       Resolved [("bankA", "oracle-bankA"); ("bankB", "oracle-bankB")]%string;
     rpc_getMultipleAccountsInfo := fun _ keys _ => Resolved (infos keys) |}.

Definition every_account (keys : list PublicKey) : list (option AccountInfo) :=
  map (fun _ => Some {| ai_data := [1%nat] |}) keys.

(** The feed of [bankB] is missing. *)
Definition all_but_feed_B (keys : list PublicKey) : list (option AccountInfo) :=
  map (fun k => if (k =? "oracle-bankB")%string then None
                else Some {| ai_data := [1%nat] |}) keys.

Definition ledger_metadata : list (string * string) :=
  [("bankA", "SOL"); ("bankB", "USDC")]%string.

Definition synced_net : @Network ToyMessageV0 string string :=
  ledger_net (Resolved ledger_metadata) every_account (Resolved "5igNatur3"%string).

(** The metadata service is down, and so is the relay. *)
Definition offline_net : @Network ToyMessageV0 string string :=
  ledger_net (Rejected (Error "offline")) every_account (Rejected (Error "503")).

(** The batch of account infos comes back empty; the feed of [bankB] is
    missing. *)
Definition groupless_net : @Network ToyMessageV0 string string :=
  ledger_net (Resolved ledger_metadata) (fun _ => []) (Resolved "5igNatur3"%string).

Definition feedless_net : @Network ToyMessageV0 string string :=
  ledger_net (Resolved ledger_metadata) all_but_feed_B (Resolved "5igNatur3"%string).

Definition ledger_program : MarginfiProgram :=
  {| program_id := programId toy_config;
     program_provider :=
       {| provider_connection := toy_connection; provider_opts := toy_confirm_opts;
          provider_publicKey := "payer1"%string |} |}.

Definition static_world : World (MessageV0 := ToyMessageV0) unit :=
  {| this := tt; trace := [] |}.

(** The client that [fetch] builds on the ledger, and the one it builds when
    the metadata service is down. *)
Definition ledger_fetched_on (net : @Network ToyMessageV0 string string)
  : @MarginfiClient unit (option string) nat string :=
  match fst (fetch ledger_lib net toy_config toy_wallet toy_connection None static_world) with
  | Return c => c
  | _ => new_MarginfiClient toy_config ledger_program toy_wallet false tt [] [] None None None
           None None None
  end.

Definition ledger_world (net : @Network ToyMessageV0 string string)
  : World (MessageV0 := ToyMessageV0) (@MarginfiClient unit (option string) nat string) :=
  {| this := ledger_fetched_on net; trace := [] |}.

(** The account side of the ledger: the account [ghost] does not exist; a
    raw account wraps as it is; a fetched wrapper is the key asked. *)
Definition ledger_acc
  : @Accounts ToyMessageV0 unit (option string) nat string string string :=
  {| bank_mint := fun bank => ("mint-" ++ nullish bank "?")%string;
     bank_tokenSymbol := fun bank => bank;
     marginfiAccount_fetchMultiple := fun pubkeys =>
       ret (map (fun pk => if (pk =? "ghost")%string then None
                           else Some ("raw-" ++ pk)%string) pubkeys);
     fromAccountParsed := fun _ _ raw => Resolved raw;
     makeInitMarginfiAccountIx := fun prog g a authority payer =>
       ret (ProgramInstruction (program_id prog) [g; a; authority; payer] []);
     MarginfiAccountWrapper_fetch := fun pk _ _ => ret pk |}.

(** A read-only client without spam mode. *)
Definition read_only_world
  : World (MessageV0 := ToyMessageV0) (@MarginfiClient unit unit unit unit) :=
  {| this :=
       new_MarginfiClient toy_config (program (toy_client false false)) toy_wallet true tt
         [("bank1", tt)] [("bank1", tt)] None None None None (Some false) (Some false);
     trace := [] |}.

(** A network whose simulation reports a program error. *)
Definition failing_sim_net : @Network ToyMessageV0 unit unit :=
  scripted toy_snapshot sim_failed (fun _ => with_status "finalized") (fun _ => 120).

(** * Vocabulary of the properties of the submission paths *)

Section SubmissionVocabulary.

Context {MessageV0 MarginfiGroup Bank OraclePrice BankRaw BankMetadata : Type}.
Variable net : @Network MessageV0 BankRaw BankMetadata.

(** [opts?.dryRun], as the test of [processTransaction] reads it. *)
Definition dry_run (opts : option TransactionOptions) : bool :=
  match opts with
  | Some o => nullish (dryRun o) false
  | None => false
  end.

(** A call that reads the chain or simulates: neither the wallet nor a send
    nor a confirmation. *)
Definition read_or_simulate (e : @Event MessageV0) : Prop :=
  method_of e = m_getLatestBlockhashAndContext \/ method_of e = m_simulateTransaction.

(** A send goes to [connection]; a confirmation is awaited on [connection]
    at [level]. *)
Definition single_shot_call (connection : Connection) (level : Commitment)
  (e : @Event MessageV0) : Prop :=
  match e with
  | EvSendTransaction c _ _ => c = connection
  | EvConfirmTransaction c _ cm => c = connection /\ cm = level
  | _ => True
  end.

(** The answers to the lookups of [addresses], asked in this order, the
    first of them being call number [n] of its method. *)
Fixpoint lookup_answers (connection : Connection) (n : nat) (addresses : list PublicKey)
  : list (Response (option AddressLookupTableAccount)) :=
  match addresses with
  | [] => []
  | a :: rest =>
      rpc_getAddressLookupTable net n connection a :: lookup_answers connection (S n) rest
  end.

End SubmissionVocabulary.

(** * Properties *)

Section Properties.

Context {MessageV0 MarginfiGroup Bank OraclePrice BankRaw BankMetadata : Type}.
Variable lib : @Platform MessageV0 MarginfiGroup Bank OraclePrice BankRaw BankMetadata.
Variable net : @Network MessageV0 BankRaw BankMetadata.

Abbreviation Client := (@MarginfiClient MarginfiGroup Bank OraclePrice BankMetadata).
Abbreviation Ev := (@Event MessageV0).
Abbreviation Mon := (@M MessageV0).
Abbreviation status_query := (status_query (MessageV0 := MessageV0)).
Abbreviation poll_rounds := (poll_rounds (MessageV0 := MessageV0)).
Abbreviation jito_round := (jito_round (MessageV0 := MessageV0)).
Abbreviation jito_rounds := (jito_rounds (MessageV0 := MessageV0)).
Abbreviation iteration_trace := (iteration_trace (MessageV0 := MessageV0)).
Abbreviation spam_trace := (spam_trace (MessageV0 := MessageV0)).
Abbreviation missed_pass := (missed_pass (MessageV0 := MessageV0)).
Abbreviation missed_passes := (missed_passes (MessageV0 := MessageV0)).
Abbreviation slot_use := (slot_use (MessageV0 := MessageV0)).

Lemma emits_ret {St A : Type} (P : Ev -> Prop) (a : A) : emits P (ret a : Mon St A).
Proof. intros w; split; [reflexivity|]. exists []. now rewrite app_nil_r. Qed.

Lemma emits_raise {St A : Type} (P : Ev -> Prop) (e : JsError) : emits P (raise e : Mon St A).
Proof. intros w; split; [reflexivity|]. exists []. now rewrite app_nil_r. Qed.

Lemma emits_diverge {St A : Type} (P : Ev -> Prop) : emits P (diverge : Mon St A).
Proof. intros w; split; [reflexivity|]. exists []. now rewrite app_nil_r. Qed.

Lemma emits_get_this {St : Type} (P : Ev -> Prop) : emits P (get_this : Mon St St).
Proof. intros w; split; [reflexivity|]. exists []. now rewrite app_nil_r. Qed.

Lemma emits_lift {St A : Type} (P : Ev -> Prop) (r : Response A) : emits P (lift r : Mon St A).
Proof. destruct r; [apply emits_ret | apply emits_raise]. Qed.

Lemma emits_await {St A : Type} (P : Ev -> Prop) (ev : Ev) (oracle : nat -> Response A) :
  P ev -> emits P (await ev oracle : Mon St A).
Proof.
  intros HP w. unfold await.
  destruct (oracle _); simpl; (split; [reflexivity|]); exists [ev]; auto.
Qed.

Lemma emits_sleep {St : Type} (P : Ev -> Prop) (ms : Z) :
  P (EvSleep ms) -> emits P (sleep ms : Mon St unit).
Proof. intros; now apply emits_await. Qed.

Lemma emits_bind {St A B : Type} (P : Ev -> Prop) (m : Mon St A) (k : A -> Mon St B) :
  emits P m -> (forall a, emits P (k a)) -> emits P (bind m k).
Proof.
  intros Hm Hk w. simpl.
  destruct (Hm w) as [Ht [evs [Htr HF]]].
  destruct (m w) as [[a | e |] w1]; simpl in *.
  - destruct (Hk a w1) as [Ht2 [evs2 [Htr2 HF2]]].
    split; [congruence|]. exists (evs ++ evs2).
    rewrite Htr2, Htr, app_assoc. split; [reflexivity | now apply Forall_app].
  - split; [assumption|]. now exists evs.
  - split; [assumption|]. now exists evs.
Qed.

Lemma emits_catch {St A : Type} (P : Ev -> Prop) (m : Mon St A) (h : JsError -> Mon St A) :
  emits P m -> (forall e, emits P (h e)) -> emits P (catch m h).
Proof.
  intros Hm Hh w. simpl.
  destruct (Hm w) as [Ht [evs [Htr HF]]].
  destruct (m w) as [[a | e |] w1]; simpl in *.
  - split; [assumption|]. now exists evs.
  - destruct (Hh e w1) as [Ht2 [evs2 [Htr2 HF2]]].
    split; [congruence|]. exists (evs ++ evs2).
    rewrite Htr2, Htr, app_assoc. split; [reflexivity | now apply Forall_app].
  - split; [assumption|]. now exists evs.
Qed.

Lemma emits_weaken {St A : Type} (P Q : Ev -> Prop) (m : Mon St A) :
  (forall e, P e -> Q e) -> emits P m -> emits Q m.
Proof.
  intros HPQ Hm w. destruct (Hm w) as [Ht [evs [Htr HF]]].
  split; [assumption|]. exists evs. split; [assumption|].
  eapply Forall_impl; eauto.
Qed.

(** One step of a proof by the structure of the program. *)
Ltac emits_step :=
  match goal with
  | |- emits _ (bind _ _) => apply emits_bind; [| intros ?]
  | |- emits _ (catch _ _) => apply emits_catch; [| intros ?]
  | |- emits _ (ret _) => apply emits_ret
  | |- emits _ (raise _) => apply emits_raise
  | |- emits _ diverge => apply emits_diverge
  | |- emits _ get_this => apply emits_get_this
  | |- emits _ (lift _) => apply emits_lift
  | |- emits _ (sleep _) => apply emits_sleep
  | |- emits _ (await _ _) => apply emits_await
  | |- emits _ (if ?b then _ else _) => destruct b
  | |- emits _ (match ?x with _ => _ end) => destruct x
  end.

Ltac emits_auto := repeat (cbv zeta; emits_step); try (exact I); auto.

(** ** The loops and the paths, call by call *)

Lemma pollSignatureStatus_emits {St : Type} (P : Ev -> Prop) hit ms connection signature n :
  P (EvGetSignatureStatus connection signature (Some {| searchTransactionHistory := false |})) ->
  P (EvSleep ms) ->
  emits P (pollSignatureStatus net hit ms connection signature n : Mon St bool).
Proof.
  intros H1 H2. induction n as [| n IH]; cbn [pollSignatureStatus]; emits_auto.
Qed.

Lemma spamIteration_emits {St : Type} (P : Ev -> Prop) sendOptions hit label ms
  sendConnection connection vtx lastValid status :
  P (EvSendTransaction sendConnection vtx sendOptions) ->
  (forall signature,
     P (EvGetSignatureStatus connection signature
          (Some {| searchTransactionHistory := false |}))) ->
  P (EvSleep ms) ->
  P (EvGetBlockHeight connection None) ->
  emits P (spamIteration net sendOptions hit label ms sendConnection connection vtx
             lastValid status : Mon St _).
Proof.
  intros H1 H2 H3 H4. unfold spamIteration.
  emits_step; [emits_auto|].
  emits_step; [now apply pollSignatureStatus_emits|].
  emits_auto.
Qed.

Lemma spamLoop_emits {St : Type} (P : Ev -> Prop) fuel sendOptions hit label ms
  sendConnection connection vtx lastValid status :
  P (EvSendTransaction sendConnection vtx sendOptions) ->
  (forall signature,
     P (EvGetSignatureStatus connection signature
          (Some {| searchTransactionHistory := false |}))) ->
  P (EvSleep ms) ->
  P (EvGetBlockHeight connection None) ->
  emits P (spamLoop net fuel sendOptions hit label ms sendConnection connection vtx
             lastValid status : Mon St _).
Proof.
  intros H1 H2 H3 H4. revert status.
  induction fuel as [| fuel IH]; intros status; cbn [spamLoop]; [apply emits_diverge|].
  emits_step; [now apply spamIteration_emits|].
  destruct a as [signature status']. emits_auto.
Qed.

Lemma jitoLoop_emits {St : Type} (P : Ev -> Prop) fuel connection rawTx txSig lastValid h :
  P (EvSendRawTransaction connection rawTx (jitoSendOptions connection)) ->
  P (EvGetSignatureStatus connection txSig None) ->
  P (EvGetBlockHeight connection (commitment connection)) ->
  P (EvSleep 500) ->
  emits P (jitoLoop net fuel connection rawTx txSig lastValid h : Mon St _).
Proof.
  intros H1 H2 H3 H4. revert h.
  induction fuel as [| fuel IH]; intros h; cbn [jitoLoop]; emits_auto.
Qed.

Lemma toVersioned_emits {St : Type} (P : Ev -> Prop) c transaction blockhash :
  emits P (toVersioned lib c transaction blockhash : Mon St _).
Proof. unfold toVersioned. emits_auto. Qed.

Lemma signWith_emits {St : Type} (P : Ev -> Prop) vtx signers :
  emits P (signWith lib vtx signers : Mon St _).
Proof. unfold signWith. emits_auto. Qed.

Lemma preflightSimulation_emits {St : Type} (P : Ev -> Prop) connection vtx opts slot :
  P (EvSimulateTransaction connection vtx (simulate_config opts slot)) ->
  emits P (preflightSimulation lib net connection vtx opts slot : Mon St unit).
Proof. intros H. unfold preflightSimulation. emits_auto. Qed.

(** Every call of the submission and simulation paths, by kind: none of
    them assigns to [this]. *)
Lemma processTransaction_preserves fuel tx signers opts conn :
  emits (fun _ => True) (processTransaction lib net fuel tx signers opts conn).
Proof.
  unfold processTransaction, processTransaction_build, processTransaction_send.
  emits_step; [emits_auto|].
  cbv zeta. emits_step; [emits_auto|].
  emits_step.
  - emits_step; [| emits_auto].
    emits_step; [emits_auto|].
    emits_step; [apply toVersioned_emits|].
    emits_step; [apply signWith_emits|]. emits_auto.
  - emits_step; [| emits_auto].
    cbv zeta.
    repeat first [ apply spamLoop_emits; auto
                 | apply preflightSimulation_emits; auto
                 | emits_step ]; auto.
Qed.

Lemma signTransaction_preserves tx signers conn :
  emits (fun _ => True) (signTransaction lib net tx signers conn).
Proof.
  unfold signTransaction.
  repeat first [ apply toVersioned_emits | apply signWith_emits | cbv zeta; emits_step ]; auto.
Qed.

Lemma sendAndConfirmTransaction_preserves fuel vtx opts conn :
  emits (fun _ => True) (sendAndConfirmTransaction lib net fuel vtx opts conn).
Proof.
  unfold sendAndConfirmTransaction, sendAndConfirmTransaction_body.
  repeat first [ apply spamLoop_emits; auto
               | apply preflightSimulation_emits; auto
               | cbv zeta; emits_step ]; auto.
Qed.

Lemma signTranscationJito_preserves tip tx luts fee :
  emits (fun _ => True) (signTranscationJito lib net tip tx luts fee).
Proof.
  unfold signTranscationJito.
  repeat (cbv zeta; emits_step); auto.
Qed.

Lemma sendAndConfirmTrancationJito_preserves fuel tx :
  emits (fun _ => True) (sendAndConfirmTrancationJito lib net fuel tx).
Proof.
  unfold sendAndConfirmTrancationJito.
  repeat first [ apply jitoLoop_emits; auto | cbv zeta; emits_step ]; auto.
Qed.

Lemma simulateTransaction_preserves tx accounts :
  emits (fun _ => True) (simulateTransaction lib net tx accounts).
Proof.
  unfold simulateTransaction.
  repeat first [ apply toVersioned_emits | cbv zeta; emits_step ]; auto.
Qed.

Lemma fetchGroupData_emits {St : Type} program groupAddress cm bankAddresses metadata :
  emits (fun _ => True)
    (fetchGroupData lib net program groupAddress cm bankAddresses metadata : Mon St _).
Proof.
  unfold fetchGroupData.
  emits_step.
  - destruct bankAddresses as [[| a more] |]; emits_auto.
  - emits_auto.
Qed.

(** ** Frame of [reload] and of the submission paths *)

(** C9. [reload] assigns the three fetched values to [group], [banks] and
    [oraclePrices] when the fetch succeeds and assigns nothing when it fails;
    every other field, [addressLookupTables] among them (set by the
    constructor from what [fetch] loaded), is the same after [reload]; and no
    submission, signing or simulation path changes any field of the client. *)
Theorem C9_reload_replaces_exactly_fetched_fields (w : World Client) :
  (match fst (reload_fetch lib net w) with
   | Return (g, b, p) =>
       fst (reload lib net w) = Return tt /\
       group (this (snd (reload lib net w))) = g /\
       banks (this (snd (reload lib net w))) = b /\
       oraclePrices (this (snd (reload lib net w))) = p
   | Throw e => fst (reload lib net w) = Throw e /\ this (snd (reload lib net w)) = this w
   | Diverge => fst (reload lib net w) = Diverge /\ this (snd (reload lib net w)) = this w
   end) /\
  same_but_fetched (this w) (this (snd (reload lib net w))) /\
  (forall cfg prog wal ro g b p luts pre meta ep spam skip,
     addressLookupTables
       (new_MarginfiClient cfg prog wal ro g b p (Some luts) pre meta ep spam skip
          : Client) = luts) /\
  (forall fuel tx signers opts conn,
     this (snd (processTransaction lib net fuel tx signers opts conn w)) = this w) /\
  (forall tx signers conn,
     this (snd (signTransaction lib net tx signers conn w)) = this w) /\
  (forall fuel vtx opts conn,
     this (snd (sendAndConfirmTransaction lib net fuel vtx opts conn w)) = this w) /\
  (forall tip tx luts fee,
     this (snd (signTranscationJito lib net tip tx luts fee w)) = this w) /\
  (forall fuel tx,
     this (snd (sendAndConfirmTrancationJito lib net fuel tx w)) = this w) /\
  (forall tx accounts,
     this (snd (simulateTransaction lib net tx accounts w)) = this w).
Proof.
  assert (Hf : this (snd (reload_fetch lib net w)) = this w)
    by apply (fetchGroupData_emits (St := Client)).
  assert (Hr : reload lib net w =
               match reload_fetch lib net w with
               | (Return (g, b, p), w1) =>
                   (Return tt,
                    {| this := set_oraclePrices p (set_banks b (set_group g (this w1)));
                       trace := trace w1 |})
               | (Throw e, w1) => (Throw e, w1)
               | (Diverge, w1) => (Diverge, w1)
               end).
  { unfold reload, reload_fetch. simpl.
    destruct (fetchGroupData _ _ _ _ _ _ _ w) as [[[[g b] p] | e |] w1]; reflexivity. }
  rewrite Hr. clear Hr.
  destruct (reload_fetch lib net w) as [[[[g b] p] | e |] w1]; simpl in *.
  all: repeat split; intros; try (rewrite Hf; reflexivity); try assumption.
  all: first [ apply processTransaction_preserves
             | apply signTransaction_preserves
             | apply sendAndConfirmTransaction_preserves
             | apply signTranscationJito_preserves
             | apply sendAndConfirmTrancationJito_preserves
             | apply simulateTransaction_preserves ].
Qed.

(** ** Defaults of [fetch] *)

(** Case analysis on the answers of the oracles met along a loop-free path. *)
Ltac oracle_cases :=
  repeat (simpl;
          match goal with
          | |- context [match ?x with Resolved _ => _ | Rejected _ => _ end] =>
              destruct x eqn:?
          | |- context [if ?b then _ else _] => destruct b eqn:?
          | |- context [match ?x with Some _ => _ | None => _ end] => destruct x eqn:?
          | |- context [match ?x with inl _ => _ | inr _ => _ end] => destruct x eqn:?
          | |- context [match ?x with nil => _ | cons _ _ => _ end] => destruct x eqn:?
          | |- context [match ?x with TxErrString _ => _ | TxErrObject _ => _ end] =>
              destruct x eqn:?
          end).

Ltac trace_tail :=
  simpl;
  repeat rewrite <- app_assoc;
  match goal with
  | |- exists evs, ?tr ++ ?l = ?tr ++ evs /\ _ => exists l; split; [reflexivity|]
  | |- exists evs, ?tr = ?tr ++ evs /\ _ => exists []; split; [now rewrite app_nil_r|]
  end.

(** Without spam mode a submission is one broadcast: at most one send, no
    status poll, and no dependence on fuel. *)
Lemma processTransaction_single_shot fuel tx signers opts conn (w : World Client) :
  spamSendTx (this w) = false ->
  exists evs,
    trace (snd (processTransaction lib net fuel tx signers opts conn w)) = trace w ++ evs /\
    (calls m_sendTransaction evs <= 1)%nat /\
    calls m_getSignatureStatus evs = 0%nat /\
    fst (processTransaction lib net fuel tx signers opts conn w) <> Diverge.
Proof.
  intros Hspam.
  unfold processTransaction, processTransaction_build, processTransaction_send,
    toVersioned, signWith, await, lift.
  simpl. rewrite Hspam.
  oracle_cases; trace_tail; unfold calls; simpl; repeat split; try lia; discriminate.
Qed.

Lemma sendAndConfirmTransaction_single_shot fuel vtx opts conn (w : World Client) :
  spamSendTx (this w) = false ->
  exists evs,
    trace (snd (sendAndConfirmTransaction lib net fuel vtx opts conn w)) = trace w ++ evs /\
    (calls m_sendTransaction evs <= 1)%nat /\
    calls m_getSignatureStatus evs = 0%nat /\
    fst (sendAndConfirmTransaction lib net fuel vtx opts conn w) <> Diverge.
Proof.
  intros Hspam.
  unfold sendAndConfirmTransaction, sendAndConfirmTransaction_body, await, lift.
  simpl. rewrite Hspam.
  oracle_cases; trace_tail; unfold calls; simpl; repeat split; try lia; discriminate.
Qed.

(** C10. A client returned by [fetch] has [spamSendTx] and
    [skipPreflightInSpam] equal to the option given, and [false] when the
    option (or the whole options object) is omitted, although the constructor
    itself defaults both to [true]; such a client submits in single-shot
    mode: one send at most, no status polling. *)
Theorem C10_fetch_defaults_flags_to_false config wal connection clientOptions
  (w : World unit) (c : Client) (w' : World unit) :
  fetch lib net config wal connection clientOptions w = (Return c, w') ->
  (option_of clientOptions mo_spamSendTx = None -> spamSendTx c = false) /\
  (option_of clientOptions mo_skipPreflightInSpam = None -> skipPreflightInSpam c = false) /\
  spamSendTx c = nullish (option_of clientOptions mo_spamSendTx) false /\
  skipPreflightInSpam c = nullish (option_of clientOptions mo_skipPreflightInSpam) false /\
  (forall cfg prog wl ro g b p luts pre meta ep,
     spamSendTx (new_MarginfiClient cfg prog wl ro g b p luts pre meta ep None None
                   : Client) = true /\
     skipPreflightInSpam (new_MarginfiClient cfg prog wl ro g b p luts pre meta ep None None
                            : Client) = true) /\
  (option_of clientOptions mo_spamSendTx = None ->
   forall fuel tx signers opts conn (w0 : World Client),
     this w0 = c ->
     exists evs,
       trace (snd (processTransaction lib net fuel tx signers opts conn w0)) = trace w0 ++ evs /\
       (calls m_sendTransaction evs <= 1)%nat /\
       calls m_getSignatureStatus evs = 0%nat /\
       fst (processTransaction lib net fuel tx signers opts conn w0) <> Diverge).
Proof.
  intros Hfetch.
  assert (Hflags : spamSendTx c = nullish (option_of clientOptions mo_spamSendTx) false /\
                   skipPreflightInSpam c
                   = nullish (option_of clientOptions mo_skipPreflightInSpam) false).
  { revert Hfetch. unfold fetch. simpl.
    destruct (await EvLoadBankMetadatas (loadBankMetadatas net) w) as [[m | e |] w1];
      simpl.
    - destruct (fetchGroupData _ _ _ _ _ _ _ w1) as [[[[g b] p] | e |] w2];
        simpl; try discriminate.
      destruct (await_all _ w2) as [[l | e |] w3]; simpl; try discriminate.
      intros H; inversion H; subst; simpl. split; reflexivity.
    - destruct (fetchGroupData _ _ _ _ _ _ _ w1) as [[[[g b] p] | e' |] w2];
        simpl; try discriminate.
      destruct (await_all _ w2) as [[l | e' |] w3]; simpl; try discriminate.
      intros H; inversion H; subst; simpl. split; reflexivity.
    - unfold await in *. discriminate. }
  destruct Hflags as [Hs Hk].
  repeat split; try assumption.
  - intros Hnone. now rewrite Hs, Hnone.
  - intros Hnone. now rewrite Hk, Hnone.
  - intros Hnone fuel tx signers opts conn w0 Hw0.
    apply processTransaction_single_shot. rewrite Hw0, Hs, Hnone. reflexivity.
Qed.

(** ** Classification of failures *)

Lemma classify_is_typed (c : Client) (err : JsError) :
  exists msg kind logs,
    classify lib c err = ProcessTransactionError msg kind logs /\
    (kind = SimulationError \/ kind = FallthroughError).
Proof.
  destruct err as [m [l |] | m k l | m | m | m]; simpl; eauto 6.
Qed.

(** The send connection, when the constructor accepts the endpoint. *)
Lemma new_sendConnection_resolved (c : Client) (connection sc : Connection) :
  new_sendConnection lib c connection = Resolved sc -> sc = sendConnection_of c connection.
Proof.
  unfold new_sendConnection, sendConnection_of.
  destruct (sendEndpoint c) as [e |]; [| now intros H; inversion H].
  destruct (e =? "")%string; [now intros H; inversion H |].
  destruct (Connection_assertEndpoint lib e); [| discriminate].
  now intros H; inversion H.
Qed.

Lemma new_sendConnection_cases (c : Client) (connection : Connection) :
  new_sendConnection lib c connection = Resolved (sendConnection_of c connection) \/
  exists e, new_sendConnection lib c connection = Rejected e.
Proof.
  destruct (new_sendConnection lib c connection) as [sc | e] eqn:E; [| eauto].
  left. now rewrite (new_sendConnection_resolved _ _ _ E).
Qed.

(** The two paths as the constructor and their final [catch] make them. *)
Lemma sendAndConfirmTransaction_catch fuel vtx opts conn (w : World Client) :
  sendAndConfirmTransaction lib net fuel vtx opts conn w =
  match new_sendConnection lib (this w) (connection_of (this w) conn) with
  | Rejected e => (Throw e, w)
  | Resolved sendConnection =>
      match sendAndConfirmTransaction_body lib net fuel (this w)
              (connection_of (this w) conn) sendConnection vtx opts w with
      | (Throw err, w1) => (Throw (classify lib (this w) err), w1)
      | r => r
      end
  end.
Proof.
  unfold sendAndConfirmTransaction.
  cbn [bind catch raise ret Monad_M Exc_M get_this].
  destruct (new_sendConnection lib (this w) (connection_of (this w) conn)) as [sc | e];
    cbn [lift bind catch raise ret Monad_M Exc_M]; [| now destruct w].
  destruct w as [c tr]; cbn [this trace].
  now destruct (sendAndConfirmTransaction_body _ _ _ _ _ _ _ _ _) as [[a | err |] w1].
Qed.

Lemma processTransaction_catch fuel tx signers opts conn (w : World Client) :
  processTransaction lib net fuel tx signers opts conn w =
  match new_sendConnection lib (this w) (connection_of (this w) conn) with
  | Rejected e => (Throw e, w)
  | Resolved sendConnection =>
      match processTransaction_build lib net (this w) (connection_of (this w) conn)
              tx signers w with
      | (Return b, w1) =>
          match processTransaction_send lib net fuel (this w) (connection_of (this w) conn)
                  sendConnection opts b w1 with
          | (Throw err, w2) => (Throw (classify lib (this w) err), w2)
          | r => r
          end
      | (Throw err, w1) =>
          (Throw (ProcessTransactionError (error_message err) TransactionBuildingError None),
           w1)
      | (Diverge, w1) => (Diverge, w1)
      end
  end.
Proof.
  unfold processTransaction.
  cbn [bind catch raise ret Monad_M Exc_M get_this].
  destruct (new_sendConnection lib (this w) (connection_of (this w) conn)) as [sc | e];
    cbn [lift bind catch raise ret Monad_M Exc_M]; [| now destruct w].
  destruct w as [c tr]; cbn [this trace].
  destruct (processTransaction_build _ _ _ _ _ _ _) as [[b | err |] w1]; reflexivity.
Qed.

(** Nothing thrown by the two paths has the kind [TimeoutError]: the timeout
    thrown inside the spam loop is caught by the final [catch] like any other
    error, and leaves as a [FallthroughError].  What is not a
    [ProcessTransactionError] is the error of the constructor of the send
    connection, thrown before the first [try]. *)
Lemma thrown_kinds fuel (w w' : World Client) (e : JsError) conn :
  (exists tx signers opts,
     processTransaction lib net fuel tx signers opts conn w = (Throw e, w')) \/
  (exists vtx opts,
     sendAndConfirmTransaction lib net fuel vtx opts conn w = (Throw e, w')) ->
  match new_sendConnection lib (this w) (connection_of (this w) conn) with
  | Resolved _ =>
      exists msg kind logs,
        e = ProcessTransactionError msg kind logs /\
        (kind = TransactionBuildingError \/ kind = SimulationError \/
         kind = FallthroughError)
  | Rejected e0 => e = e0 /\ w' = w
  end.
Proof.
  intros [(tx & signers & opts & H) | (vtx & opts & H)].
  - rewrite processTransaction_catch in H.
    destruct (new_sendConnection lib (this w) (connection_of (this w) conn)) as [sc | e0];
      [| now inversion H].
    destruct (processTransaction_build _ _ _ _ _ _ w) as [[b | err |] w1].
    + destruct (processTransaction_send _ _ _ _ _ _ _ _ w1) as [[a | err |] w2];
        try discriminate.
      inversion H; subst.
      destruct (classify_is_typed (this w) err) as (msg & kind & logs & -> & Hk).
      exists msg, kind, logs. intuition.
    + inversion H; subst. eauto 8.
    + discriminate.
  - rewrite sendAndConfirmTransaction_catch in H.
    destruct (new_sendConnection lib (this w) (connection_of (this w) conn)) as [sc | e0];
      [| now inversion H].
    destruct (sendAndConfirmTransaction_body _ _ _ _ _ _ _ _ w) as [[a | err |] w1];
      try discriminate.
    inversion H; subst.
    destruct (classify_is_typed (this w) err) as (msg & kind & logs & -> & Hk).
    exists msg, kind, logs. intuition.
Qed.

Lemma classify_timeout (c : Client) (l : option (list string)) :
  classify lib c (ProcessTransactionError timeout_message TimeoutError l)
  = ProcessTransactionError timeout_message FallthroughError None.
Proof. reflexivity. Qed.

(** C3. What [processTransaction] and [sendAndConfirmTransaction] throw.
    The send connection is built before the first [try]: when the
    constructor rejects [sendEndpoint], its error is thrown as it is, before
    any call, and is not a [ProcessTransactionError].  When the send
    connection is built, an error caught by the final [catch] is rethrown as
    a [ProcessTransactionError]: a [SendTransactionError] that carries logs
    becomes a [SimulationError] with the description parsed from the logs
    (the raw message when parsing yields nothing) and the logs attached; any
    other error becomes a [FallthroughError] with its message; an error of
    the build phase of [processTransaction] becomes a
    [TransactionBuildingError].  A run that does not fail is returned as it
    is, a run that fails always throws, and everything thrown is then a
    [ProcessTransactionError] with a kind. *)
Theorem C3_failures_are_classified (fuel : nat) (w : World Client) :
  let rethrown (A : Type) (r : Outcome A * World Client) : Outcome A * World Client :=
    match r with
    | (Throw (SendTransactionError msg (Some logs)), w1) =>
        (Throw (ProcessTransactionError
                  (match parseErrorFromLogs lib logs (programId (config (this w))) with
                   | Some parsed => description parsed
                   | None => msg
                   end)
                  SimulationError (Some logs)), w1)
    | (Throw other, w1) =>
        (Throw (ProcessTransactionError (error_message other) FallthroughError None), w1)
    | (Return a, w1) => (Return a, w1)
    | (Diverge, w1) => (Diverge, w1)
    end in
  (forall vtx opts conn,
     sendAndConfirmTransaction lib net fuel vtx opts conn w =
     match new_sendConnection lib (this w) (connection_of (this w) conn) with
     | Rejected e => (Throw e, w)
     | Resolved sendConnection =>
         rethrown _ (sendAndConfirmTransaction_body lib net fuel (this w)
                       (connection_of (this w) conn) sendConnection vtx opts w)
     end) /\
  (forall tx signers opts conn,
     processTransaction lib net fuel tx signers opts conn w =
     match new_sendConnection lib (this w) (connection_of (this w) conn) with
     | Rejected e => (Throw e, w)
     | Resolved sendConnection =>
         match processTransaction_build lib net (this w) (connection_of (this w) conn)
                 tx signers w with
         | (Return b, w1) =>
             rethrown _ (processTransaction_send lib net fuel (this w)
                           (connection_of (this w) conn) sendConnection opts b w1)
         | (Throw err, w1) =>
             (Throw (ProcessTransactionError (error_message err) TransactionBuildingError
                       None), w1)
         | (Diverge, w1) => (Diverge, w1)
         end
     end) /\
  (forall e w' conn,
     (exists tx signers opts,
        processTransaction lib net fuel tx signers opts conn w = (Throw e, w')) \/
     (exists vtx opts,
        sendAndConfirmTransaction lib net fuel vtx opts conn w = (Throw e, w')) ->
     match new_sendConnection lib (this w) (connection_of (this w) conn) with
     | Resolved _ =>
         exists msg kind logs,
           e = ProcessTransactionError msg kind logs /\
           (kind = TransactionBuildingError \/ kind = SimulationError \/
            kind = FallthroughError)
     | Rejected e0 => e = e0 /\ w' = w
     end).
Proof.
  intros rethrown.
  split; [| split].
  - intros. rewrite sendAndConfirmTransaction_catch.
    destruct (new_sendConnection lib (this w) (connection_of (this w) conn)) as [sc | e0];
      [| reflexivity].
    destruct (sendAndConfirmTransaction_body _ _ _ _ _ _ _ _ w) as [[a | err |] w1];
      try reflexivity.
    destruct err as [m [l |] | m k l | m | m | m]; reflexivity.
  - intros. rewrite processTransaction_catch.
    destruct (new_sendConnection lib (this w) (connection_of (this w) conn)) as [sc | e0];
      [| reflexivity].
    destruct (processTransaction_build _ _ _ _ _ _ w) as [[b | err |] w1];
      try reflexivity.
    destruct (processTransaction_send _ _ _ _ _ _ _ _ w1) as [[a | err |] w2];
      try reflexivity.
    destruct err as [m [l |] | m k l | m | m | m]; reflexivity.
  - intros e w' conn. apply thrown_kinds.
Qed.

(** ** Counting calls *)

Lemma calls_app (m : Method) (tr evs : list Ev) :
  calls m (tr ++ evs) = (calls m tr + calls m evs)%nat.
Proof. unfold calls. now rewrite filter_app, length_app. Qed.

Lemma calls_snoc_same (m : Method) (tr : list Ev) (ev : Ev) :
  method_of ev = m -> calls m (tr ++ [ev]) = S (calls m tr).
Proof.
  intros H. rewrite calls_app. unfold calls at 2. simpl. rewrite H.
  destruct m; simpl; lia.
Qed.

Lemma calls_snoc_other (m : Method) (tr : list Ev) (ev : Ev) :
  Method_eqb (method_of ev) m = false -> calls m (tr ++ [ev]) = calls m tr.
Proof.
  intros H. rewrite calls_app. unfold calls at 2. simpl. rewrite H. simpl. lia.
Qed.

Lemma calls_past (m : Method) (tr evs : list Ev) :
  calls m evs = 0%nat -> calls m (tr ++ evs) = calls m tr.
Proof. intros H. rewrite calls_app, H. apply Nat.add_0_r. Qed.

Lemma dry_run_test (opts : option TransactionOptions) :
  nullish (match opts with Some o => dryRun o | None => None end) false = dry_run opts.
Proof. now destruct opts. Qed.

(** ** The status sub-poll *)

Lemma calls_poll_rounds connection signature ms k :
  calls m_getSignatureStatus (poll_rounds connection signature ms k) = k /\
  calls m_getBlockHeight (poll_rounds connection signature ms k) = 0%nat /\
  calls m_sendTransaction (poll_rounds connection signature ms k) = 0%nat.
Proof.
  induction k as [| k (IH1 & IH2 & IH3)]; [now cbv|].
  unfold calls in *. simpl. rewrite IH1, IH2, IH3. auto.
Qed.

(** A sub-poll whose first [j] answers miss and whose next answer hits stops
    at that answer, after [j + 1] queries. *)
Lemma pollSignatureStatus_hit {St : Type} hit ms connection signature :
  forall j n (w : World St) st,
    (j < n)%nat ->
    (forall i, (i < j)%nat ->
       exists s, status_answer net w connection signature i = Resolved s /\ hit s = false) ->
    status_answer net w connection signature j = Resolved st ->
    hit st = true ->
    pollSignatureStatus net hit ms connection signature n w =
    (Return true,
     {| this := this w;
        trace := trace w ++ poll_rounds connection signature ms j
                 ++ [status_query connection signature] |}).
Proof.
  induction j as [| j IH]; intros n w st Hlt Hmiss Hst Hhit.
  - destruct n as [| n]; [lia|]. cbn [pollSignatureStatus bind ret Monad_M].
    unfold await. cbn [method_of]. unfold status_answer in Hst.
    rewrite Nat.add_0_r in Hst. rewrite Hst. cbn. rewrite Hhit. reflexivity.
  - destruct n as [| n]; [lia|]. cbn [pollSignatureStatus bind ret Monad_M].
    destruct (Hmiss 0%nat ltac:(lia)) as [s [Hs Hh]].
    unfold status_answer in Hs. rewrite Nat.add_0_r in Hs.
    unfold await at 1. cbn [method_of]. rewrite Hs. cbn iota beta. rewrite Hh.
    unfold sleep, await at 1. cbn [method_of bind Monad_M trace this].
    rewrite (IH n _ st).
    + cbn [this trace poll_rounds]. f_equal. f_equal.
      repeat rewrite <- app_assoc. reflexivity.
    + lia.
    + intros i Hi. destruct (Hmiss (S i) ltac:(lia)) as [s' [Hs' Hh']].
      exists s'. split; [| exact Hh'].
      unfold status_answer in *. cbn [trace].
      rewrite calls_snoc_other by reflexivity.
      rewrite calls_snoc_same by reflexivity.
      rewrite <- Hs'. f_equal. lia.
    + unfold status_answer in *. cbn [trace].
      rewrite calls_snoc_other by reflexivity.
      rewrite calls_snoc_same by reflexivity.
      rewrite <- Hst. f_equal. lia.
    + exact Hhit.
Qed.

(** A sub-poll whose [n] answers all miss runs its [n] rounds. *)
Lemma pollSignatureStatus_miss {St : Type} hit ms connection signature :
  forall n (w : World St),
    (forall i, (i < n)%nat ->
       exists s, status_answer net w connection signature i = Resolved s /\ hit s = false) ->
    pollSignatureStatus net hit ms connection signature n w =
    (Return false,
     {| this := this w; trace := trace w ++ poll_rounds connection signature ms n |}).
Proof.
  induction n as [| n IH]; intros w Hmiss.
  - cbn. rewrite app_nil_r. now destruct w.
  - cbn [pollSignatureStatus bind ret Monad_M].
    destruct (Hmiss 0%nat ltac:(lia)) as [s [Hs Hh]].
    unfold status_answer in Hs. rewrite Nat.add_0_r in Hs.
    unfold await at 1. cbn [method_of]. rewrite Hs. cbn iota beta. rewrite Hh.
    unfold sleep, await at 1. cbn [method_of bind Monad_M trace this].
    rewrite IH.
    + cbn [this trace poll_rounds]. f_equal. f_equal.
      repeat rewrite <- app_assoc. reflexivity.
    + intros i Hi. destruct (Hmiss (S i) ltac:(lia)) as [s' [Hs' Hh']].
      exists s'. split; [| exact Hh'].
      unfold status_answer in *. cbn [trace].
      rewrite calls_snoc_other by reflexivity.
      rewrite calls_snoc_same by reflexivity.
      rewrite <- Hs'. f_equal. lia.
Qed.

(** The sub-poll, whatever the answers: some rounds that missed, then at
    most one more query (the one that hit, or was rejected); never more than
    [n] queries, each without transaction history, each miss followed by the
    sleep. *)
Lemma pollSignatureStatus_shape {St : Type} hit ms connection signature :
  forall n (w : World St),
  exists k last,
    trace (snd (pollSignatureStatus net hit ms connection signature n w)) =
      trace w ++ poll_rounds connection signature ms k ++ last /\
    (last = [] \/ last = [status_query connection signature]) /\
    (k + length last <= n)%nat.
Proof.
  induction n as [| n IH]; intros w.
  - exists 0%nat, []. cbn. rewrite app_nil_r. auto.
  - cbn [pollSignatureStatus bind ret Monad_M]. unfold await at 1.
    destruct (rpc_getSignatureStatus _ _ _ _ _) as [s | e]; cbn iota beta.
    + destruct (hit s).
      * exists 0%nat, [status_query connection signature]. cbn. split; [reflexivity|].
        split; [now right | lia].
      * unfold sleep, await at 1. cbn [bind Monad_M this trace].
        match goal with
        | |- context [pollSignatureStatus _ _ _ _ _ n ?w1] =>
            destruct (IH w1) as (k & last & Htr & Hlast & Hle)
        end.
        exists (S k), last. rewrite Htr. cbn [trace poll_rounds].
        repeat rewrite <- app_assoc. split; [reflexivity|]. split; [exact Hlast | lia].
    + exists 0%nat, [status_query connection signature]. cbn. split; [reflexivity|].
      split; [now right | lia].
Qed.

(** ** One pass of the spam loop *)

Lemma spamIteration_shape {St : Type} sendOptions hit label ms sendConnection connection
  vtx lastValid status (w : World St) :
  exists evs,
    trace (snd (spamIteration net sendOptions hit label ms sendConnection connection vtx
                  lastValid status w)) = trace w ++ evs /\
    iteration_trace sendOptions ms sendConnection connection vtx evs.
Proof.
  unfold spamIteration. cbn [bind ret raise Monad_M Exc_M]. unfold await at 1.
  destruct (rpc_sendTransaction _ _ _ _ _) as [signature | e]; cbn iota beta.
  - match goal with
    | |- context [pollSignatureStatus _ ?h ?m ?c ?s 5 ?w1] =>
        destruct (pollSignatureStatus_shape h m c s 5 w1) as (k & last & Htr & Hlast & Hle);
        destruct (pollSignatureStatus net h m c s 5 w1) as [[found | e |] w2]
    end; cbn [snd trace] in Htr.
    + unfold await. destruct (rpc_getBlockHeight _ _ _ _) as [h | e]; cbn iota beta.
      * destruct (h >? lastValid); cbn [snd trace]; rewrite Htr;
          exists (EvSendTransaction sendConnection vtx sendOptions
                  :: poll_rounds connection signature ms k ++ last
                     ++ [EvGetBlockHeight connection None]);
          (split; [repeat rewrite <- app_assoc; reflexivity |]);
          exists signature, k, last, [EvGetBlockHeight connection None]; auto.
      * cbn [snd trace]; rewrite Htr.
        exists (EvSendTransaction sendConnection vtx sendOptions
                :: poll_rounds connection signature ms k ++ last
                   ++ [EvGetBlockHeight connection None]).
        split; [repeat rewrite <- app_assoc; reflexivity |].
        exists signature, k, last, [EvGetBlockHeight connection None]; auto.
    + cbn [snd trace]. rewrite Htr.
      exists (EvSendTransaction sendConnection vtx sendOptions
              :: poll_rounds connection signature ms k ++ last ++ []).
      split; [rewrite app_nil_r; repeat rewrite <- app_assoc; reflexivity |].
      exists signature, k, last, []; auto.
    + cbn [snd trace]. rewrite Htr.
      exists (EvSendTransaction sendConnection vtx sendOptions
              :: poll_rounds connection signature ms k ++ last ++ []).
      split; [rewrite app_nil_r; repeat rewrite <- app_assoc; reflexivity |].
      exists signature, k, last, []; auto.
  - exists [EvSendTransaction sendConnection vtx sendOptions]. split; [reflexivity|].
    exists "", 0%nat, [], []. cbn. repeat split; auto; lia.
Qed.

Lemma spamLoop_shape {St : Type} sendOptions hit label ms sendConnection connection vtx
  lastValid :
  forall fuel status (w : World St),
  exists iters,
    trace (snd (spamLoop net fuel sendOptions hit label ms sendConnection connection vtx
                  lastValid status w)) = trace w ++ List.concat iters /\
    Forall (iteration_trace sendOptions ms sendConnection connection vtx) iters.
Proof.
  induction fuel as [| fuel IH]; intros status w.
  - exists []. cbn. rewrite app_nil_r. auto.
  - cbn [spamLoop bind ret Monad_M].
    destruct (spamIteration_shape sendOptions hit label ms sendConnection connection vtx
                lastValid status w) as (evs & Htr & Hshape).
    destruct (spamIteration _ _ _ _ _ _ _ _ _ _ w) as [[[signature status'] | e |] w1];
      cbn [snd trace] in Htr.
    + destruct (status' =? label)%string.
      * exists [evs]. cbn. rewrite app_nil_r. auto.
      * destruct (IH status' w1) as (iters & Htr' & HF).
        exists (evs :: iters). rewrite Htr', Htr. cbn [List.concat].
        rewrite app_assoc. auto.
    + exists [evs]. cbn. rewrite app_nil_r. auto.
    + exists [evs]. cbn. rewrite app_nil_r. auto.
Qed.

(** ** The spam path, end to end *)

Lemma spam_trace_nil sendOptions ms sendConnection connection :
  spam_trace sendOptions ms sendConnection connection [].
Proof. exists [], []. cbv. auto. Qed.

Lemma spam_trace_iters sendOptions ms sendConnection connection vtx iters :
  Forall (iteration_trace sendOptions ms sendConnection connection vtx) iters ->
  spam_trace sendOptions ms sendConnection connection (List.concat iters).
Proof. intros H. exists [], iters. repeat split; eauto. Qed.

Lemma spam_trace_cons sendOptions ms sendConnection connection e evs :
  Method_eqb (method_of e) m_sendTransaction = false ->
  Method_eqb (method_of e) m_getSignatureStatus = false ->
  spam_trace sendOptions ms sendConnection connection evs ->
  spam_trace sendOptions ms sendConnection connection (e :: evs).
Proof.
  intros H1 H2 (pre & iters & Heq & Hs & Hq & HF).
  exists (e :: pre), iters. subst evs. split; [reflexivity|].
  unfold calls in *. cbn [filter]. rewrite H1, H2. auto.
Qed.

(** After the case analysis of a loop-free prefix: name what the loop, if it
    was reached, added to the trace. *)
Ltac open_spamLoop :=
  try match goal with
      | |- context [spamLoop net ?f ?o ?h ?l ?m ?sc ?c ?v ?lv ?s ?w1] =>
          let iters := fresh "iters" in
          let Htr := fresh "Htr" in
          let HF := fresh "HF" in
          destruct (spamLoop_shape o h l m sc c v lv f s w1) as (iters & Htr & HF);
          destruct (spamLoop net f o h l m sc c v lv s w1) as [[? | ? |] ?];
          cbn [snd trace] in Htr; simpl; rewrite Htr
      end.

(** The send connection that was built is the one of [sendConnection_of]. *)
Ltac resolve_sendConnection :=
  try match goal with
      | H : new_sendConnection _ _ _ = Resolved _ |- _ =>
          apply new_sendConnection_resolved in H; subst
      end.

Ltac close_spam_trace :=
  simpl; repeat rewrite <- app_assoc; simpl;
  first
    [ exists []; split; [now rewrite app_nil_r | apply spam_trace_nil]
    | eexists; split; [reflexivity|];
      repeat (apply spam_trace_cons; [reflexivity | reflexivity |]);
      first [ apply spam_trace_nil | eapply spam_trace_iters; eassumption ] ].

Lemma processTransaction_spam_trace fuel tx signers opts conn (w : World Client) :
  spamSendTx (this w) = true ->
  exists evs,
    trace (snd (processTransaction lib net fuel tx signers opts conn w)) = trace w ++ evs /\
    spam_trace spamSendOptions_process 200
      (sendConnection_of (this w) (connection_of (this w) conn))
      (connection_of (this w) conn) evs.
Proof.
  intros Hspam.
  unfold processTransaction, processTransaction_build, processTransaction_send,
    preflightSimulation, toVersioned, signWith, await, lift.
  simpl. rewrite Hspam.
  oracle_cases; resolve_sendConnection; open_spamLoop; close_spam_trace.
Qed.

Lemma sendAndConfirmTransaction_spam_trace fuel vtx opts conn (w : World Client) :
  spamSendTx (this w) = true ->
  exists evs,
    trace (snd (sendAndConfirmTransaction lib net fuel vtx opts conn w)) = trace w ++ evs /\
    spam_trace spamSendOptions_confirm 400
      (sendConnection_of (this w) (connection_of (this w) conn))
      (connection_of (this w) conn) evs.
Proof.
  intros Hspam.
  unfold sendAndConfirmTransaction, sendAndConfirmTransaction_body,
    preflightSimulation, await, lift.
  simpl. rewrite Hspam.
  oracle_cases; resolve_sendConnection; open_spamLoop; close_spam_trace.
Qed.

(** ** When the spam loop stops *)

Lemma is_finalized_spec (v : option SignatureStatus) :
  is_finalized v = true <->
  exists st, v = Some st /\ confirmationStatus st = Some "finalized"%string.
Proof.
  unfold is_finalized, status_is. split.
  - destruct v as [st |]; [| discriminate].
    destruct (confirmationStatus st) as [cs |] eqn:E; [| discriminate].
    intros H. apply String.eqb_eq in H. subst. eauto.
  - intros (st & -> & ->). reflexivity.
Qed.

Lemma is_processed_or_better_spec (v : option SignatureStatus) :
  is_processed_or_better v = true <->
  exists st, v = Some st /\
             (confirmationStatus st = Some "processed"%string \/
              confirmationStatus st = Some "confirmed"%string \/
              confirmationStatus st = Some "finalized"%string).
Proof.
  unfold is_processed_or_better, status_is. split.
  - destruct v as [st |]; [| discriminate].
    destruct (confirmationStatus st) as [cs |] eqn:E; [| discriminate].
    intros H. apply orb_true_iff in H. destruct H as [H | H].
    + apply orb_true_iff in H. destruct H as [H | H];
        apply String.eqb_eq in H; subst; eauto.
    + apply String.eqb_eq in H; subst; eauto 6.
  - intros (st & -> & [-> | [-> | ->]]); reflexivity.
Qed.

(** ** The spam loop, pass after pass *)

Lemma calls_missed_pass sendOptions ms sendConnection connection vtx signature :
  calls m_sendTransaction
    (missed_pass sendOptions ms sendConnection connection vtx signature) = 1%nat /\
  calls m_getSignatureStatus
    (missed_pass sendOptions ms sendConnection connection vtx signature) = 5%nat /\
  calls m_getBlockHeight
    (missed_pass sendOptions ms sendConnection connection vtx signature) = 1%nat.
Proof. now cbv. Qed.

Lemma calls_missed_passes sendOptions ms sendConnection connection vtx passes :
  calls m_sendTransaction
    (missed_passes sendOptions ms sendConnection connection vtx passes) = length passes.
Proof.
  induction passes as [| [signature h] rest IH]; [reflexivity|].
  cbn [missed_passes length]. rewrite calls_app, IH.
  now destruct (calls_missed_pass sendOptions ms sendConnection connection vtx signature)
    as (-> & _).
Qed.

Lemma not_finalized_misses (v : option SignatureStatus) :
  not_finalized v -> is_finalized v = false.
Proof.
  intros H. destruct (is_finalized v) eqn:E; [| reflexivity].
  apply is_finalized_spec in E. destruct E as (st & -> & Hst).
  now destruct (H st eq_refl).
Qed.

Lemma not_processed_misses (v : option SignatureStatus) :
  not_processed v -> is_processed_or_better v = false.
Proof.
  intros H. destruct (is_processed_or_better v) eqn:E; [| reflexivity].
  apply is_processed_or_better_spec in E. destruct E as (st & -> & Hst).
  destruct (H st eq_refl) as (H1 & H2 & H3). intuition.
Qed.

(** A pass that ends at or below the last valid height yields the signature
    of its send, and [label] when its sub-poll hit. *)
Lemma spamIteration_alive {St : Type} sendOptions hit label ms sendConnection connection
  vtx lastValid status (w w2 : World St) signature found h :
  rpc_sendTransaction net (calls m_sendTransaction (trace w)) sendConnection vtx sendOptions
    = Resolved signature ->
  pollSignatureStatus net hit ms connection signature 5
    (after w [EvSendTransaction sendConnection vtx sendOptions])
    = (Return found, w2) ->
  rpc_getBlockHeight net (calls m_getBlockHeight (trace w2)) connection None = Resolved h ->
  h <= lastValid ->
  spamIteration net sendOptions hit label ms sendConnection connection vtx lastValid status w
  = (Return (signature, if found then label else status),
     after w2 [EvGetBlockHeight connection None]).
Proof.
  intros Hsend Hpoll Hheight Hle. unfold after in Hpoll.
  unfold spamIteration. cbn [bind ret raise Monad_M Exc_M].
  unfold await at 1. cbn [method_of]. rewrite Hsend. cbn iota beta.
  rewrite Hpoll. unfold await. cbn [method_of]. rewrite Hheight. cbn iota beta.
  replace (h >? lastValid) with false
    by (symmetry; rewrite Z.gtb_ltb; apply Z.ltb_ge; lia).
  reflexivity.
Qed.

(** The status answers and the block height of a pass are counted from the
    world in which the pass starts. *)
Lemma status_answer_after_send {St : Type} (w : World St) sendConnection vtx sendOptions
  connection signature i :
  status_answer net (after w [EvSendTransaction sendConnection vtx sendOptions])
    connection signature i
  = status_answer net w connection signature i.
Proof.
  unfold status_answer, after. cbn [trace]. now rewrite calls_snoc_other by reflexivity.
Qed.

Lemma height_after_poll (tr : list Ev) sendConnection vtx sendOptions connection signature
  ms k last :
  calls m_getBlockHeight last = 0%nat ->
  calls m_getBlockHeight
    ((tr ++ [EvSendTransaction sendConnection vtx sendOptions])
     ++ poll_rounds connection signature ms k ++ last)
  = calls m_getBlockHeight tr.
Proof.
  intros Hlast. rewrite !calls_app.
  destruct (calls_poll_rounds connection signature ms k) as (_ & -> & _).
  rewrite Hlast. unfold calls at 2. cbn. lia.
Qed.

(** A pass whose sub-poll hits at its [j]-th answer, below the last valid
    height: the loop returns the signature, and has not asked for the status
    again. *)
Lemma spamLoop_hit_pass {St : Type} sendOptions hit label ms sendConnection connection vtx
  lastValid status (w : World St) fuel signature j st h :
  rpc_sendTransaction net (calls m_sendTransaction (trace w)) sendConnection vtx sendOptions
    = Resolved signature ->
  (j < 5)%nat ->
  (forall i, (i < j)%nat ->
     exists s, status_answer net w connection signature i = Resolved s /\ hit s = false) ->
  status_answer net w connection signature j = Resolved st ->
  hit st = true ->
  rpc_getBlockHeight net (calls m_getBlockHeight (trace w)) connection None = Resolved h ->
  h <= lastValid ->
  spamLoop net (S fuel) sendOptions hit label ms sendConnection connection vtx lastValid
    status w
  = (Return signature,
     after w (EvSendTransaction sendConnection vtx sendOptions
              :: poll_rounds connection signature ms j
              ++ [status_query connection signature; EvGetBlockHeight connection None])).
Proof.
  intros Hsend Hj Hmiss Hst Hhit Hheight Hle.
  set (w1 := after w [EvSendTransaction sendConnection vtx sendOptions]).
  set (w2 := after w1 (poll_rounds connection signature ms j
                       ++ [status_query connection signature])).
  assert (Hpoll : pollSignatureStatus net hit ms connection signature 5 w1
                  = (Return true, w2)).
  { apply pollSignatureStatus_hit with (st := st); auto.
    - intros i Hi. unfold w1. rewrite status_answer_after_send. now apply Hmiss.
    - unfold w1. now rewrite status_answer_after_send. }
  assert (Hh2 : rpc_getBlockHeight net (calls m_getBlockHeight (trace w2)) connection None
                = Resolved h).
  { unfold w2, w1, after. cbn [trace].
    rewrite height_after_poll by reflexivity. exact Hheight. }
  cbn [spamLoop bind ret Monad_M].
  rewrite (spamIteration_alive sendOptions hit label ms sendConnection connection vtx
             lastValid status w w2 signature true h Hsend Hpoll Hh2 Hle).
  cbn iota beta. rewrite String.eqb_refl.
  unfold w2, w1, after. cbn [this trace ret Monad_M]. f_equal. f_equal.
  repeat rewrite <- app_assoc. reflexivity.
Qed.

(** A pass whose five status answers miss, below the last valid height: the
    loop goes round again, with the same transaction and the same options. *)
Lemma spamLoop_missed_pass {St : Type} sendOptions hit label ms sendConnection connection vtx
  lastValid status (w : World St) fuel signature h :
  status <> label ->
  rpc_sendTransaction net (calls m_sendTransaction (trace w)) sendConnection vtx sendOptions
    = Resolved signature ->
  (forall i, (i < 5)%nat ->
     exists s, status_answer net w connection signature i = Resolved s /\ hit s = false) ->
  rpc_getBlockHeight net (calls m_getBlockHeight (trace w)) connection None = Resolved h ->
  h <= lastValid ->
  spamLoop net (S fuel) sendOptions hit label ms sendConnection connection vtx lastValid
    status w
  = spamLoop net fuel sendOptions hit label ms sendConnection connection vtx lastValid
      status (after w (missed_pass sendOptions ms sendConnection connection vtx signature)).
Proof.
  intros Hne Hsend Hmiss Hheight Hle.
  set (w1 := after w [EvSendTransaction sendConnection vtx sendOptions]).
  set (w2 := after w1 (poll_rounds connection signature ms 5)).
  assert (Hpoll : pollSignatureStatus net hit ms connection signature 5 w1
                  = (Return false, w2)).
  { apply pollSignatureStatus_miss.
    intros i Hi. unfold w1. rewrite status_answer_after_send. now apply Hmiss. }
  assert (Hh2 : rpc_getBlockHeight net (calls m_getBlockHeight (trace w2)) connection None
                = Resolved h).
  { unfold w2, w1, after. cbn [trace].
    rewrite <- (app_nil_r (poll_rounds connection signature ms 5)).
    rewrite height_after_poll by reflexivity. exact Hheight. }
  cbn [spamLoop bind ret Monad_M].
  rewrite (spamIteration_alive sendOptions hit label ms sendConnection connection vtx
             lastValid status w w2 signature false h Hsend Hpoll Hh2 Hle).
  cbn iota beta.
  replace (status =? label)%string with false
    by (symmetry; now apply String.eqb_neq).
  f_equal. unfold w2, w1, after, missed_pass. cbn [this trace]. f_equal.
  repeat rewrite <- app_assoc. reflexivity.
Qed.

Lemma pollSignatureStatus_true {St : Type} hit ms connection signature :
  forall n (w w' : World St),
    pollSignatureStatus net hit ms connection signature n w = (Return true, w') ->
    observed net hit.
Proof.
  induction n as [| n IH]; intros w w'; [discriminate|].
  cbn [pollSignatureStatus bind ret Monad_M]. unfold await at 1.
  destruct (rpc_getSignatureStatus _ _ _ _ _) as [s | e] eqn:E; cbn iota beta;
    [| discriminate].
  destruct (hit s) eqn:Hh.
  - intros _. now exists (calls m_getSignatureStatus (trace w)), connection, signature, s.
  - unfold sleep, await at 1. cbn [bind Monad_M]. apply IH.
Qed.

Lemma spamLoop_returns_on_hit {St : Type} sendOptions hit label ms sendConnection connection
  vtx lastValid :
  forall fuel status (w w' : World St) signature,
    status <> label ->
    spamLoop net fuel sendOptions hit label ms sendConnection connection vtx lastValid
      status w = (Return signature, w') ->
    observed net hit.
Proof.
  induction fuel as [| fuel IH]; intros status w w' signature Hne; [discriminate|].
  cbn [spamLoop bind ret Monad_M]. unfold spamIteration.
  cbn [bind ret raise Monad_M Exc_M]. unfold await at 1.
  destruct (rpc_sendTransaction _ _ _ _ _) as [sg | e]; cbn iota beta; [| discriminate].
  destruct (pollSignatureStatus _ _ _ _ _ _ _) as [[found | e |] w1] eqn:Hpoll;
    try discriminate.
  unfold await. destruct (rpc_getBlockHeight _ _ _ _) as [h | e]; cbn iota beta;
    [| discriminate].
  destruct (h >? lastValid); [discriminate|].
  destruct found.
  - intros _. eapply pollSignatureStatus_true; eassumption.
  - destruct (status =? label)%string eqn:E.
    + apply String.eqb_eq in E. contradiction.
    + now apply IH.
Qed.

Lemma processTransaction_spam_return fuel tx signers opts conn (w w' : World Client) sg :
  spamSendTx (this w) = true ->
  nullish (match opts with Some o => dryRun o | None => None end) false
    || isReadOnly (this w) = false ->
  processTransaction lib net fuel tx signers opts conn w = (Return sg, w') ->
  observed net is_finalized.
Proof.
  intros Hspam Hdry.
  unfold processTransaction, processTransaction_build, processTransaction_send,
    preflightSimulation, toVersioned, signWith, await, lift.
  simpl. rewrite Hspam, Hdry.
  oracle_cases; try discriminate.
  all: match goal with
       | |- context [spamLoop net ?f ?o ?h ?l ?m ?sc ?c ?v ?lv ?s ?w1] =>
           destruct (spamLoop net f o h l m sc c v lv s w1) as [[? | ? |] ?] eqn:Hloop
       end; try discriminate.
  all: intros _; eapply spamLoop_returns_on_hit; [| eassumption]; discriminate.
Qed.

Lemma sendAndConfirmTransaction_spam_return fuel vtx opts conn (w w' : World Client) sg :
  spamSendTx (this w) = true ->
  sendAndConfirmTransaction lib net fuel vtx opts conn w = (Return sg, w') ->
  observed net is_processed_or_better.
Proof.
  intros Hspam.
  unfold sendAndConfirmTransaction, sendAndConfirmTransaction_body,
    preflightSimulation, await, lift.
  simpl. rewrite Hspam.
  oracle_cases; try discriminate.
  all: match goal with
       | |- context [spamLoop net ?f ?o ?h ?l ?m ?sc ?c ?v ?lv ?s ?w1] =>
           destruct (spamLoop net f o h l m sc c v lv s w1) as [[? | ? |] ?] eqn:Hloop
       end; try discriminate.
  all: intros _; eapply spamLoop_returns_on_hit; [| eassumption]; discriminate.
Qed.

(** The two paths in spam mode, from the first send on: the loop runs on the
    transaction the path holds at that point, and the final [catch] rethrows
    what it throws. *)
Lemma processTransaction_enters_spamLoop fuel tx signers opts conn (w w1 w2 : World Client)
  sc b signed :
  spamSendTx (this w) = true ->
  dry_run opts || isReadOnly (this w) = false ->
  new_sendConnection lib (this w) (connection_of (this w) conn) = Resolved sc ->
  processTransaction_build lib net (this w) (connection_of (this w) conn) tx signers w
    = (Return b, w1) ->
  wallet_signTransaction net (calls m_walletSignTransaction (trace w1))
    (b_versionedTransaction b) = Resolved signed ->
  (if skipPreflightInSpam (this w)
   then preflightSimulation lib net (connection_of (this w) conn) signed opts
          (b_minContextSlot b)
   else ret tt) (after w1 [EvWalletSignTransaction (b_versionedTransaction b)])
    = (Return tt, w2) ->
  processTransaction lib net fuel tx signers opts conn w
  = catch (spamLoop net fuel spamSendOptions_process is_finalized "finalized" 200 sc
             (connection_of (this w) conn) signed (b_lastValidBlockHeight b) "pending")
      (fun error => raise (classify lib (this w) error)) w2.
Proof.
  intros Hspam Hdry Hsc Hbuild Hwallet Hpre.
  rewrite processTransaction_catch, Hsc, Hbuild.
  unfold processTransaction_send. rewrite dry_run_test, Hdry, Hspam.
  cbn [bind ret catch raise Monad_M Exc_M]. unfold await at 1. cbn [method_of].
  rewrite Hwallet. cbn iota beta. unfold after in Hpre.
  cbn [ret Monad_M] in Hpre. rewrite Hpre.
  now destruct (spamLoop _ _ _ _ _ _ _ _ _ _ _ w2) as [[a | err |] w3].
Qed.

Lemma sendAndConfirmTransaction_enters_spamLoop fuel vtx opts conn (w w2 : World Client)
  sc bh :
  spamSendTx (this w) = true ->
  new_sendConnection lib (this w) (connection_of (this w) conn) = Resolved sc ->
  rpc_getLatestBlockhashAndContext net (calls m_getLatestBlockhashAndContext (trace w))
    (connection_of (this w) conn) = Resolved bh ->
  (if skipPreflightInSpam (this w)
   then preflightSimulation lib net (connection_of (this w) conn) vtx opts (context_slot bh - 4)
   else ret tt) (after w [EvGetLatestBlockhashAndContext (connection_of (this w) conn)])
    = (Return tt, w2) ->
  sendAndConfirmTransaction lib net fuel vtx opts conn w
  = catch (spamLoop net fuel spamSendOptions_confirm is_processed_or_better "processed" 400
             sc (connection_of (this w) conn) vtx (value_lastValidBlockHeight bh) "pending")
      (fun error => raise (classify lib (this w) error)) w2.
Proof.
  intros Hspam Hsc Hbh Hpre.
  rewrite sendAndConfirmTransaction_catch, Hsc.
  unfold sendAndConfirmTransaction_body.
  cbn [bind ret catch raise Monad_M Exc_M]. unfold await at 1. cbn [method_of].
  rewrite Hbh. cbn iota beta. rewrite Hspam.
  cbn [bind ret catch raise Monad_M Exc_M]. unfold after in Hpre.
  cbn [ret Monad_M] in Hpre. rewrite Hpre.
  now destruct (spamLoop _ _ _ _ _ _ _ _ _ _ _ w2) as [[a | err |] w3].
Qed.

(** C5. In spam mode, once the preamble is through (the send connection, the
    blockhash, for [processTransaction] the build and the wallet, and the
    simulation when [skipPreflightInSpam] is set), each path runs its loop
    under its final [catch]: [processTransaction] on the transaction the
    wallet returned, [sendAndConfirmTransaction] on the transaction it was
    given.  A pass of the loop sends that transaction with [maxRetries: 0]
    and asks for the status of the signature, without transaction history,
    sleeping a fixed time after each answer that does not stop the sub-poll
    (200 ms in [processTransaction], 400 ms in [sendAndConfirmTransaction]).
    The sub-poll of [processTransaction] stops at the first answer whose
    [confirmationStatus] is ["finalized"], the one of
    [sendAndConfirmTransaction] at the first that is ["processed"],
    ["confirmed"] or ["finalized"]: the block height is then asked, and
    below the last valid height the signature is returned.  After five
    answers that do not stop it the sub-poll ends, and below the last valid
    height the loop sends the same transaction again, with the same options.
    Whatever the answers, the calls of the loop are such passes, of at most
    five status queries each, and a path returns only after an answer that
    stops its sub-poll. *)
Theorem C5_spam_iteration_protocol (fuel : nat) (w : World Client) :
  spamSendTx (this w) = true ->
  (forall tx signers opts conn sc b w1 signed w2,
     dry_run opts || isReadOnly (this w) = false ->
     new_sendConnection lib (this w) (connection_of (this w) conn) = Resolved sc ->
     processTransaction_build lib net (this w) (connection_of (this w) conn) tx signers w
       = (Return b, w1) ->
     wallet_signTransaction net (calls m_walletSignTransaction (trace w1))
       (b_versionedTransaction b) = Resolved signed ->
     (if skipPreflightInSpam (this w)
      then preflightSimulation lib net (connection_of (this w) conn) signed opts
             (b_minContextSlot b)
      else ret tt) (after w1 [EvWalletSignTransaction (b_versionedTransaction b)])
       = (Return tt, w2) ->
     processTransaction lib net fuel tx signers opts conn w
     = catch (spamLoop net fuel spamSendOptions_process is_finalized "finalized" 200 sc
                (connection_of (this w) conn) signed (b_lastValidBlockHeight b) "pending")
         (fun error => raise (classify lib (this w) error)) w2) /\
  (forall vtx opts conn sc bh w2,
     new_sendConnection lib (this w) (connection_of (this w) conn) = Resolved sc ->
     rpc_getLatestBlockhashAndContext net (calls m_getLatestBlockhashAndContext (trace w))
       (connection_of (this w) conn) = Resolved bh ->
     (if skipPreflightInSpam (this w)
      then preflightSimulation lib net (connection_of (this w) conn) vtx opts
             (context_slot bh - 4)
      else ret tt) (after w [EvGetLatestBlockhashAndContext (connection_of (this w) conn)])
       = (Return tt, w2) ->
     sendAndConfirmTransaction lib net fuel vtx opts conn w
     = catch (spamLoop net fuel spamSendOptions_confirm is_processed_or_better "processed"
                400 sc (connection_of (this w) conn) vtx (value_lastValidBlockHeight bh)
                "pending")
         (fun error => raise (classify lib (this w) error)) w2) /\
  (forall f sc connection vtx lastValid (u : World Client) signature j st h,
     let sendOptions :=
       {| so_skipPreflight := None; so_preflightCommitment := None;
          so_maxRetries := Some 0; so_minContextSlot := None |} in
     rpc_sendTransaction net (calls m_sendTransaction (trace u)) sc vtx sendOptions
       = Resolved signature ->
     (j < 5)%nat ->
     (forall i, (i < j)%nat ->
        exists s, status_answer net u connection signature i = Resolved s /\
                  not_finalized s) ->
     status_answer net u connection signature j = Resolved (Some st) ->
     confirmationStatus st = Some "finalized"%string ->
     rpc_getBlockHeight net (calls m_getBlockHeight (trace u)) connection None
       = Resolved h ->
     h <= lastValid ->
     spamLoop net (S f) spamSendOptions_process is_finalized "finalized" 200 sc connection
       vtx lastValid "pending" u
     = (Return signature,
        after u (EvSendTransaction sc vtx sendOptions
                 :: poll_rounds connection signature 200 j
                 ++ [status_query connection signature;
                     EvGetBlockHeight connection None]))) /\
  (forall f sc connection vtx lastValid (u : World Client) signature j st h,
     let sendOptions :=
       {| so_skipPreflight := Some true; so_preflightCommitment := None;
          so_maxRetries := Some 0; so_minContextSlot := None |} in
     rpc_sendTransaction net (calls m_sendTransaction (trace u)) sc vtx sendOptions
       = Resolved signature ->
     (j < 5)%nat ->
     (forall i, (i < j)%nat ->
        exists s, status_answer net u connection signature i = Resolved s /\
                  not_processed s) ->
     status_answer net u connection signature j = Resolved (Some st) ->
     confirmationStatus st = Some "processed"%string \/
     confirmationStatus st = Some "confirmed"%string \/
     confirmationStatus st = Some "finalized"%string ->
     rpc_getBlockHeight net (calls m_getBlockHeight (trace u)) connection None
       = Resolved h ->
     h <= lastValid ->
     spamLoop net (S f) spamSendOptions_confirm is_processed_or_better "processed" 400 sc
       connection vtx lastValid "pending" u
     = (Return signature,
        after u (EvSendTransaction sc vtx sendOptions
                 :: poll_rounds connection signature 400 j
                 ++ [status_query connection signature;
                     EvGetBlockHeight connection None]))) /\
  (forall f sc connection vtx lastValid (u : World Client) signature h,
     let sendOptions :=
       {| so_skipPreflight := None; so_preflightCommitment := None;
          so_maxRetries := Some 0; so_minContextSlot := None |} in
     rpc_sendTransaction net (calls m_sendTransaction (trace u)) sc vtx sendOptions
       = Resolved signature ->
     (forall i, (i < 5)%nat ->
        exists s, status_answer net u connection signature i = Resolved s /\
                  not_finalized s) ->
     rpc_getBlockHeight net (calls m_getBlockHeight (trace u)) connection None
       = Resolved h ->
     h <= lastValid ->
     spamLoop net (S f) spamSendOptions_process is_finalized "finalized" 200 sc connection
       vtx lastValid "pending" u
     = spamLoop net f spamSendOptions_process is_finalized "finalized" 200 sc connection
         vtx lastValid "pending"
         (after u (EvSendTransaction sc vtx sendOptions
                   :: poll_rounds connection signature 200 5
                   ++ [EvGetBlockHeight connection None]))) /\
  (forall f sc connection vtx lastValid (u : World Client) signature h,
     let sendOptions :=
       {| so_skipPreflight := Some true; so_preflightCommitment := None;
          so_maxRetries := Some 0; so_minContextSlot := None |} in
     rpc_sendTransaction net (calls m_sendTransaction (trace u)) sc vtx sendOptions
       = Resolved signature ->
     (forall i, (i < 5)%nat ->
        exists s, status_answer net u connection signature i = Resolved s /\
                  not_processed s) ->
     rpc_getBlockHeight net (calls m_getBlockHeight (trace u)) connection None
       = Resolved h ->
     h <= lastValid ->
     spamLoop net (S f) spamSendOptions_confirm is_processed_or_better "processed" 400 sc
       connection vtx lastValid "pending" u
     = spamLoop net f spamSendOptions_confirm is_processed_or_better "processed" 400 sc
         connection vtx lastValid "pending"
         (after u (EvSendTransaction sc vtx sendOptions
                   :: poll_rounds connection signature 400 5
                   ++ [EvGetBlockHeight connection None]))) /\
  (forall tx signers opts conn,
     exists evs,
       trace (snd (processTransaction lib net fuel tx signers opts conn w)) = trace w ++ evs /\
       spam_trace spamSendOptions_process 200
         (sendConnection_of (this w) (connection_of (this w) conn))
         (connection_of (this w) conn) evs) /\
  (forall vtx opts conn,
     exists evs,
       trace (snd (sendAndConfirmTransaction lib net fuel vtx opts conn w)) = trace w ++ evs /\
       spam_trace spamSendOptions_confirm 400
         (sendConnection_of (this w) (connection_of (this w) conn))
         (connection_of (this w) conn) evs) /\
  (forall tx signers opts conn sg w',
     dry_run opts || isReadOnly (this w) = false ->
     processTransaction lib net fuel tx signers opts conn w = (Return sg, w') ->
     exists k connection signature st,
       rpc_getSignatureStatus net k connection signature
         (Some {| searchTransactionHistory := false |}) = Resolved (Some st) /\
       confirmationStatus st = Some "finalized"%string) /\
  (forall vtx opts conn sg w',
     sendAndConfirmTransaction lib net fuel vtx opts conn w = (Return sg, w') ->
     exists k connection signature st,
       rpc_getSignatureStatus net k connection signature
         (Some {| searchTransactionHistory := false |}) = Resolved (Some st) /\
       (confirmationStatus st = Some "processed"%string \/
        confirmationStatus st = Some "confirmed"%string \/
        confirmationStatus st = Some "finalized"%string)).
Proof.
  intros Hspam. repeat apply conj.
  - intros. now apply processTransaction_enters_spamLoop with (w1 := w1) (b := b).
  - intros. now apply sendAndConfirmTransaction_enters_spamLoop.
  - intros f sc connection vtx lastValid u signature j st h sendOptions
      Hsend Hj Hmiss Hst Hfin Hheight Hle.
    apply spamLoop_hit_pass with (st := Some st) (h := h); auto.
    + intros i Hi. destruct (Hmiss i Hi) as (s & Hs & Hn).
      exists s. split; [exact Hs | now apply not_finalized_misses].
    + apply is_finalized_spec. eauto.
  - intros f sc connection vtx lastValid u signature j st h sendOptions
      Hsend Hj Hmiss Hst Hfin Hheight Hle.
    apply spamLoop_hit_pass with (st := Some st) (h := h); auto.
    + intros i Hi. destruct (Hmiss i Hi) as (s & Hs & Hn).
      exists s. split; [exact Hs | now apply not_processed_misses].
    + apply is_processed_or_better_spec. eauto.
  - intros f sc connection vtx lastValid u signature h sendOptions Hsend Hmiss Hheight Hle.
    apply spamLoop_missed_pass with (h := h); auto.
    + discriminate.
    + intros i Hi. destruct (Hmiss i Hi) as (s & Hs & Hn).
      exists s. split; [exact Hs | now apply not_finalized_misses].
  - intros f sc connection vtx lastValid u signature h sendOptions Hsend Hmiss Hheight Hle.
    apply spamLoop_missed_pass with (h := h); auto.
    + discriminate.
    + intros i Hi. destruct (Hmiss i Hi) as (s & Hs & Hn).
      exists s. split; [exact Hs | now apply not_processed_misses].
  - intros. now apply processTransaction_spam_trace.
  - intros. now apply sendAndConfirmTransaction_spam_trace.
  - intros tx signers opts conn sg w' Hdry Hrun. rewrite <- dry_run_test in Hdry.
    destruct (processTransaction_spam_return _ _ _ _ _ _ _ _ Hspam Hdry Hrun)
      as (k & c & s & v & Hans & Hhit).
    apply is_finalized_spec in Hhit. destruct Hhit as (st & -> & Hst). eauto 6.
  - intros vtx opts conn sg w' Hrun.
    destruct (sendAndConfirmTransaction_spam_return _ _ _ _ _ _ _ Hspam Hrun)
      as (k & c & s & v & Hans & Hhit).
    apply is_processed_or_better_spec in Hhit. destruct Hhit as (st & -> & Hst). eauto 6.
Qed.

(** ** Expiry *)

(** A pass whose block height answer exceeds [lastValidBlockHeight] throws
    the timeout, whatever the sub-poll found. *)
Lemma spamIteration_expired {St : Type} sendOptions hit label ms sendConnection connection
  vtx lastValid status (w w2 : World St) signature found h :
  rpc_sendTransaction net (calls m_sendTransaction (trace w)) sendConnection vtx sendOptions
    = Resolved signature ->
  pollSignatureStatus net hit ms connection signature 5
    {| this := this w;
       trace := trace w ++ [EvSendTransaction sendConnection vtx sendOptions] |}
    = (Return found, w2) ->
  rpc_getBlockHeight net (calls m_getBlockHeight (trace w2)) connection None = Resolved h ->
  h > lastValid ->
  spamIteration net sendOptions hit label ms sendConnection connection vtx lastValid status w
  = (Throw (ProcessTransactionError timeout_message TimeoutError None),
     {| this := this w2; trace := trace w2 ++ [EvGetBlockHeight connection None] |}).
Proof.
  intros Hsend Hpoll Hheight Hgt.
  unfold spamIteration. cbn [bind ret raise Monad_M Exc_M].
  unfold await at 1. cbn [method_of]. rewrite Hsend. cbn iota beta.
  rewrite Hpoll. unfold await. cbn [method_of]. rewrite Hheight. cbn iota beta.
  replace (h >? lastValid) with true by (symmetry; apply Z.gtb_lt; lia).
  reflexivity.
Qed.

Lemma spamLoop_expired {St : Type} sendOptions hit label ms sendConnection connection
  vtx lastValid status (w w' : World St) fuel :
  spamIteration net sendOptions hit label ms sendConnection connection vtx lastValid status w
  = (Throw (ProcessTransactionError timeout_message TimeoutError None), w') ->
  spamLoop net (S fuel) sendOptions hit label ms sendConnection connection vtx lastValid
    status w
  = (Throw (ProcessTransactionError timeout_message TimeoutError None), w').
Proof. intros H. cbn [spamLoop bind Monad_M]. now rewrite H. Qed.

(** C6. In a pass of the spam loop the status sub-poll comes before the
    block height query, and the block height is still asked and tested when
    the sub-poll has just seen the confirmation: if the [j]-th answer of the
    sub-poll ([j < 5]) is the first that hits and the block height then
    answered exceeds [lastValidBlockHeight], the pass throws the
    [TimeoutError] and the loop ends there, without returning the signature.
    The trace of the pass is the send, [j] missed rounds, the query that hit,
    and then the block height query. *)
Theorem C6_expiry_checked_after_status {St : Type} sendOptions hit label ms
  sendConnection connection vtx lastValid status (w : World St) signature j st h fuel :
  rpc_sendTransaction net (calls m_sendTransaction (trace w)) sendConnection vtx sendOptions
    = Resolved signature ->
  (j < 5)%nat ->
  (forall i, (i < j)%nat ->
     exists s, status_answer net w connection signature i = Resolved s /\ hit s = false) ->
  status_answer net w connection signature j = Resolved st ->
  hit st = true ->
  rpc_getBlockHeight net (calls m_getBlockHeight (trace w)) connection None = Resolved h ->
  h > lastValid ->
  let final :=
    {| this := this w;
       trace := trace w ++
                EvSendTransaction sendConnection vtx sendOptions
                :: poll_rounds connection signature ms j
                ++ [status_query connection signature; EvGetBlockHeight connection None] |} in
  spamIteration net sendOptions hit label ms sendConnection connection vtx lastValid status w
    = (Throw (ProcessTransactionError timeout_message TimeoutError None), final) /\
  spamLoop net (S fuel) sendOptions hit label ms sendConnection connection vtx lastValid
    status w
    = (Throw (ProcessTransactionError timeout_message TimeoutError None), final).
Proof.
  intros Hsend Hj Hmiss Hst Hhit Hheight Hgt final.
  set (w1 := {| this := this w;
                trace := trace w ++ [EvSendTransaction sendConnection vtx sendOptions] |}).
  assert (Hsame : forall i, status_answer net w1 connection signature i
                            = status_answer net w connection signature i).
  { intros i. unfold status_answer, w1. cbn [trace].
    now rewrite calls_snoc_other by reflexivity. }
  set (w2 := {| this := this w1;
                trace := trace w1 ++ poll_rounds connection signature ms j
                         ++ [status_query connection signature] |}).
  assert (Hpoll : pollSignatureStatus net hit ms connection signature 5 w1
                  = (Return true, w2)).
  { apply pollSignatureStatus_hit with (st := st); auto.
    - intros i Hi. rewrite Hsame. now apply Hmiss.
    - now rewrite Hsame. }
  assert (Hh2 : rpc_getBlockHeight net (calls m_getBlockHeight (trace w2)) connection None
                = Resolved h).
  { unfold w2, w1. cbn [trace]. rewrite !calls_app.
    destruct (calls_poll_rounds connection signature ms j) as (_ & Hz & _).
    rewrite Hz. unfold calls at 2 3. cbn. rewrite !Nat.add_0_r. exact Hheight. }
  assert (Hit := spamIteration_expired sendOptions hit label ms sendConnection connection
                   vtx lastValid status w w2 signature true h Hsend Hpoll Hh2 Hgt).
  assert (Hfinal : {| this := this w2;
                      trace := trace w2 ++ [EvGetBlockHeight connection None] |} = final).
  { unfold final, w2, w1. cbn [this trace]. f_equal.
    repeat rewrite <- app_assoc. reflexivity. }
  rewrite Hfinal in Hit.
  split; [exact Hit | now apply spamLoop_expired].
Qed.

(** Passes that never see the confirmation, all but the last below or at the
    last valid height: the loop sends once per pass and throws the timeout at
    the end of the last. *)
Lemma spamLoop_never_confirmed {St : Type} sendOptions hit label ms sendConnection
  connection vtx lastValid status :
  status <> label ->
  forall passes fuel (w : World St) signature h,
    never_confirmed net hit sendOptions sendConnection connection vtx
      (calls m_sendTransaction (trace w)) (calls m_getSignatureStatus (trace w))
      (calls m_getBlockHeight (trace w)) (passes ++ [(signature, h)]) ->
    Forall (fun pass => snd pass <= lastValid) passes ->
    h > lastValid ->
    (length passes < fuel)%nat ->
    spamLoop net fuel sendOptions hit label ms sendConnection connection vtx lastValid
      status w
    = (Throw (ProcessTransactionError timeout_message TimeoutError None),
       after w (missed_passes sendOptions ms sendConnection connection vtx
                  (passes ++ [(signature, h)]))).
Proof.
  intros Hne. induction passes as [| [sg0 h0] rest IH];
    intros fuel w signature h Hnet Hbelow Hgt Hfuel;
    (destruct fuel as [| fuel]; [cbn [length] in Hfuel; lia|]).
  - cbn [app never_confirmed] in Hnet. destruct Hnet as (Hsend & Hmiss & Hheight & _).
    set (w1 := after w [EvSendTransaction sendConnection vtx sendOptions]).
    set (w2 := after w1 (poll_rounds connection signature ms 5)).
    assert (Hpoll : pollSignatureStatus net hit ms connection signature 5 w1
                    = (Return false, w2)).
    { apply pollSignatureStatus_miss.
      intros i Hi. unfold w1. rewrite status_answer_after_send. now apply Hmiss. }
    assert (Hh2 : rpc_getBlockHeight net (calls m_getBlockHeight (trace w2)) connection None
                  = Resolved h).
    { unfold w2, w1, after. cbn [trace].
      rewrite <- (app_nil_r (poll_rounds connection signature ms 5)).
      rewrite height_after_poll by reflexivity. exact Hheight. }
    rewrite (spamLoop_expired sendOptions hit label ms sendConnection connection vtx
               lastValid status w _ fuel
               (spamIteration_expired sendOptions hit label ms sendConnection connection
                  vtx lastValid status w w2 signature false h Hsend Hpoll Hh2 Hgt)).
    f_equal. unfold w2, w1, after, missed_pass. cbn [this trace app missed_passes].
    f_equal. unfold missed_pass. rewrite app_nil_r.
    repeat rewrite <- app_assoc. reflexivity.
  - cbn [app never_confirmed] in Hnet.
    destruct Hnet as (Hsend & Hmiss & Hheight & Hrest).
    inversion Hbelow as [| ? ? Hh0 Hbelow']; subst. cbn [snd] in Hh0.
    rewrite (spamLoop_missed_pass sendOptions hit label ms sendConnection connection vtx
               lastValid status w fuel sg0 h0 Hne Hsend Hmiss Hheight Hh0).
    rewrite (IH fuel _ signature h).
    + unfold after. cbn [this trace app missed_passes]. f_equal. f_equal.
      now rewrite <- app_assoc.
    + unfold after. cbn [trace]. rewrite !calls_app.
      destruct (calls_missed_pass sendOptions ms sendConnection connection vtx sg0)
        as (-> & -> & ->).
      replace (calls m_sendTransaction (trace w) + 1)%nat
        with (S (calls m_sendTransaction (trace w))) by lia.
      replace (calls m_getBlockHeight (trace w) + 1)%nat
        with (S (calls m_getBlockHeight (trace w))) by lia.
      exact Hrest.
    + exact Hbelow'.
    + exact Hgt.
    + cbn [length] in Hfuel. lia.
Qed.

(** C2. The send/poll loop of spam mode, in both paths (the statement holds
    for the send options, the stop test and the sleep of either).  A pass
    whose send is accepted and whose sub-poll ends, whatever it found, and
    which then reads a block height above [lastValidBlockHeight], throws the
    [ProcessTransactionError] of kind [TimeoutError]; the loop ends with that
    error, and the read of the block height is its last call.  When no
    confirmation is ever observed, passes that read a height at or below
    [lastValidBlockHeight] are followed by another pass, and the first pass
    that reads a height above it ends the loop with the [TimeoutError]: with
    [n] passes before it, the transaction has been sent [n + 1] times, and
    the loop ends whatever the fuel above [n]. *)
Theorem C2_spam_loop_times_out_past_last_valid_height {St : Type} sendOptions hit label ms
  sendConnection connection vtx lastValid status :
  (forall fuel (w w2 : World St) signature found h,
     rpc_sendTransaction net (calls m_sendTransaction (trace w)) sendConnection vtx
       sendOptions = Resolved signature ->
     pollSignatureStatus net hit ms connection signature 5
       (after w [EvSendTransaction sendConnection vtx sendOptions]) = (Return found, w2) ->
     rpc_getBlockHeight net (calls m_getBlockHeight (trace w2)) connection None
       = Resolved h ->
     h > lastValid ->
     spamLoop net (S fuel) sendOptions hit label ms sendConnection connection vtx lastValid
       status w
     = (Throw (ProcessTransactionError timeout_message TimeoutError None),
        after w2 [EvGetBlockHeight connection None])) /\
  (forall fuel (w : World St) passes signature h,
     status <> label ->
     never_confirmed net hit sendOptions sendConnection connection vtx
       (calls m_sendTransaction (trace w)) (calls m_getSignatureStatus (trace w))
       (calls m_getBlockHeight (trace w)) (passes ++ [(signature, h)]) ->
     Forall (fun pass => snd pass <= lastValid) passes ->
     h > lastValid ->
     (length passes < fuel)%nat ->
     spamLoop net fuel sendOptions hit label ms sendConnection connection vtx lastValid
       status w
     = (Throw (ProcessTransactionError timeout_message TimeoutError None),
        after w (missed_passes sendOptions ms sendConnection connection vtx
                   (passes ++ [(signature, h)]))) /\
     calls m_sendTransaction
       (missed_passes sendOptions ms sendConnection connection vtx
          (passes ++ [(signature, h)])) = S (length passes)).
Proof.
  split.
  - intros fuel w w2 signature found h Hsend Hpoll Hheight Hgt.
    apply spamLoop_expired.
    now apply spamIteration_expired with (signature := signature) (found := found) (h := h).
  - intros fuel w passes signature h Hne Hnet Hbelow Hgt Hfuel. split.
    + now apply spamLoop_never_confirmed.
    + rewrite calls_missed_passes, length_app. cbn [length]. lia.
Qed.

(** ** The relay loop *)

Lemma unconfirmed_pass_shift s i h :
  unconfirmed_pass net (shift s) i h <-> unconfirmed_pass net s (S i) h.
Proof.
  unfold unconfirmed_pass, shift. cbn.
  replace (S (js_sends s + i)) with (js_sends s + S i)%nat by lia.
  replace (S (js_queries s + i)) with (js_queries s + S i)%nat by lia.
  replace (S (js_heights s + i)) with (js_heights s + S i)%nat by lia.
  reflexivity.
Qed.

Lemma confirming_pass_shift s i :
  confirming_pass net (shift s) i <-> confirming_pass net s (S i).
Proof.
  unfold confirming_pass, shift. cbn.
  replace (S (js_sends s + i)) with (js_sends s + S i)%nat by lia.
  replace (S (js_queries s + i)) with (js_queries s + S i)%nat by lia.
  replace (S (js_heights s + i)) with (js_heights s + S i)%nat by lia.
  reflexivity.
Qed.

Lemma script_after_round {St : Type} (w : World St) connection rawTx txSig :
  script_at {| this := this w; trace := trace w ++ jito_round connection rawTx txSig |}
    connection rawTx txSig
  = shift (script_at w connection rawTx txSig).
Proof.
  unfold script_at, shift. cbn [trace js_connection js_rawTx js_txSig js_sends js_queries
                                  js_heights].
  rewrite !calls_app. unfold calls at 2 4 6. cbn. f_equal; lia.
Qed.

(** One pass that does not confirm: the loop goes on from the height read. *)
Lemma jitoLoop_step {St : Type} fuel connection rawTx txSig lastValid h0 h (w : World St) :
  h0 < lastValid ->
  unconfirmed_pass net (script_at w connection rawTx txSig) 0 h ->
  jitoLoop net (S fuel) connection rawTx txSig lastValid h0 w
  = jitoLoop net fuel connection rawTx txSig lastValid h
      {| this := this w; trace := trace w ++ jito_round connection rawTx txSig |}.
Proof.
  intros Hlt ((sg & Hs) & (st & Hq & Hmiss) & Hh).
  unfold script_at in *. cbn [js_connection js_rawTx js_txSig js_sends js_queries
                                js_heights] in *.
  rewrite Nat.add_0_r in *.
  cbn [jitoLoop]. replace (h0 <? lastValid) with true by (symmetry; apply Z.ltb_lt; lia).
  cbn [bind ret Monad_M]. unfold await at 1. cbn [method_of]. rewrite Hs. cbn iota beta.
  unfold await at 1. cbn [method_of trace].
  rewrite calls_snoc_other by reflexivity. rewrite Hq. cbn iota beta.
  unfold await at 1. cbn [method_of trace].
  rewrite !calls_snoc_other by reflexivity. rewrite Hh. cbn iota beta.
  rewrite Hmiss. unfold sleep, await at 1. cbn [this trace bind Monad_M].
  f_equal. f_equal. unfold jito_round. repeat rewrite <- app_assoc. reflexivity.
Qed.

(** [n] passes that do not confirm, below the last valid height, and then a
    height that has reached it: the loop throws the not-confirmed error. *)
Lemma jitoLoop_not_confirmed {St : Type} connection rawTx txSig lastValid :
  forall n fuel (heights : nat -> Z) (w : World St),
    (n <= fuel)%nat ->
    (forall i, (i < n)%nat ->
       heights i < lastValid /\
       unconfirmed_pass net (script_at w connection rawTx txSig) i (heights (S i))) ->
    heights n >= lastValid ->
    jitoLoop net fuel connection rawTx txSig lastValid (heights 0%nat) w
    = (Throw (Error (not_confirmed_message txSig)),
       {| this := this w; trace := trace w ++ jito_rounds connection rawTx txSig n |}).
Proof.
  induction n as [| n IH]; intros fuel heights w Hfuel Hpass Hend.
  - assert (Hb : (heights 0%nat <? lastValid) = false) by (apply Z.ltb_ge; lia).
    destruct fuel; cbn [jitoLoop]; rewrite Hb; cbn; rewrite app_nil_r; now destruct w.
  - destruct fuel as [| fuel]; [lia|].
    destruct (Hpass 0%nat ltac:(lia)) as [Hlt H0].
    rewrite (jitoLoop_step fuel connection rawTx txSig lastValid _ _ w Hlt H0).
    rewrite (IH fuel (fun i => heights (S i))).
    + cbn [this trace jito_rounds]. f_equal. f_equal. now rewrite app_assoc.
    + lia.
    + intros i Hi. destruct (Hpass (S i) ltac:(lia)) as [Hlt' Hp]. split; [exact Hlt'|].
      rewrite script_after_round. now apply unconfirmed_pass_shift.
    + exact Hend.
Qed.

(** [n] passes that do not confirm and then one that does: the loop returns
    the relay's signature after [n + 1] resends. *)
Lemma jitoLoop_confirmed {St : Type} connection rawTx txSig lastValid :
  forall n fuel (heights : nat -> Z) (w : World St),
    (n < fuel)%nat ->
    (forall i, (i < n)%nat ->
       heights i < lastValid /\
       unconfirmed_pass net (script_at w connection rawTx txSig) i (heights (S i))) ->
    heights n < lastValid ->
    confirming_pass net (script_at w connection rawTx txSig) n ->
    jitoLoop net fuel connection rawTx txSig lastValid (heights 0%nat) w
    = (Return txSig,
       {| this := this w;
          trace := trace w ++ jito_rounds connection rawTx txSig n
                   ++ [EvSendRawTransaction connection rawTx (jitoSendOptions connection);
                       EvGetSignatureStatus connection txSig None;
                       EvGetBlockHeight connection (commitment connection)] |}).
Proof.
  induction n as [| n IH]; intros fuel heights w Hfuel Hpass Hlt Hconf.
  - destruct fuel as [| fuel]; [lia|].
    destruct Hconf as ((sg & Hs) & (st & Hq & Hhit) & (h & Hh)).
    unfold script_at in *. cbn [js_connection js_rawTx js_txSig js_sends js_queries
                                  js_heights] in *.
    rewrite Nat.add_0_r in *.
    cbn [jitoLoop].
    replace (heights 0%nat <? lastValid) with true by (symmetry; apply Z.ltb_lt; lia).
    cbn [bind ret Monad_M]. unfold await at 1. cbn [method_of]. rewrite Hs. cbn iota beta.
    unfold await at 1. cbn [method_of trace].
    rewrite calls_snoc_other by reflexivity. rewrite Hq. cbn iota beta.
    unfold await at 1. cbn [method_of trace].
    rewrite !calls_snoc_other by reflexivity. rewrite Hh. cbn iota beta.
    rewrite Hhit. cbn [jito_rounds this trace]. f_equal. f_equal.
    repeat rewrite <- app_assoc. reflexivity.
  - destruct fuel as [| fuel]; [lia|].
    destruct (Hpass 0%nat ltac:(lia)) as [Hlt0 H0].
    rewrite (jitoLoop_step fuel connection rawTx txSig lastValid _ _ w Hlt0 H0).
    rewrite (IH fuel (fun i => heights (S i))).
    + cbn [this trace jito_rounds]. f_equal. f_equal. now rewrite !app_assoc.
    + lia.
    + intros i Hi. destruct (Hpass (S i) ltac:(lia)) as [Hlt' Hp]. split; [exact Hlt'|].
      rewrite script_after_round. now apply unconfirmed_pass_shift.
    + exact Hlt.
    + rewrite script_after_round. now apply confirming_pass_shift.
Qed.


(** ** The minimum context slot *)

Lemma simulate_config_slot (opts : option TransactionOptions) (slot : Z) :
  sim_minContextSlot (simulate_config opts (slot - 4)) = passed_minContextSlot opts slot.
Proof. destruct opts; reflexivity. Qed.

Ltac open_spamLoop_emits P :=
  try match goal with
      | |- context [spamLoop net ?f ?o ?h ?l ?m ?sc ?c ?v ?lv ?s ?w1] =>
          let evs := fresh "evs" in
          let Htr := fresh "Htr" in
          let HF := fresh "HF" in
          destruct (spamLoop_emits (St := Client) P f o h l m sc c v lv s) with (w := w1)
            as (_ & evs & Htr & HF); [exact eq_refl | intros; exact I | exact I | exact I |];
          destruct (spamLoop net f o h l m sc c v lv s w1) as [[? | ? |] ?];
          cbn [snd trace] in Htr; simpl; rewrite Htr
      end.

Ltac close_forall :=
  simpl; repeat rewrite <- app_assoc; simpl;
  first [ eexists; split; [reflexivity|]
        | exists []; split; [now rewrite app_nil_r|] ];
  repeat (apply Forall_cons; [simpl; auto using simulate_config_slot |]);
  first [ apply Forall_nil | assumption ].

Lemma processTransaction_slot fuel tx signers opts conn (w : World Client) bh :
  rpc_getLatestBlockhashAndContext net (calls m_getLatestBlockhashAndContext (trace w))
    (connection_of (this w) conn) = Resolved bh ->
  exists evs,
    trace (snd (processTransaction lib net fuel tx signers opts conn w)) = trace w ++ evs /\
    Forall (slot_use (passed_minContextSlot opts (context_slot bh))) evs.
Proof.
  intros Hbh.
  unfold processTransaction. cbn [bind ret catch raise Monad_M Exc_M get_this].
  destruct (new_sendConnection lib (this w) (connection_of (this w) conn)) as [sc | e];
    cbn [lift bind ret catch raise Monad_M Exc_M]; [| close_forall].
  unfold processTransaction_build, processTransaction_send,
    preflightSimulation, toVersioned, signWith.
  cbn [bind ret catch raise Monad_M Exc_M get_this]. unfold await at 1.
  cbn [method_of]. rewrite Hbh. cbn iota beta.
  unfold await, lift. simpl.
  oracle_cases;
    open_spamLoop_emits (slot_use (passed_minContextSlot opts (context_slot bh)));
    subst; close_forall.
Qed.

Lemma sendAndConfirmTransaction_slot fuel vtx opts conn (w : World Client) bh :
  rpc_getLatestBlockhashAndContext net (calls m_getLatestBlockhashAndContext (trace w))
    (connection_of (this w) conn) = Resolved bh ->
  exists evs,
    trace (snd (sendAndConfirmTransaction lib net fuel vtx opts conn w)) = trace w ++ evs /\
    Forall (slot_use (passed_minContextSlot opts (context_slot bh))) evs.
Proof.
  intros Hbh.
  unfold sendAndConfirmTransaction. cbn [bind ret catch raise Monad_M Exc_M get_this].
  destruct (new_sendConnection lib (this w) (connection_of (this w) conn)) as [sc | e];
    cbn [lift bind ret catch raise Monad_M Exc_M]; [| close_forall].
  unfold sendAndConfirmTransaction_body, preflightSimulation.
  cbn [bind ret catch raise Monad_M Exc_M get_this]. unfold await at 1.
  cbn [method_of]. rewrite Hbh. cbn iota beta.
  unfold await, lift. simpl.
  oracle_cases;
    open_spamLoop_emits (slot_use (passed_minContextSlot opts (context_slot bh)));
    subst; close_forall.
Qed.

Lemma signTranscationJito_slot tip tx luts fee (w : World Client) bh :
  rpc_getLatestBlockhashAndContext net (calls m_getLatestBlockhashAndContext (trace w))
    (provider_connection (provider (this w))) = Resolved bh ->
  exists evs,
    trace (snd (signTranscationJito lib net tip tx luts fee w)) = trace w ++ evs /\
    Forall (slot_use (Some (context_slot bh - 4))) evs.
Proof.
  intros Hbh.
  unfold signTranscationJito.
  cbn [bind ret catch raise Monad_M Exc_M get_this].
  destruct (PrimFloat.eqb tip PrimFloat.zero); [simpl; close_forall|].
  destruct (jitoInstructions lib (this w) tip tx fee) as [instrs | e];
    cbn [lift bind ret catch raise Monad_M Exc_M]; [| close_forall].
  unfold await at 1.
  cbn [method_of]. rewrite Hbh. cbn iota beta.
  unfold await, lift. simpl.
  oracle_cases; close_forall.
Qed.

(** C7. Each of [processTransaction], [sendAndConfirmTransaction] and
    [signTranscationJito] computes its minimum context slot as the slot of
    the blockhash fetch minus 4.  [signTranscationJito] gives it to its
    simulation.  The other two give it to their simulation when the caller
    passed no options; options passed by the caller are handed to the
    simulation as they are, so the simulation then gets the caller's
    [minContextSlot], if any.  No send is given a minimum context slot. *)
Theorem C7_minContextSlot_is_slot_minus_4 (fuel : nat) (w : World Client)
  (conn : option Connection) (bh bh' : BlockhashWithContext) :
  rpc_getLatestBlockhashAndContext net (calls m_getLatestBlockhashAndContext (trace w))
    (connection_of (this w) conn) = Resolved bh ->
  rpc_getLatestBlockhashAndContext net (calls m_getLatestBlockhashAndContext (trace w))
    (provider_connection (provider (this w))) = Resolved bh' ->
  (forall tx signers opts,
     exists evs,
       trace (snd (processTransaction lib net fuel tx signers opts conn w)) = trace w ++ evs /\
       Forall (slot_use (match opts with
                         | None => Some (context_slot bh - 4)
                         | Some o => co_minContextSlot (to_confirm o)
                         end)) evs) /\
  (forall vtx opts,
     exists evs,
       trace (snd (sendAndConfirmTransaction lib net fuel vtx opts conn w)) = trace w ++ evs /\
       Forall (slot_use (match opts with
                         | None => Some (context_slot bh - 4)
                         | Some o => co_minContextSlot (to_confirm o)
                         end)) evs) /\
  (forall tip tx luts fee,
     exists evs,
       trace (snd (signTranscationJito lib net tip tx luts fee w)) = trace w ++ evs /\
       Forall (slot_use (Some (context_slot bh' - 4))) evs).
Proof.
  intros Hbh Hbh'. repeat split.
  - intros tx signers opts.
    destruct (processTransaction_slot fuel tx signers opts conn w bh Hbh) as (evs & H1 & H2).
    exists evs. split; [exact H1|]. destruct opts; exact H2.
  - intros vtx opts.
    destruct (sendAndConfirmTransaction_slot fuel vtx opts conn w bh Hbh) as (evs & H1 & H2).
    exists evs. split; [exact H1|]. destruct opts; exact H2.
  - intros. now apply signTranscationJito_slot.
Qed.

(** ** The size limits *)


(** ** The simulation path *)

(** C4, as the code has it.  When the simulation completes,
    [simulateTransaction] throws if the response reports an error: the
    thrown value is an [Error] whose message is the text of the error that
    carried the JSON of [err].  Only when [err] is absent does it return, and
    what it returns is the data of the requested accounts alone ([null] for
    an account that is missing, the empty list when [accounts] is absent). *)
Theorem C4_simulateTransaction_throws_on_program_failure (w : World Client)
  (transaction : Transaction + VersionedTransaction) (accountsToInspect : list PublicKey)
  (bh : BlockhashWithContext) (vtx : VersionedTransaction)
  (response : SimulatedTransactionResponse) :
  let connection :=
    new_Connection (rpcEndpoint (provider_connection (provider (this w))))
      (provider_opts (provider (this w))) in
  let cfg :=
    {| sim_commitment := None; sim_sigVerify := Some false; sim_minContextSlot := None;
       sim_accounts := Some ("base64"%string, accountsToInspect) |} in
  let final :=
    {| this := this w;
       trace := trace w ++ [EvGetLatestBlockhashAndContext connection;
                            EvSimulateTransaction connection vtx cfg] |} in
  rpc_getLatestBlockhashAndContext net (calls m_getLatestBlockhashAndContext (trace w))
    connection = Resolved bh ->
  built_from lib (this w) transaction (value_blockhash bh) = Resolved vtx ->
  rpc_simulateTransaction net (calls m_simulateTransaction (trace w)) connection vtx cfg
    = Resolved response ->
  (forall err,
     sr_err response = Some err -> err_truthy (Some err) = true ->
     simulateTransaction lib net transaction accountsToInspect w
     = (Throw (Error (if (JSON_stringify lib err =? "")%string then "Error"%string
                      else ("Error: " ++ JSON_stringify lib err)%string)), final)) /\
  (err_truthy (sr_err response) = false ->
   simulateTransaction lib net transaction accountsToInspect w
   = (Return (match sr_accounts response with
              | Some accounts =>
                  map (fun a => match a with
                                | Some a => Some (Buffer_from_base64 lib (fst (acc_data a)))
                                | None => None
                                end) accounts
              | None => []
              end), final)).
Proof.
  intros connection cfg final Hbh Hbuilt Hsim.
  assert (Hrun : simulateTransaction lib net transaction accountsToInspect w
                 = if err_truthy (sr_err response)
                   then (Throw (Error (error_toString
                                  (Error (match sr_err response with
                                          | Some e => JSON_stringify lib e
                                          | None => ""%string
                                          end)))), final)
                   else (Return (match sr_accounts response with
                                 | Some accounts =>
                                     map (fun a =>
                                            match a with
                                            | Some a =>
                                                Some (Buffer_from_base64 lib
                                                        (fst (acc_data a)))
                                            | None => None
                                            end) accounts
                                 | None => []
                                 end), final)).
  { unfold simulateTransaction. cbn [bind ret catch raise Monad_M Exc_M get_this].
    fold connection. unfold await at 1. cbn [method_of]. rewrite Hbh. cbn iota beta.
    unfold toVersioned. unfold built_from in Hbuilt.
    destruct transaction as [tx | v].
    - destruct (compileToV0Message lib _ _) as [m | e]; [| discriminate].
      inversion Hbuilt; subst vtx. cbn [lift bind ret Monad_M].
      unfold await. cbn [method_of trace]. rewrite calls_snoc_other by reflexivity.
      fold cfg. rewrite Hsim. cbn iota beta.
      destruct (err_truthy (sr_err response)); unfold final; cbn [trace this];
        repeat rewrite <- app_assoc; reflexivity.
    - inversion Hbuilt; subst vtx. cbn [lift bind ret Monad_M].
      unfold await. cbn [method_of trace]. rewrite calls_snoc_other by reflexivity.
      fold cfg. rewrite Hsim. cbn iota beta.
      destruct (err_truthy (sr_err response)); unfold final; cbn [trace this];
        repeat rewrite <- app_assoc; reflexivity. }
  split.
  - intros err Herr Htruthy. rewrite Hrun, Herr, Htruthy. reflexivity.
  - intros Hfalsy. rewrite Hrun, Hfalsy. reflexivity.
Qed.

(** The timeout of the spam loop, seen from the caller: the final [catch]
    rethrows it as a [FallthroughError]. *)
Lemma processTransaction_timeout_rethrown fuel tx signers opts conn (w w1 w2 : World Client)
  sc b l :
  new_sendConnection lib (this w) (connection_of (this w) conn) = Resolved sc ->
  processTransaction_build lib net (this w) (connection_of (this w) conn) tx signers w
  = (Return b, w1) ->
  processTransaction_send lib net fuel (this w) (connection_of (this w) conn) sc opts b w1
  = (Throw (ProcessTransactionError timeout_message TimeoutError l), w2) ->
  processTransaction lib net fuel tx signers opts conn w
  = (Throw (ProcessTransactionError timeout_message FallthroughError None), w2).
Proof. intros Hsc Hb Hs. now rewrite processTransaction_catch, Hsc, Hb, Hs. Qed.

Lemma sendAndConfirmTransaction_timeout_rethrown fuel vtx opts conn (w w1 : World Client)
  sc l :
  new_sendConnection lib (this w) (connection_of (this w) conn) = Resolved sc ->
  sendAndConfirmTransaction_body lib net fuel (this w) (connection_of (this w) conn) sc
    vtx opts w
  = (Throw (ProcessTransactionError timeout_message TimeoutError l), w1) ->
  sendAndConfirmTransaction lib net fuel vtx opts conn w
  = (Throw (ProcessTransactionError timeout_message FallthroughError None), w1).
Proof. intros Hsc Hs. now rewrite sendAndConfirmTransaction_catch, Hsc, Hs. Qed.

(** ** Maps in insertion order *)

Lemma Map_get_set_same {V : Type} (k : string) (v : V) (m : list (string * V)) :
  Map_get k (Map_set k v m) = Some v.
Proof.
  induction m as [| [k' v'] m IH]; simpl.
  - now rewrite String.eqb_refl.
  - destruct (k' =? k)%string eqn:E; simpl.
    + now rewrite String.eqb_refl.
    + now rewrite E.
Qed.

Lemma Map_get_set_other {V : Type} (k k0 : string) (v : V) (m : list (string * V)) :
  k0 <> k -> Map_get k0 (Map_set k v m) = Map_get k0 m.
Proof.
  intros Hne. induction m as [| [k' v'] m IH]; simpl.
  - destruct (k =? k0)%string eqn:E; [apply String.eqb_eq in E; congruence | reflexivity].
  - destruct (k' =? k)%string eqn:E; simpl.
    + apply String.eqb_eq in E. subst k'.
      destruct (k =? k0)%string eqn:E'; [apply String.eqb_eq in E'; congruence | reflexivity].
    + destruct (k' =? k0)%string; [reflexivity | exact IH].
Qed.

Lemma Map_get_None {V : Type} (k : string) (m : list (string * V)) :
  Map_get k m = None <-> ~ In k (map fst m).
Proof.
  induction m as [| [k' v'] m IH]; simpl; [tauto|].
  destruct (k' =? k)%string eqn:E.
  - apply String.eqb_eq in E. split; [discriminate | intros H; exfalso; apply H; auto].
  - apply String.eqb_neq in E. rewrite IH. tauto.
Qed.

Lemma Map_set_keys {V : Type} (k : string) (v : V) (m : list (string * V)) :
  map fst (Map_set k v m) = key_set k (map fst m).
Proof.
  unfold key_set. induction m as [| [k' v'] m IH]; simpl; [reflexivity|].
  destruct (k' =? k)%string eqn:E; simpl.
  - apply String.eqb_eq in E. now subst.
  - rewrite IH. now destruct (existsb _ (map fst m)).
Qed.

Lemma new_Map_keys_from {V : Type} (entries m : list (string * V)) :
  map fst (fold_left (fun m kv => Map_set (fst kv) (snd kv) m) entries m)
  = fold_left (fun ks k => key_set k ks) (map fst entries) (map fst m).
Proof.
  revert m. induction entries as [| [k v] entries IH]; intros m; simpl; [reflexivity|].
  now rewrite IH, Map_set_keys.
Qed.

(** The keys of [new Map(entries)] depend on the keys of the entries only. *)
Lemma new_Map_keys {V W : Type} (l : list (string * V)) (l' : list (string * W)) :
  map fst l = map fst l' -> map fst (new_Map l) = map fst (new_Map l').
Proof. intros H. unfold new_Map. now rewrite !new_Map_keys_from, H. Qed.

Lemma In_Map_set {V : Type} (k : string) (v : V) (m : list (string * V)) (kv : string * V) :
  In kv (Map_set k v m) -> kv = (k, v) \/ In kv m.
Proof.
  induction m as [| [k' v'] m IH]; simpl.
  - intros [H | []]; auto.
  - destruct (k' =? k)%string; simpl; intros [H | H]; auto.
    destruct (IH H); auto.
Qed.

(** Every binding of [new Map(entries)] is one of the entries. *)
Lemma In_new_Map {V : Type} (l : list (string * V)) (kv : string * V) :
  In kv (new_Map l) -> In kv l.
Proof.
  unfold new_Map.
  assert (H : forall m, In kv (fold_left (fun m kv => Map_set (fst kv) (snd kv) m) l m) ->
                        In kv l \/ In kv m).
  { induction l as [| [k v] l IH]; intros m; simpl; [auto|].
    intros Hin. destruct (IH _ Hin) as [H | H]; [auto|].
    destruct (In_Map_set _ _ _ _ H) as [-> | H']; auto. }
  intros Hin. destruct (H [] Hin) as [? | []]. assumption.
Qed.

Lemma key_set_In (k k0 : string) (ks : list string) :
  In k0 (key_set k ks) <-> k0 = k \/ In k0 ks.
Proof.
  unfold key_set. destruct (existsb _ ks) eqn:E.
  - apply existsb_exists in E. destruct E as (k' & Hin & Heq).
    apply String.eqb_eq in Heq. subst k'. split; [auto | intros [-> | H]; auto].
  - rewrite in_app_iff. simpl.
    split; [intros [H | [-> | []]]; auto | intros [-> | H]; auto].
Qed.

(** Every key of the entries is a key of [new Map(entries)]. *)
Lemma new_Map_has_keys {V : Type} (l : list (string * V)) (k : string) :
  In k (map fst (new_Map l)) <-> In k (map fst l).
Proof.
  unfold new_Map. rewrite new_Map_keys_from. simpl.
  assert (H : forall ks acc, In k (fold_left (fun ks k => key_set k ks) ks acc)
                             <-> In k ks \/ In k acc).
  { induction ks as [| k1 ks IH]; intros acc; simpl; [tauto|].
    rewrite IH, key_set_In. intuition. }
  rewrite H. simpl. tauto.
Qed.

(** ** [array.map] with a callback that throws *)

Lemma map_throwing_keys {A B : Type} (f : nat -> A -> Response B)
  (ka : A -> string) (kb : B -> string) :
  (forall i a b, f i a = Resolved b -> kb b = ka a) ->
  forall l i bs, map_throwing f i l = Resolved bs -> map kb bs = map ka l.
Proof.
  intros Hf. induction l as [| a l IH]; intros i bs; simpl.
  - intros H. inversion H. reflexivity.
  - destruct (f i a) as [b | e] eqn:E; [| discriminate].
    destruct (map_throwing f (S i) l) as [bs' | e] eqn:E'; [| discriminate].
    intros H. inversion H. subst. simpl. f_equal; eauto.
Qed.

Lemma map_throwing_In {A B : Type} (f : nat -> A -> Response B) :
  forall l i bs b, map_throwing f i l = Resolved bs -> In b bs ->
                   exists j a, nth_error l j = Some a /\ f (i + j)%nat a = Resolved b.
Proof.
  induction l as [| a l IH]; intros i bs b; simpl.
  - intros H. inversion H. intros [].
  - destruct (f i a) as [b0 | e] eqn:E; [| discriminate].
    destruct (map_throwing f (S i) l) as [bs' | e] eqn:E'; [| discriminate].
    intros H. inversion H. subst. intros [-> | Hin].
    + exists 0%nat, a. rewrite Nat.add_0_r. auto.
    + destruct (IH _ _ _ E' Hin) as (j & a' & Hn & Hf).
      exists (S j), a'. split; [exact Hn|]. now rewrite Nat.add_succ_r.
Qed.

(** The first element on which the callback throws decides the error. *)
Lemma map_throwing_first_error {A B : Type} (f : nat -> A -> Response B) :
  forall l i j a e,
    nth_error l j = Some a ->
    f (i + j)%nat a = Rejected e ->
    (forall j' a', (j' < j)%nat -> nth_error l j' = Some a' ->
                   exists b, f (i + j')%nat a' = Resolved b) ->
    map_throwing f i l = Rejected e.
Proof.
  induction l as [| a0 l IH]; intros i j a e Hn Hf Hbefore.
  - destruct j; discriminate.
  - destruct j as [| j]; simpl in *.
    + inversion Hn. subst. rewrite Nat.add_0_r in Hf. now rewrite Hf.
    + destruct (Hbefore 0%nat a0 ltac:(lia) eq_refl) as [b Hb].
      rewrite Nat.add_0_r in Hb. rewrite Hb.
      rewrite (IH (S i) j a e Hn).
      * reflexivity.
      * now rewrite Nat.add_succ_r in Hf.
      * intros j' a' Hlt Hn'. destruct (Hbefore (S j') a' ltac:(lia) Hn') as [b' Hb'].
        exists b'. now rewrite Nat.add_succ_r in Hb'.
Qed.

Lemma map_throwing_all {A B : Type} (f : nat -> A -> Response B) :
  forall l i,
    (forall j a, nth_error l j = Some a -> exists b, f (i + j)%nat a = Resolved b) ->
    exists bs, map_throwing f i l = Resolved bs /\ length bs = length l.
Proof.
  induction l as [| a l IH]; intros i Hall; simpl.
  - now exists [].
  - destruct (Hall 0%nat a eq_refl) as [b Hb]. rewrite Nat.add_0_r in Hb. rewrite Hb.
    destruct (IH (S i)) as (bs & Hbs & Hlen).
    + intros j a' Hn. destruct (Hall (S j) a' Hn) as [b' Hb'].
      exists b'. now rewrite Nat.add_succ_r in Hb'.
    + rewrite Hbs. exists (b :: bs). simpl. auto.
Qed.

(** ** [fetchGroupData] *)

(** X1. The loop over the fetched banks skips the entries that are [null] and
    keeps every other entry with the address it was asked by. *)
Theorem X1_keyBankDatas_keeps_addresses_aligned :
  forall (datas : list (option BankRaw)) (bankAddresses : list PublicKey),
    (length datas <= length bankAddresses)%nat ->
    keyBankDatas bankAddresses datas
    = flat_map (fun ad => match snd ad with
                          | Some raw => [(fst ad, raw)]
                          | None => []
                          end)
        (combine bankAddresses datas).
Proof.
  induction datas as [| d datas IH]; intros addrs Hlen.
  - destruct addrs; reflexivity.
  - destruct addrs as [| a addrs]; [simpl in Hlen; lia|].
    simpl in *. rewrite IH by lia. now destruct d.
Qed.

(** The two awaits of [fetchGroupData], and the decoding that follows. *)
Lemma fetchGroupData_run {St : Type} program groupAddress cm bankAddresses metadata
  (w : World St) :
  fetchGroupData lib net program groupAddress cm bankAddresses metadata w
  = match bank_answer net
            (calls (method_of (bank_request (MessageV0 := MessageV0) groupAddress
                                 bankAddresses)) (trace w))
            groupAddress bankAddresses with
    | Rejected e => (Throw e, after w [bank_request groupAddress bankAddresses])
    | Resolved keyed =>
        let w2 := after w [bank_request groupAddress bankAddresses;
                           EvGetMultipleAccountsInfo (account_keys lib groupAddress keyed) cm] in
        match rpc_getMultipleAccountsInfo net (calls m_getMultipleAccountsInfo (trace w))
                (account_keys lib groupAddress keyed) cm with
        | Rejected e => (Throw e, w2)
        | Resolved ais =>
            match decoded lib groupAddress metadata keyed ais with
            | Resolved r => (Return r, w2)
            | Rejected e => (Throw e, w2)
            end
        end
    end.
Proof.
  assert (Hprice : forall (A : Type) (f g : nat -> PublicKey * BankRaw -> Response A) l i,
             (forall j b, f j b = g j b) -> map_throwing f i l = map_throwing g i l).
  { intros A f g l. induction l as [| b l IH]; intros i Hfg; simpl; [reflexivity|].
    rewrite Hfg. destruct (g i b); [| reflexivity]. now rewrite (IH (S i) Hfg). }
  assert (Htail : forall keyed,
    (let keys := groupAddress :: map (fun b => oracleKeys0 lib (snd b)) keyed in
     bind (await (EvGetMultipleAccountsInfo keys cm)
             (fun n => rpc_getMultipleAccountsInfo net n keys cm))
       (fun ais =>
          let priceFeedAis := tl ais in
          match hd None ais with
          | None => raise (Error "Failed to fetch the on-chain group data")
          | Some groupAi =>
              bind (lift (MarginfiGroup_fromBuffer lib groupAddress (ai_data groupAi)))
                (fun marginfiGroup =>
                   bind (lift (map_throwing
                           (fun _ b =>
                              let bankMetadata :=
                                match metadata with
                                | Some mm => Map_get (fst b) mm
                                | None => None
                                end in
                              match Bank_fromAccountParsed lib (fst b) (snd b)
                                      bankMetadata with
                              | Resolved bank => Resolved (fst b, bank)
                              | Rejected e => Rejected e
                              end) 0%nat keyed))
                     (fun banks =>
                        bind (lift (map_throwing
                                (fun index b =>
                                   match nth_error priceFeedAis index with
                                   | Some (Some priceDataRaw) =>
                                       match parsePriceInfo lib (snd b)
                                               (ai_data priceDataRaw) with
                                       | Resolved p => Resolved (fst b, p)
                                       | Rejected e => Rejected e
                                       end
                                   | _ =>
                                       Rejected
                                         (Error
                                            ("Failed to fetch price oracle account for bank "
                                             ++ fst b)%string)
                                   end) 0%nat keyed))
                          (fun priceInfos =>
                             ret (marginfiGroup, new_Map banks, new_Map priceInfos))))
          end)) (after w [bank_request groupAddress bankAddresses])
    = let w2 := after w [bank_request groupAddress bankAddresses;
                         EvGetMultipleAccountsInfo (account_keys lib groupAddress keyed) cm] in
      match rpc_getMultipleAccountsInfo net (calls m_getMultipleAccountsInfo (trace w))
              (account_keys lib groupAddress keyed) cm with
      | Rejected e => (Throw e, w2)
      | Resolved ais =>
          match decoded lib groupAddress metadata keyed ais with
          | Resolved r => (Return r, w2)
          | Rejected e => (Throw e, w2)
          end
      end).
  { intros keyed. cbv zeta.
    cbn [bind ret raise Monad_M Exc_M]. unfold await, after. cbn [method_of this trace].
    rewrite calls_snoc_other by (destruct bankAddresses as [[| ? ?] |]; reflexivity).
    unfold account_keys.
    rewrite <- app_assoc. cbn [app].
    destruct (rpc_getMultipleAccountsInfo net _ _ cm) as [ais | e]; [| reflexivity].
    unfold decoded.
    destruct (hd None ais) as [groupAi |]; [| reflexivity].
    destruct (MarginfiGroup_fromBuffer lib groupAddress (ai_data groupAi));
      cbn [lift bind ret raise Monad_M Exc_M]; [| reflexivity].
    unfold decode_bank at 1, metadata_of.
    match goal with
    | |- (let (_, _) := lift ?x _ in _) = match match ?y with _ => _ end with _ => _ end =>
        change y with x; destruct x as [bl | e]
    end; cbn [lift bind ret raise Monad_M Exc_M]; [| reflexivity].
    match goal with
    | |- (let (_, _) := lift ?x _ in _) = match match ?y with _ => _ end with _ => _ end =>
        replace x with y; [destruct y; reflexivity |]
    end.
    apply Hprice. intros j b. unfold decode_price, price_feed.
    now destruct (nth_error (tl ais) j) as [[? |] |]. }
  unfold fetchGroupData.
  destruct bankAddresses as [[| a more] |];
    cbn [bank_request bank_answer method_of];
    cbn [bind ret Monad_M]; unfold await at 1; cbn [method_of].
  - destruct (bank_all net _ _ groupAddress) as [keyed | e]; [| reflexivity].
    cbn iota beta. refine (eq_trans _ (Htail keyed)). reflexivity.
  - destruct (bank_fetchMultiple net _ (a :: more)) as [datas | e]; [| reflexivity].
    cbn iota beta. refine (eq_trans _ (Htail (keyBankDatas (a :: more) datas))). reflexivity.
  - destruct (bank_all net _ _ groupAddress) as [keyed | e]; [| reflexivity].
    cbn iota beta. refine (eq_trans _ (Htail keyed)). reflexivity.
Qed.

Lemma decoded_inv groupAddress metadata keyed ais g
  (bs : list (string * Bank)) (ps : list (string * OraclePrice)) :
  decoded lib groupAddress metadata keyed ais = Resolved (g, bs, ps) ->
  exists groupAi bl pl,
    hd None ais = Some groupAi /\
    MarginfiGroup_fromBuffer lib groupAddress (ai_data groupAi) = Resolved g /\
    map_throwing (decode_bank lib metadata) 0%nat keyed = Resolved bl /\
    map_throwing (decode_price lib ais) 0%nat keyed = Resolved pl /\
    bs = new_Map bl /\ ps = new_Map pl.
Proof.
  unfold decoded.
  destruct (hd None ais) as [groupAi |]; [| discriminate].
  destruct (MarginfiGroup_fromBuffer lib groupAddress (ai_data groupAi)) as [g0 | e] eqn:Hg;
    [| discriminate].
  destruct (map_throwing (decode_bank lib metadata) 0%nat keyed) as [bl | e]; [| discriminate].
  destruct (map_throwing (decode_price lib ais) 0%nat keyed) as [pl | e]; [| discriminate].
  intros H. inversion H. subst. exists groupAi, bl, pl. repeat split; auto.
Qed.

Lemma fetchGroupData_returns {St : Type} program groupAddress cm bankAddresses metadata
  (w w' : World St) r :
  fetchGroupData lib net program groupAddress cm bankAddresses metadata w = (Return r, w') ->
  exists keyed ais,
    bank_answer net
      (calls (method_of (bank_request (MessageV0 := MessageV0) groupAddress bankAddresses))
         (trace w))
      groupAddress bankAddresses = Resolved keyed /\
    rpc_getMultipleAccountsInfo net (calls m_getMultipleAccountsInfo (trace w))
      (account_keys lib groupAddress keyed) cm = Resolved ais /\
    decoded lib groupAddress metadata keyed ais = Resolved r /\
    w' = after w [bank_request groupAddress bankAddresses;
                  EvGetMultipleAccountsInfo (account_keys lib groupAddress keyed) cm].
Proof.
  rewrite fetchGroupData_run.
  destruct (bank_answer net _ groupAddress bankAddresses) as [keyed | e]; [| discriminate].
  cbv zeta.
  destruct (rpc_getMultipleAccountsInfo net _ _ cm) as [ais | e] eqn:Hais; [| discriminate].
  destruct (decoded lib groupAddress metadata keyed ais) as [r0 | e] eqn:Hdec;
    [| discriminate].
  intros H. inversion H. subst. exists keyed, ais. auto.
Qed.

Lemma decode_bank_key metadata i (a : PublicKey * BankRaw) (b : string * Bank) :
  decode_bank lib metadata i a = Resolved b -> fst b = fst a.
Proof.
  unfold decode_bank. destruct (Bank_fromAccountParsed lib _ _ _); [| discriminate].
  intros H. inversion H. reflexivity.
Qed.

Lemma decode_price_key ais i (a : PublicKey * BankRaw) (p : string * OraclePrice) :
  decode_price lib ais i a = Resolved p -> fst p = fst a.
Proof.
  unfold decode_price. destruct (price_feed ais i); [| discriminate].
  destruct (parsePriceInfo lib _ _); [| discriminate].
  intros H. inversion H. reflexivity.
Qed.

Lemma decoded_keys groupAddress metadata keyed ais g
  (bs : list (string * Bank)) (ps : list (string * OraclePrice)) :
  decoded lib groupAddress metadata keyed ais = Resolved (g, bs, ps) ->
  map fst bs = map fst ps.
Proof.
  intros H. apply decoded_inv in H.
  destruct H as (groupAi & bl & pl & _ & _ & Hbl & Hpl & -> & ->).
  apply new_Map_keys.
  rewrite (map_throwing_keys _ fst fst (decode_bank_key metadata) _ _ _ Hbl).
  now rewrite (map_throwing_keys _ fst fst (decode_price_key ais) _ _ _ Hpl).
Qed.

Lemma decoded_banks groupAddress metadata keyed ais g
  (bs : list (string * Bank)) (ps : list (string * OraclePrice)) address bank :
  decoded lib groupAddress metadata keyed ais = Resolved (g, bs, ps) ->
  In (address, bank) bs ->
  exists raw,
    In (address, raw) keyed /\
    Bank_fromAccountParsed lib address raw (metadata_of metadata address) = Resolved bank.
Proof.
  intros H Hin. apply decoded_inv in H.
  destruct H as (groupAi & bl & pl & _ & _ & Hbl & _ & -> & _).
  apply In_new_Map in Hin.
  destruct (map_throwing_In _ _ _ _ _ Hbl Hin) as (j & [a raw] & Hn & Hf).
  unfold decode_bank in Hf. simpl in Hf.
  destruct (Bank_fromAccountParsed lib a raw (metadata_of metadata a)) as [bk | e] eqn:E;
    [| discriminate].
  inversion Hf. subst. exists raw. split; [| exact E].
  eapply nth_error_In. exact Hn.
Qed.

(** The reload as its fetch makes it. *)
Lemma reload_run (w : World Client) :
  reload lib net w =
  match reload_fetch lib net w with
  | (Return (g, b, p), w1) =>
      (Return tt,
       {| this := set_oraclePrices p (set_banks b (set_group g (this w1)));
          trace := trace w1 |})
  | (Throw e, w1) => (Throw e, w1)
  | (Diverge, w1) => (Diverge, w1)
  end.
Proof.
  unfold reload, reload_fetch. simpl.
  destruct (fetchGroupData _ _ _ _ _ _ _ w) as [[[[g b] p] | e |] w1]; reflexivity.
Qed.

Lemma reload_returns (w w' : World Client) :
  reload lib net w = (Return tt, w') ->
  exists g keyed ais,
    decoded lib (groupPk (config (this w))) None keyed ais
    = Resolved (g, banks (this w'), oraclePrices (this w')).
Proof.
  rewrite reload_run. unfold reload_fetch.
  destruct (fetchGroupData _ _ _ _ _ _ _ w) as [[[[g b] p] | e |] w1] eqn:Hf;
    try discriminate.
  intros H. inversion H. subst. simpl.
  apply fetchGroupData_returns in Hf. destruct Hf as (keyed & ais & _ & _ & Hdec & _).
  eauto.
Qed.

(** The fetch of the factory as its three stages make it, when it returns. *)
Lemma fetch_returns config wal connection clientOptions (w w' : World unit) (c : Client) :
  fetch lib net config wal connection clientOptions w = (Return c, w') ->
  let loaded :=
    match loadBankMetadatas net (calls m_loadBankMetadatas (trace w)) with
    | Resolved m => Some m
    | Rejected _ => None
    end in
  bankMetadataMap c = loaded /\
  exists keyed ais tables,
    decoded lib (groupPk config) loaded keyed ais
    = Resolved (group c, banks c, oraclePrices c) /\
    addressLookupTables c
    = flat_map (fun table => match table with Some t => [t] | None => [] end) tables.
Proof.
  unfold fetch. cbn [bind ret catch raise Monad_M Exc_M]. unfold await at 1.
  cbn [method_of].
  cbv zeta.
  destruct (loadBankMetadatas net (calls m_loadBankMetadatas (trace w))) as [m | e0].
  - destruct (fetchGroupData _ _ _ _ _ _ _ _) as [[[[g b] p] | e |] w2] eqn:Hf;
      try discriminate.
    destruct (await_all _ w2) as [[l | e |] w3]; try discriminate.
    intros H. inversion H. subst. simpl. split; [reflexivity|].
    apply fetchGroupData_returns in Hf. destruct Hf as (keyed & ais & _ & _ & Hdec & _).
    exists keyed, ais, l. auto.
  - destruct (fetchGroupData _ _ _ _ _ _ _ _) as [[[[g b] p] | e |] w2] eqn:Hf;
      try discriminate.
    destruct (await_all _ w2) as [[l | e |] w3]; try discriminate.
    intros H. inversion H. subst. simpl. split; [reflexivity|].
    apply fetchGroupData_returns in Hf. destruct Hf as (keyed & ais & _ & _ & Hdec & _).
    exists keyed, ais, l. auto.
Qed.

(** X2. [fetchGroupData] makes two requests at most, and never changes an
    object: the banks (by address when addresses are preloaded, which skips
    the program-account scan; the banks of the group otherwise), then, when
    the first request is answered, one batch of account infos for the group
    and the first oracle key of every bank kept. *)
Theorem X2_fetchGroupData_makes_at_most_two_requests {St : Type} program groupAddress cm
  bankAddresses metadata (w : World St) :
  let run := fetchGroupData lib net program groupAddress cm bankAddresses metadata w in
  let first := bank_request (MessageV0 := MessageV0) groupAddress bankAddresses in
  this (snd run) = this w /\
  (trace (snd run) = trace w ++ [first] \/
   exists keyed,
     bank_answer net (calls (method_of first) (trace w)) groupAddress bankAddresses
     = Resolved keyed /\
     trace (snd run)
     = trace w ++ [first; EvGetMultipleAccountsInfo (account_keys lib groupAddress keyed) cm]).
Proof.
  cbv zeta. rewrite fetchGroupData_run.
  destruct (bank_answer net _ groupAddress bankAddresses) as [keyed | e].
  - cbv zeta. split.
    + destruct (rpc_getMultipleAccountsInfo net _ _ cm) as [ais | e]; [| reflexivity].
      now destruct (decoded lib groupAddress metadata keyed ais).
    + right. exists keyed. split; [reflexivity|].
      destruct (rpc_getMultipleAccountsInfo net _ _ cm) as [ais | e]; [| reflexivity].
      now destruct (decoded lib groupAddress metadata keyed ais).
  - simpl. auto.
Qed.

(** X3. When the batch of account infos has no first entry, or a [null] one,
    [fetchGroupData] throws [Failed to fetch the on-chain group data]
    whatever the banks are: nothing has been decoded by then. *)
Theorem X3_fetchGroupData_fails_without_group_account {St : Type} program groupAddress cm
  bankAddresses metadata (w : World St) keyed ais :
  bank_answer net
    (calls (method_of (bank_request (MessageV0 := MessageV0) groupAddress bankAddresses))
       (trace w))
    groupAddress bankAddresses = Resolved keyed ->
  rpc_getMultipleAccountsInfo net (calls m_getMultipleAccountsInfo (trace w))
    (account_keys lib groupAddress keyed) cm = Resolved ais ->
  hd None ais = None ->
  fetchGroupData lib net program groupAddress cm bankAddresses metadata w
  = (Throw (Error "Failed to fetch the on-chain group data"),
     after w [bank_request groupAddress bankAddresses;
              EvGetMultipleAccountsInfo (account_keys lib groupAddress keyed) cm]).
Proof.
  intros Hbank Hais Hhd. rewrite fetchGroupData_run, Hbank. cbv zeta. rewrite Hais.
  unfold decoded. now rewrite Hhd.
Qed.

(** X4. When the group and every bank decode, the error of [fetchGroupData] for
    a missing price feed names the first bank, in the order of the banks,
    whose feed is absent or [null], provided the feeds before it parse. *)
Theorem X4_fetchGroupData_names_first_bank_without_price_feed {St : Type} program groupAddress
  cm bankAddresses metadata (w : World St) keyed ais groupAi g bl j b :
  bank_answer net
    (calls (method_of (bank_request (MessageV0 := MessageV0) groupAddress bankAddresses))
       (trace w))
    groupAddress bankAddresses = Resolved keyed ->
  rpc_getMultipleAccountsInfo net (calls m_getMultipleAccountsInfo (trace w))
    (account_keys lib groupAddress keyed) cm = Resolved ais ->
  hd None ais = Some groupAi ->
  MarginfiGroup_fromBuffer lib groupAddress (ai_data groupAi) = Resolved g ->
  map_throwing (decode_bank lib metadata) 0%nat keyed = Resolved bl ->
  nth_error keyed j = Some b ->
  price_feed ais j = None ->
  (forall j' b', (j' < j)%nat -> nth_error keyed j' = Some b' ->
                 exists p, decode_price lib ais j' b' = Resolved p) ->
  fetchGroupData lib net program groupAddress cm bankAddresses metadata w
  = (Throw (Error ("Failed to fetch price oracle account for bank " ++ fst b)%string),
     after w [bank_request groupAddress bankAddresses;
              EvGetMultipleAccountsInfo (account_keys lib groupAddress keyed) cm]).
Proof.
  intros Hbank Hais Hhd Hg Hbl Hn Hfeed Hbefore.
  rewrite fetchGroupData_run, Hbank. cbv zeta. rewrite Hais.
  unfold decoded. rewrite Hhd, Hg, Hbl.
  rewrite (map_throwing_first_error (decode_price lib ais) keyed 0 j b
             (Error ("Failed to fetch price oracle account for bank " ++ fst b)%string)).
  - reflexivity.
  - exact Hn.
  - unfold decode_price. simpl. now rewrite Hfeed.
  - exact Hbefore.
Qed.

(** X5. What [fetchGroupData] returns has a price for every bank and a bank for
    every price: the two maps have the same keys, in the same order. *)
Theorem X5_fetchGroupData_banks_and_prices_share_keys {St : Type} program groupAddress cm
  bankAddresses metadata (w w' : World St) g
  (bs : list (string * Bank)) (ps : list (string * OraclePrice)) :
  fetchGroupData lib net program groupAddress cm bankAddresses metadata w
  = (Return (g, bs, ps), w') ->
  map fst bs = map fst ps.
Proof.
  intros H. apply fetchGroupData_returns in H.
  destruct H as (keyed & ais & _ & _ & Hdec & _).
  eapply decoded_keys. exact Hdec.
Qed.

(** X6. [reload] calls [fetchGroupData] without the metadata map: every bank of
    the client after a reload was decoded with [undefined] metadata, whether
    or not the client holds a metadata map. *)
Theorem X6_reload_decodes_banks_without_metadata (w w' : World Client) address bank :
  reload lib net w = (Return tt, w') ->
  In (address, bank) (banks (this w')) ->
  exists raw, Bank_fromAccountParsed lib address raw None = Resolved bank.
Proof.
  intros H Hin. apply reload_returns in H. destruct H as (g & keyed & ais & Hdec).
  destruct (decoded_banks _ _ _ _ _ _ _ _ _ Hdec Hin) as (raw & _ & Hraw).
  exists raw. exact Hraw.
Qed.

(** X7. After a reload the two getters by address agree: a bank is known exactly
    when its price is. *)
Theorem X7_reload_keeps_banks_and_prices_in_step (w w' : World Client) address :
  reload lib net w = (Return tt, w') ->
  (getBankByPk (this w') address = None <-> getOraclePriceByBank (this w') address = None).
Proof.
  intros H. apply reload_returns in H. destruct H as (g & keyed & ais & Hdec).
  unfold getBankByPk, getOraclePriceByBank.
  rewrite !Map_get_None. now rewrite (decoded_keys _ _ _ _ _ _ _ Hdec).
Qed.

(** X8. [fetch] does not fail when the bank metadata cannot be loaded: the client
    it returns holds the loaded map, or none when loading failed, and every
    bank of the client was decoded with the entry of that map at the bank's
    address ([undefined] when there is no map or no entry). *)
Theorem X8_fetch_decodes_banks_with_loaded_metadata config wal connection clientOptions
  (w w' : World unit) (c : Client) address bank :
  fetch lib net config wal connection clientOptions w = (Return c, w') ->
  In (address, bank) (banks c) ->
  bankMetadataMap c
  = match loadBankMetadatas net (calls m_loadBankMetadatas (trace w)) with
    | Resolved m => Some m
    | Rejected _ => None
    end /\
  exists raw,
    Bank_fromAccountParsed lib address raw (metadata_of (bankMetadataMap c) address)
    = Resolved bank.
Proof.
  intros H Hin. apply fetch_returns in H. cbv zeta in H.
  destruct H as (Hmeta & keyed & ais & tables & Hdec & _).
  split; [exact Hmeta|].
  rewrite Hmeta.
  destruct (decoded_banks _ _ _ _ _ _ _ _ _ Hdec Hin) as (raw & _ & Hraw).
  exists raw. exact Hraw.
Qed.

(** ** What a path never does *)

Ltac open_spamLoop_by P tac :=
  try match goal with
      | |- context [spamLoop net ?f ?o ?h ?l ?m ?sc ?c ?v ?lv ?s ?w1] =>
          let evs := fresh "evs" in
          let Htr := fresh "Htr" in
          let HF := fresh "HF" in
          destruct (spamLoop_emits (St := Client) P f o h l m sc c v lv s) with (w := w1)
            as (_ & evs & Htr & HF); [tac | intros; tac | tac | tac |];
          destruct (spamLoop net f o h l m sc c v lv s w1) as [[? | ? |] ?];
          cbn [snd trace] in Htr; simpl; rewrite Htr
      end.

Ltac close_forall_by tac :=
  simpl; repeat rewrite <- app_assoc; simpl;
  first [ eexists; split; [reflexivity|]
        | exists []; split; [now rewrite app_nil_r|] ];
  repeat (apply Forall_cons; [tac |]);
  first [ apply Forall_nil | assumption ].

(** X9. On a dry run, and on a read-only client, [processTransaction] asks for
    the blockhash and simulates, and does nothing else: the wallet is not
    asked to sign, nothing is sent, whatever the spam flags; the run ends
    whatever the fuel. *)
Theorem X9_processTransaction_dry_run_only_simulates fuel tx signers opts conn
  (w : World Client) :
  dry_run opts || isReadOnly (this w) = true ->
  exists evs,
    trace (snd (processTransaction lib net fuel tx signers opts conn w)) = trace w ++ evs /\
    Forall read_or_simulate evs /\
    (length evs <= 2)%nat /\
    fst (processTransaction lib net fuel tx signers opts conn w) <> Diverge.
Proof.
  intros Hdry.
  unfold processTransaction, processTransaction_build, processTransaction_send,
    toVersioned, signWith, await, lift.
  simpl. rewrite dry_run_test, Hdry.
  oracle_cases; trace_tail; unfold read_or_simulate; simpl;
    repeat split; try lia; try discriminate;
    repeat (apply Forall_cons; [simpl; auto |]); apply Forall_nil.
Qed.


(** X11. In spam mode with [skipPreflightInSpam] unset no simulation is made
    before the sends. *)
Theorem X11_spam_without_preflight_never_simulates fuel (w : World Client) :
  spamSendTx (this w) = true ->
  skipPreflightInSpam (this w) = false ->
  (forall tx signers opts conn,
     dry_run opts || isReadOnly (this w) = false ->
     exists evs,
       trace (snd (processTransaction lib net fuel tx signers opts conn w)) = trace w ++ evs /\
       Forall (fun e => method_of e <> m_simulateTransaction) evs) /\
  (forall vtx opts conn,
     exists evs,
       trace (snd (sendAndConfirmTransaction lib net fuel vtx opts conn w))
       = trace w ++ evs /\
       Forall (fun e => method_of e <> m_simulateTransaction) evs).
Proof.
  intros Hspam Hskip. split.
  - intros tx signers opts conn Hdry.
    unfold processTransaction, processTransaction_build, processTransaction_send,
      toVersioned, signWith.
    cbn [bind ret catch raise Monad_M Exc_M get_this].
    rewrite dry_run_test, Hdry, Hspam, Hskip.
    unfold await, lift. simpl.
    oracle_cases;
      open_spamLoop_by (fun e : Ev => method_of e <> m_simulateTransaction)
        ltac:(simpl; discriminate);
      subst; close_forall_by ltac:(simpl; discriminate).
  - intros vtx opts conn.
    unfold sendAndConfirmTransaction, sendAndConfirmTransaction_body.
    cbn [bind ret catch raise Monad_M Exc_M get_this].
    rewrite Hspam, Hskip.
    unfold await, lift. simpl.
    oracle_cases;
      open_spamLoop_by (fun e : Ev => method_of e <> m_simulateTransaction)
        ltac:(simpl; discriminate);
      subst; close_forall_by ltac:(simpl; discriminate).
Qed.

(** X12. In spam mode with [skipPreflightInSpam] set, [processTransaction] sends
    only after a simulation that reported no error: a simulation that
    reports one, or fails, leaves the run without a single send. *)
Theorem X12_spam_preflight_failure_sends_nothing fuel tx signers opts conn (w : World Client) :
  spamSendTx (this w) = true ->
  skipPreflightInSpam (this w) = true ->
  dry_run opts || isReadOnly (this w) = false ->
  exists evs,
    trace (snd (processTransaction lib net fuel tx signers opts conn w)) = trace w ++ evs /\
    (calls m_sendTransaction evs = 0%nat \/
     exists vtx cfg response,
       In (EvSimulateTransaction (connection_of (this w) conn) vtx cfg) evs /\
       rpc_simulateTransaction net (calls m_simulateTransaction (trace w))
         (connection_of (this w) conn) vtx cfg = Resolved response /\
       err_truthy (sr_err response) = false).
Proof.
  intros Hspam Hskip Hdry.
  unfold processTransaction, processTransaction_build, processTransaction_send,
    preflightSimulation, toVersioned, signWith.
  fold (connection_of (this w) conn).
  cbn [bind ret catch raise Monad_M Exc_M get_this].
  rewrite dry_run_test, Hdry, Hspam, Hskip.
  unfold await, lift. simpl.
  oracle_cases;
    open_spamLoop_by (fun e : Ev => True) ltac:(exact I);
    simpl; repeat rewrite <- app_assoc; simpl;
    first [ exists []; split; [now rewrite app_nil_r | left; reflexivity]
          | eexists; split; [reflexivity|] ];
    first [ left; reflexivity
          | right;
            match goal with
            | H : rpc_simulateTransaction net _ _ _ _ = Resolved _ |- _ =>
                repeat rewrite calls_past in H by reflexivity
            end;
            do 3 eexists; split; [| split; [eassumption | assumption]];
            simpl; auto ].
Qed.

(** X13. [signTransaction] asks for the blockhash and for the wallet's signature,
    in this order, and makes no other call; what it throws is a
    [TransactionBuildingError] when the wallet was not reached and a
    [FallthroughError] when the wallet refused, without logs. *)
Theorem X13_signTransaction_only_builds_and_signs tx signers conn (w : World Client) :
  exists evs,
    trace (snd (signTransaction lib net tx signers conn w)) = trace w ++ evs /\
    (evs = [EvGetLatestBlockhashAndContext (connection_of (this w) conn)] \/
     exists vtx, evs = [EvGetLatestBlockhashAndContext (connection_of (this w) conn);
                        EvWalletSignTransaction vtx]) /\
    match fst (signTransaction lib net tx signers conn w) with
    | Throw e =>
        exists msg,
          (e = ProcessTransactionError msg TransactionBuildingError None /\
           calls m_walletSignTransaction evs = 0%nat) \/
          (e = ProcessTransactionError msg FallthroughError None /\
           calls m_walletSignTransaction evs = 1%nat)
    | Return _ => calls m_walletSignTransaction evs = 1%nat
    | Diverge => False
    end.
Proof.
  unfold signTransaction, toVersioned, signWith.
  fold (connection_of (this w) conn).
  unfold await, lift. simpl.
  oracle_cases; trace_tail; (split; [eauto|]); simpl; eauto.
Qed.

(** ** The relay path: the tip, the simulation, the relay *)

(** X14. With a tip of zero [signTranscationJito] throws before it makes any
    call. *)
Theorem X14_signTranscationJito_refuses_zero_tip tip tx luts fee (w : World Client) :
  PrimFloat.eqb tip PrimFloat.zero = true ->
  signTranscationJito lib net tip tx luts fee w
  = (Throw (Error "Jito bundle tip has not been set."), w).
Proof.
  intros Htip. unfold signTranscationJito.
  cbn [bind ret catch raise Monad_M Exc_M get_this]. now rewrite Htip.
Qed.

(** X15. [signTranscationJito] does not look at what its simulation reports:
    with a tip for which the two instructions are built and a message within
    the limits, when the simulation is answered, with a program error or
    without, the wallet is asked to sign, and the outcome is the wallet's; the
    transaction the wallet returns is serialized once more for the log, and
    an error of that serialization is thrown as a [FallthroughError]. *)
Theorem X15_signTranscationJito_signs_whatever_the_simulation_reports tip tx luts fee
  (w : World Client) instrs bh m serialized keys response :
  let connection := provider_connection (provider (this w)) in
  let vTx := new_VersionedTransaction lib m in
  let cfg :=
    {| sim_commitment := None; sim_sigVerify := Some false;
       sim_minContextSlot := Some (context_slot bh - 4); sim_accounts := None |} in
  let final :=
    after w [EvGetLatestBlockhashAndContext connection;
             EvSimulateTransaction connection vTx cfg;
             EvWalletSignTransaction vTx] in
  PrimFloat.eqb tip PrimFloat.zero = false ->
  jitoInstructions lib (this w) tip tx fee = Resolved instrs ->
  rpc_getLatestBlockhashAndContext net (calls m_getLatestBlockhashAndContext (trace w))
    connection = Resolved bh ->
  compileToV0Message lib
    {| tm_instructions := instrs;
       tm_payerKey := provider_publicKey (provider (this w));
       tm_recentBlockhash := value_blockhash bh |}
    (nullish luts []) = Resolved m ->
  message_serialize lib (message vTx) = Resolved serialized ->
  getAccountKeys lib (message vTx) luts = Resolved keys ->
  Z.of_nat (length serialized) <= 1232 ->
  Z.of_nat (length keys) < 64 ->
  rpc_simulateTransaction net (calls m_simulateTransaction (trace w)) connection vTx cfg
  = Resolved response ->
  signTranscationJito lib net tip tx luts fee w
  = match wallet_signTransaction net (calls m_walletSignTransaction (trace w)) vTx with
    | Resolved signed =>
        match message_serialize lib (message signed) with
        | Resolved _ => (Return (ReturnedTransaction signed), final)
        | Rejected e =>
            (Throw (ProcessTransactionError (error_message e) FallthroughError None), final)
        end
    | Rejected e =>
        (Throw (ProcessTransactionError (error_message e) FallthroughError None), final)
    end.
Proof.
  intros connection vTx cfg final Htip Hinstrs Hbh Hm Hser Hkeys Hsize Hcount Hsim.
  unfold signTranscationJito. cbn [bind ret catch raise Monad_M Exc_M get_this].
  rewrite Htip, Hinstrs. cbn [lift bind ret catch raise Monad_M Exc_M get_this].
  unfold await at 1. cbn [method_of]. fold connection. rewrite Hbh. cbn iota beta.
  rewrite Hm. cbn [lift bind ret Monad_M]. fold vTx. rewrite Hser.
  cbn [lift bind ret Monad_M]. rewrite Hkeys. cbn [lift bind ret Monad_M].
  match goal with
  | |- context [if ?b then _ else _] => replace b with false
  end.
  2: { symmetry. apply orb_false_iff.
       split; [rewrite Z.gtb_ltb; apply Z.ltb_ge | rewrite Z.geb_leb; apply Z.leb_gt]; lia. }
  unfold await. cbn [method_of this trace].
  rewrite calls_past by reflexivity.
  fold cfg. rewrite Hsim. cbn iota beta.
  cbn [bind ret catch raise Monad_M Exc_M this trace].
  repeat rewrite calls_past by reflexivity.
  unfold final, after. repeat rewrite <- app_assoc. cbn [app].
  destruct (wallet_signTransaction net _ vTx) as [signed | e]; [| reflexivity].
  cbn [lift bind ret catch raise Monad_M Exc_M].
  now destruct (message_serialize lib (message signed)).
Qed.

(** X24. The two instructions that [signTranscationJito] adds are built before
    anything is asked of the network, outside every [try]: when a builder
    throws, as the transfer does for a tip that is not a whole number of
    lamports, that error is thrown as it is and no call has been made.  The
    builder of the priority fee runs first, and only for a fee that is
    truthy. *)
Theorem X24_signTranscationJito_throws_what_the_builders_throw tip tx luts fee
  (w : World Client) e :
  PrimFloat.eqb tip PrimFloat.zero = false ->
  (fee_truthy fee = true /\
   ComputeBudgetProgram_setComputeUnitPrice lib
     (Math_round (PrimFloat.mul
                    (PrimFloat.mul (nullish fee PrimFloat.zero) LAMPORTS_PER_SOL)
                    (Number_of_Z 1000000))) = Rejected e) \/
  ((fee_truthy fee = false \/
    exists i, ComputeBudgetProgram_setComputeUnitPrice lib
                (Math_round (PrimFloat.mul
                               (PrimFloat.mul (nullish fee PrimFloat.zero) LAMPORTS_PER_SOL)
                               (Number_of_Z 1000000))) = Resolved i) /\
   SystemProgram_transfer lib (provider_publicKey (provider (this w))) JITO_TIP_ACCOUNT
     (PrimFloat.mul tip LAMPORTS_PER_SOL) = Rejected e) ->
  signTranscationJito lib net tip tx luts fee w = (Throw e, w).
Proof.
  intros Htip H. unfold signTranscationJito.
  cbn [bind ret catch raise Monad_M Exc_M get_this]. rewrite Htip.
  assert (Hi : jitoInstructions lib (this w) tip tx fee = Rejected e).
  { unfold jitoInstructions.
    destruct H as [[Hfee Hbuilder] | [[Hfee | [i Hbuilder]] Htransfer]].
    - now rewrite Hfee, Hbuilder.
    - now rewrite Hfee, Htransfer.
    - destruct (fee_truthy fee); [rewrite Hbuilder |]; now rewrite Htransfer. }
  rewrite Hi. cbn [lift bind raise Monad_M Exc_M]. now destruct w.
Qed.


(** ** The lookup tables of [fetch] *)

Lemma Promise_all_lookups {St : Type} connection (addresses : list PublicKey) :
  forall tr : list Ev,
    Promise_all (St := St)
      (map (fun address =>
              (EvGetAddressLookupTable connection address,
               fun n => rpc_getAddressLookupTable net n connection address))
         addresses) tr
    = (lookup_answers net connection (calls m_getAddressLookupTable tr) addresses,
       tr ++ map (EvGetAddressLookupTable connection) addresses).
Proof.
  induction addresses as [| a rest IH]; intros tr; simpl.
  - now rewrite app_nil_r.
  - rewrite IH. rewrite calls_snoc_same by reflexivity.
    now rewrite <- app_assoc.
Qed.

(** X17. [fetch] asks for every lookup table configured for the group, once and
    in the configured order, after the group data; the client it returns
    holds the tables that exist, in that order. *)
Theorem X17_fetch_loads_configured_lookup_tables config wal connection clientOptions
  (w w' : World unit) (c : Client) :
  fetch lib net config wal connection clientOptions w = (Return c, w') ->
  let addresses := nullish (ADDRESS_LOOKUP_TABLE_FOR_GROUP lib (groupPk config)) [] in
  exists before tables,
    trace w' = trace w ++ before ++ map (EvGetAddressLookupTable connection) addresses /\
    calls m_getAddressLookupTable before = 0%nat /\
    settle_all (lookup_answers net connection (calls m_getAddressLookupTable (trace w))
                  addresses) = Resolved tables /\
    addressLookupTables c
    = flat_map (fun table => match table with Some t => [t] | None => [] end) tables.
Proof.
  unfold fetch. cbn [bind ret catch raise Monad_M Exc_M]. unfold await at 1.
  cbn [method_of]. cbv zeta.
  destruct (loadBankMetadatas net (calls m_loadBankMetadatas (trace w))) as [m | e0];
    (destruct (fetchGroupData _ _ _ _ _ _ _ _) as [[[[g b] p] | e |] w2] eqn:Hf;
       try discriminate;
     apply fetchGroupData_returns in Hf;
     destruct Hf as (keyed & ais & _ & _ & _ & ->);
     unfold await_all; rewrite Promise_all_lookups;
     unfold after; cbn [this trace];
     repeat rewrite <- app_assoc; cbn [app];
     match goal with
     | |- context [calls m_getAddressLookupTable (trace w ++ ?l)] =>
         rewrite (calls_past m_getAddressLookupTable (trace w) l)
           by (unfold bank_request;
               repeat match goal with
                      | |- context [match ?x with _ => _ end] => destruct x
                      end; reflexivity)
     end;
     destruct (settle_all _) as [tables | e] eqn:Hs; try discriminate;
     intros H; inversion H; subst; simpl;
     match goal with
     | |- exists before _, trace w ++ ?a :: ?b :: ?c :: _ = _ /\ _ =>
         exists [a; b; c], tables
     end;
     repeat split; try reflexivity; try assumption;
     unfold bank_request;
     repeat match goal with
            | |- context [match ?x with _ => _ end] => destruct x
            end; reflexivity).
Qed.

(** ** What [sendAndConfirmTransaction] does not look at *)

(** X18. Without spam mode [sendAndConfirmTransaction] does not use the options
    of the caller, and looks neither at [opts.dryRun] nor at [isReadOnly]:
    the run is the same whatever the options and the fuel.  The send
    connection is built although it is not used: when its constructor
    rejects [sendEndpoint] the call throws that error before any call.
    Otherwise, once the blockhash is fetched the transaction is sent, with
    the preflight commitment [processed]; the wallet is not asked and
    nothing is simulated. *)
Theorem X18_sendAndConfirmTransaction_sends_whatever_the_options fuel vtx opts conn
  (w : World Client) bh :
  spamSendTx (this w) = false ->
  rpc_getLatestBlockhashAndContext net (calls m_getLatestBlockhashAndContext (trace w))
    (connection_of (this w) conn) = Resolved bh ->
  (forall fuel' opts',
     sendAndConfirmTransaction lib net fuel' vtx opts' conn w
     = sendAndConfirmTransaction lib net fuel vtx opts conn w) /\
  match new_sendConnection lib (this w) (connection_of (this w) conn) with
  | Rejected e => sendAndConfirmTransaction lib net fuel vtx opts conn w = (Throw e, w)
  | Resolved _ =>
      exists rest,
        trace (snd (sendAndConfirmTransaction lib net fuel vtx opts conn w))
        = trace w
          ++ EvGetLatestBlockhashAndContext (connection_of (this w) conn)
          :: EvSendTransaction (connection_of (this w) conn) vtx
               {| so_skipPreflight := None;
                  so_preflightCommitment := Some "processed"%string;
                  so_maxRetries := None; so_minContextSlot := None |}
          :: rest /\
        calls m_walletSignTransaction rest = 0%nat /\
        calls m_simulateTransaction rest = 0%nat
  end.
Proof.
  intros Hspam Hbh. split.
  - intros fuel' opts'.
    unfold sendAndConfirmTransaction, sendAndConfirmTransaction_body.
    cbn [bind ret catch raise Monad_M Exc_M get_this]. rewrite Hspam. reflexivity.
  - rewrite sendAndConfirmTransaction_catch.
    destruct (new_sendConnection lib (this w) (connection_of (this w) conn)) as [sc | e];
      [| reflexivity].
    unfold sendAndConfirmTransaction_body.
    cbn [bind ret catch raise Monad_M Exc_M get_this]. rewrite Hspam.
    unfold await at 1. cbn [method_of]. rewrite Hbh. cbn iota beta.
    unfold await, lift. simpl.
    oracle_cases; simpl; repeat rewrite <- app_assoc; simpl;
      (eexists; split; [reflexivity|]); split; reflexivity.
Qed.

(** X19. In spam mode with [skipPreflightInSpam] set, [sendAndConfirmTransaction]
    sends only after a simulation that reported no error: a simulation that
    reports one, or fails, leaves the run without a single send. *)
Theorem X19_sendAndConfirmTransaction_preflight_failure_sends_nothing fuel vtx opts conn
  (w : World Client) :
  spamSendTx (this w) = true ->
  skipPreflightInSpam (this w) = true ->
  exists evs,
    trace (snd (sendAndConfirmTransaction lib net fuel vtx opts conn w)) = trace w ++ evs /\
    (calls m_sendTransaction evs = 0%nat \/
     exists cfg response,
       In (EvSimulateTransaction (connection_of (this w) conn) vtx cfg) evs /\
       rpc_simulateTransaction net (calls m_simulateTransaction (trace w))
         (connection_of (this w) conn) vtx cfg = Resolved response /\
       err_truthy (sr_err response) = false).
Proof.
  intros Hspam Hskip.
  unfold sendAndConfirmTransaction, sendAndConfirmTransaction_body, preflightSimulation.
  fold (connection_of (this w) conn).
  cbn [bind ret catch raise Monad_M Exc_M get_this].
  rewrite Hspam, Hskip.
  unfold await, lift. simpl.
  oracle_cases;
    open_spamLoop_by (fun e : Ev => True) ltac:(exact I);
    simpl; repeat rewrite <- app_assoc; simpl;
    first [ exists []; split; [now rewrite app_nil_r | left; reflexivity]
          | eexists; split; [reflexivity|] ];
    first [ left; reflexivity
          | right;
            match goal with
            | H : rpc_simulateTransaction net _ _ _ _ = Resolved _ |- _ =>
                repeat rewrite calls_past in H by reflexivity
            end;
            do 2 eexists; split; [| split; [eassumption | assumption]];
            simpl; auto ].
Qed.

End Properties.

(** * Properties of the queries and of the account helpers *)

Section QueryProperties.

Context {MessageV0 MarginfiGroup Bank OraclePrice BankRaw BankMetadata : Type}.
Context {MarginfiAccountRaw MarginfiAccountWrapper : Type}.
Variable lib : @Platform MessageV0 MarginfiGroup Bank OraclePrice BankRaw BankMetadata.
Variable net : @Network MessageV0 BankRaw BankMetadata.
Variable acc : @Accounts MessageV0 MarginfiGroup Bank OraclePrice BankMetadata
                 MarginfiAccountRaw MarginfiAccountWrapper.

Lemma find_first {A : Type} (f : A -> bool) (l : list A) :
  match find f l with
  | Some x =>
      exists before rest,
        l = before ++ x :: rest /\ f x = true /\ Forall (fun y => f y = false) before
  | None => Forall (fun y => f y = false) l
  end.
Proof.
  induction l as [| a l IH]; simpl; [constructor|].
  destruct (f a) eqn:E.
  - exists [], l. auto.
  - destruct (find f l) as [x |].
    + destruct IH as (before & rest & -> & Hx & Hb).
      exists (a :: before), rest. auto.
    + constructor; assumption.
Qed.

(** X20. The getters by mint and by token symbol answer the first bank, in the
    insertion order of the bank map, that matches, and [null] when none
    does; a token symbol that is [undefined] is answered [null] even when a
    bank has no symbol. *)
Theorem X20_getters_answer_the_first_matching_bank (c : MarginfiClient) (mint : PublicKey)
  (tokenSymbol : option string) :
  match getBankByMint acc c mint with
  | Some bank =>
      exists before rest,
        map snd (banks c) = before ++ bank :: rest /\
        bank_mint acc bank = mint /\
        Forall (fun b => bank_mint acc b <> mint) before
  | None => Forall (fun b => bank_mint acc b <> mint) (map snd (banks c))
  end /\
  match getBankByTokenSymbol acc c tokenSymbol with
  | Some bank =>
      exists symbol before rest,
        tokenSymbol = Some symbol /\
        map snd (banks c) = before ++ bank :: rest /\
        bank_tokenSymbol acc bank = Some symbol /\
        Forall (fun b => bank_tokenSymbol acc b <> Some symbol) before
  | None =>
      tokenSymbol = None \/
      Forall (fun b => bank_tokenSymbol acc b <> tokenSymbol) (map snd (banks c))
  end.
Proof.
  split.
  - unfold getBankByMint.
    pose proof (find_first (fun bank => (bank_mint acc bank =? mint)%string)
                  (map snd (banks c))) as H.
    destruct (find _ (map snd (banks c))) as [bank |].
    + destruct H as (before & rest & Heq & Hm & Hb).
      exists before, rest. split; [exact Heq|]. split; [now apply String.eqb_eq|].
      eapply Forall_impl; [| exact Hb]. intros b Hf. now apply String.eqb_neq.
    + eapply Forall_impl; [| exact H]. intros b Hf. now apply String.eqb_neq.
  - unfold getBankByTokenSymbol. destruct tokenSymbol as [s |]; [| auto].
    pose proof (find_first (fun bank => match bank_tokenSymbol acc bank with
                                        | Some t => (t =? s)%string
                                        | None => false
                                        end)
                  (map snd (banks c))) as H.
    assert (Hno : forall b : Bank,
               match bank_tokenSymbol acc b with
               | Some t => (t =? s)%string
               | None => false
               end = false -> bank_tokenSymbol acc b <> Some s).
    { intros b Hf Heq. rewrite Heq in Hf. now rewrite String.eqb_refl in Hf. }
    destruct (find _ (map snd (banks c))) as [bank |].
    + destruct H as (before & rest & Heq & Hm & Hb).
      exists s, before, rest. split; [reflexivity|]. split; [exact Heq|]. split.
      * destruct (bank_tokenSymbol acc bank) as [t |]; [| discriminate].
        apply String.eqb_eq in Hm. now subst.
      * eapply Forall_impl; [| exact Hb]. exact Hno.
    + right. eapply Forall_impl; [| exact H]. exact Hno.
Qed.

(** X21. When the decoder of banks takes the token symbol from the metadata, and
    so gives none without metadata, no bank is found by token symbol after a
    reload, whatever the symbol: [reload] decodes every bank without
    metadata. *)
Theorem X21_reload_loses_token_symbols (w w' : World MarginfiClient) (tokenSymbol : option string) :
  (forall address raw bank,
     Bank_fromAccountParsed lib address raw None = Resolved bank ->
     bank_tokenSymbol acc bank = None) ->
  reload lib net w = (Return tt, w') ->
  getBankByTokenSymbol acc (this w') tokenSymbol = None.
Proof.
  intros Hsym H. apply reload_returns in H. destruct H as (g & keyed & ais & Hdec).
  unfold getBankByTokenSymbol. destruct tokenSymbol as [s |]; [| reflexivity].
  destruct (find _ (map snd (banks (this w')))) as [bank |] eqn:Hfind; [| reflexivity].
  apply find_some in Hfind. destruct Hfind as [Hin Hm].
  apply in_map_iff in Hin. destruct Hin as ([address bank'] & Heq & Hin).
  simpl in Heq. subst bank'.
  destruct (decoded_banks _ _ _ _ _ _ _ _ _ _ Hdec Hin) as (raw & _ & Hraw).
  simpl in Hraw. rewrite (Hsym _ _ _ Hraw) in Hm. discriminate.
Qed.

(** X22. [getMultipleMarginfiAccounts] throws [Account not found for pubkey: k]
    for the first key [k] whose account is missing, when the accounts before
    it wrap. *)
Theorem X22_getMultipleMarginfiAccounts_names_first_missing_account pubkeys
  (w w1 : World MarginfiClient) accounts j pk :
  marginfiAccount_fetchMultiple acc pubkeys w = (Return accounts, w1) ->
  nth_error accounts j = Some None ->
  nth_error pubkeys j = Some pk ->
  (forall j' a, (j' < j)%nat -> nth_error accounts j' = Some a ->
                exists wrapper, wrapFetched acc (this w1) pubkeys j' a = Resolved wrapper) ->
  getMultipleMarginfiAccounts acc pubkeys w
  = (Throw (Error ("Account not found for pubkey: " ++ pk)%string), w1).
Proof.
  intros Hfetch Hnone Hpk Hbefore.
  unfold getMultipleMarginfiAccounts.
  cbn [bind ret Monad_M get_this]. rewrite Hfetch. cbn iota beta.
  rewrite (map_throwing_first_error (wrapFetched acc (this w1) pubkeys) accounts 0 j None
             (Error ("Account not found for pubkey: " ++ pk)%string)).
  - reflexivity.
  - exact Hnone.
  - simpl. now rewrite Hpk.
  - exact Hbefore.
Qed.

(** X23. With an account key given by the caller the keypair that
    [createMarginfiAccount] generates plays no part; and on a dry run, or
    with a given key, the result is [undefined], not an account. *)
Theorem X23_createMarginfiAccount_returns_no_account_on_dry_run_or_given_key fuel
  (accountKeypair : Signer) opts newAccountKey (w w' : World MarginfiClient) r :
  dry_run opts = true \/ (exists key, newAccountKey = Some key) ->
  createMarginfiAccount lib net acc fuel accountKeypair opts newAccountKey w
  = (Return r, w') ->
  r = None /\
  forall key otherKeypair,
    newAccountKey = Some key ->
    createMarginfiAccount lib net acc fuel otherKeypair opts newAccountKey w
    = (Return r, w').
Proof.
  intros Hcase H. split.
  - revert H. unfold createMarginfiAccount.
    cbn [bind ret Monad_M].
    destruct (makeCreateMarginfiAccountIx acc _ w) as [[ixs | e |] w1]; try discriminate.
    destruct (processTransaction lib net fuel _ _ opts None w1) as [[sig | e |] w2];
      try discriminate.
    rewrite dry_run_test.
    destruct Hcase as [Hdry | (key & ->)].
    + rewrite Hdry. intros H. now inversion H.
    + destruct (dry_run opts); intros H; now inversion H.
  - intros key other ->. exact H.
Qed.

End QueryProperties.

(** * Concrete runs *)

(** What the caller sees of the timeout.  Spam mode, no status ever, and a
    block height that overtakes the last valid height 150 at the third
    reading: the loop stops there, after three sends, with its
    [TimeoutError], and the final [catch] of [processTransaction] and of
    [sendAndConfirmTransaction] rethrows it as a [FallthroughError] with the
    same message. *)
Example spam_timeout_reaches_caller_as_fallthrough :
  fst (processTransaction toy_lib expired_net 5 (inl (toy_tx 2)) None None None
         (toy_world true false))
  = Throw (ProcessTransactionError timeout_message FallthroughError None) /\
  calls m_sendTransaction
    (trace (snd (processTransaction toy_lib expired_net 5 (inl (toy_tx 2)) None None None
                   (toy_world true false)))) = 3%nat /\
  fst (sendAndConfirmTransaction toy_lib expired_net 5 (toy_vtx 2) None None
         (toy_world true false))
  = Throw (ProcessTransactionError timeout_message FallthroughError None) /\
  calls m_sendTransaction
    (trace (snd (sendAndConfirmTransaction toy_lib expired_net 5 (toy_vtx 2) None None
                   (toy_world true false)))) = 3%nat.
Proof. repeat split; vm_compute; reflexivity. Qed.

(** On [slow_net] [processTransaction] sends once, polls five times and returns;
    [sendAndConfirmTransaction] returns after its first poll. *)
Example spam_run_until_finalized :
  fst (processTransaction toy_lib slow_net 1 (inl (toy_tx 2)) None None None
         (toy_world true false)) = Return "5igNatur3"%string /\
  map method_of
    (trace (snd (processTransaction toy_lib slow_net 1 (inl (toy_tx 2)) None None None
                   (toy_world true false))))
  = [m_getLatestBlockhashAndContext; m_walletSignTransaction; m_sendTransaction;
     m_getSignatureStatus; m_sleep; m_getSignatureStatus; m_sleep;
     m_getSignatureStatus; m_sleep; m_getSignatureStatus; m_sleep;
     m_getSignatureStatus; m_getBlockHeight] /\
  fst (sendAndConfirmTransaction toy_lib slow_net 1 (toy_vtx 2) None None
         (toy_world true false)) = Return "5igNatur3"%string /\
  map method_of
    (trace (snd (sendAndConfirmTransaction toy_lib slow_net 1 (toy_vtx 2) None None
                   (toy_world true false))))
  = [m_getLatestBlockhashAndContext; m_sendTransaction; m_getSignatureStatus;
     m_getBlockHeight].
Proof. repeat split; vm_compute; reflexivity. Qed.

(** A status of ["confirmed"] does not end the loop of [processTransaction]:
    after two passes it is still resending. *)
Example spam_run_not_stopped_by_confirmed :
  fst (processTransaction toy_lib
         (scripted toy_snapshot sim_ok (fun _ => with_status "confirmed") (fun _ => 120))
         2 (inl (toy_tx 2)) None None None (toy_world true false)) = Diverge /\
  calls m_sendTransaction
    (trace (snd (processTransaction toy_lib
                   (scripted toy_snapshot sim_ok (fun _ => with_status "confirmed")
                      (fun _ => 120))
                   2 (inl (toy_tx 2)) None None None (toy_world true false)))) = 2%nat.
Proof. split; vm_compute; reflexivity. Qed.


(** A message that does not fit in a packet is refused when it is put on the
    wire, not by the client: [processTransaction] hands it to the wallet,
    whose signing fails on the serialization, and rethrows that failure as a
    [FallthroughError]; nothing is sent. *)
Example oversized_message_fails_at_the_wallet :
  fst (processTransaction toy_lib healthy_net 1 (inl bulky_tx) None None None
         (toy_world false false))
  = Throw (ProcessTransactionError "encoding overruns Uint8Array" FallthroughError None) /\
  map method_of
    (trace (snd (processTransaction toy_lib healthy_net 1 (inl bulky_tx) None None None
                   (toy_world false false))))
  = [m_getLatestBlockhashAndContext; m_walletSignTransaction].
Proof. split; vm_compute; reflexivity. Qed.

(** A client whose send endpoint is [rpc.example:8899]: the constructor of
    the send connection throws its [TypeError] before the first [try] of
    either path, and the caller gets it as it is, not as a
    [ProcessTransactionError]; no call has been made. *)
Lemma C3_counterexample_constructor_error_is_not_classified :
  sendEndpoint stray_client = Some "rpc.example:8899"%string /\
  processTransaction toy_lib healthy_net 1 (inl (toy_tx 2)) None None None stray_world
  = (Throw (TypeError "Endpoint URL must start with `http:` or `https:`."), stray_world) /\
  sendAndConfirmTransaction toy_lib healthy_net 1 (toy_vtx 2) None None stray_world
  = (Throw (TypeError "Endpoint URL must start with `http:` or `https:`."), stray_world).
Proof. repeat split; vm_compute; reflexivity. Qed.

(** A tip of [0.000065] SOL is [64999.99999999999] lamports: the builder of
    the transfer throws, and [signTranscationJito] with it, before the
    blockhash is asked for. *)
Example fractional_tip_throws :
  Number_integer (PrimFloat.mul fractional_tip LAMPORTS_PER_SOL) = None /\
  Number_integer (PrimFloat.mul whole_tip LAMPORTS_PER_SOL) = Some 1000000 /\
  signTranscationJito toy_lib healthy_net fractional_tip (toy_tx 2) None None
    (toy_world false false)
  = (Throw (RangeError
              "The number cannot be converted to a BigInt because it is not an integer"),
     toy_world false false).
Proof. repeat split; vm_compute; reflexivity. Qed.

(** A simulation that completes with [err = "AccountInUse"]: the call
    throws, and neither the logs nor the units of the response come back. *)
Lemma C4_counterexample_simulation_failure_throws :
  sr_err sim_failed = Some (TxErrString "AccountInUse") /\
  fst (simulateTransaction toy_lib
         (scripted toy_snapshot sim_failed (fun _ => None) (fun _ => 120))
         (inr (toy_vtx 2)) ["acct1"%string] (toy_world false false))
  = Throw (Error ("Error: " ++ dquote ++ "AccountInUse" ++ dquote)%string).
Proof. split; vm_compute; reflexivity. Qed.

(** With the snapshot at slot 100 and options given by the caller, the
    simulation of [processTransaction] gets no minimum context slot at all,
    not 96. *)
Lemma C7_counterexample_opts_replace_minContextSlot :
  context_slot toy_snapshot - 4 = 96 /\
  flat_map (fun e => match e with
                     | EvSimulateTransaction _ _ cfg => [sim_minContextSlot cfg]
                     | _ => []
                     end)
    (trace (snd (processTransaction toy_lib healthy_net 1 (inl (toy_tx 2)) None
                   (Some dry_run_opts) None (toy_world false false))))
  = [None].
Proof. split; vm_compute; reflexivity. Qed.

(** ** The theorems at concrete inputs *)


(** C2 at the spam loop of [processTransaction] on the network on which
    nothing is ever confirmed and the block height reads 149, 150, 151: two
    passes at or below the last valid height 150, and the third throws the
    [TimeoutError], after three sends. *)
Lemma C2_witness :
  spamLoop expired_net 5 spamSendOptions_process is_finalized "finalized" 200 toy_connection
    toy_connection (toy_vtx 2) 150 "pending" (toy_world true false)
  = (Throw (ProcessTransactionError timeout_message TimeoutError None),
     after (toy_world true false)
       (missed_passes spamSendOptions_process 200 toy_connection toy_connection (toy_vtx 2)
          [("5igNatur3"%string, 149); ("5igNatur3"%string, 150);
           ("5igNatur3"%string, 151)])) /\
  calls m_sendTransaction
    (missed_passes spamSendOptions_process 200 toy_connection toy_connection (toy_vtx 2)
       [("5igNatur3"%string, 149); ("5igNatur3"%string, 150); ("5igNatur3"%string, 151)])
  = 3%nat.
Proof.
  refine (proj2 (C2_spam_loop_times_out_past_last_valid_height expired_net
                   spamSendOptions_process is_finalized "finalized" 200 toy_connection
                   toy_connection (toy_vtx 2) 150 "pending")
            5%nat (toy_world true false)
            [("5igNatur3"%string, 149); ("5igNatur3"%string, 150)]
            "5igNatur3"%string 151 _ _ _ _ _).
  - discriminate.
  - cbn [app never_confirmed].
    repeat split; try reflexivity; intros i Hi; eexists; split; reflexivity.
  - repeat constructor; cbn; lia.
  - lia.
  - cbn. lia.
Defined.

(** C3 at the run that times out in spam mode, on a client without send
    endpoint. *)
Lemma C3_witness :
  exists msg kind logs,
    ProcessTransactionError timeout_message FallthroughError None
    = ProcessTransactionError msg kind logs /\
    (kind = TransactionBuildingError \/ kind = SimulationError \/ kind = FallthroughError).
Proof.
  refine (proj2 (proj2 (C3_failures_are_classified toy_lib expired_net 5
                          (toy_world true false)))
            (ProcessTransactionError timeout_message FallthroughError None)
            timed_out_world None _).
  left. exists (inl (toy_tx 2)), None, None. vm_compute. reflexivity.
Defined.

(** C4 at the simulation that reports ["AccountInUse"]. *)
Lemma C4_witness :
  fst (simulateTransaction toy_lib
         (scripted toy_snapshot sim_failed (fun _ => None) (fun _ => 120))
         (inr (toy_vtx 2)) ["acct1"%string] (toy_world false false))
  = Throw (Error ("Error: " ++ dquote ++ "AccountInUse" ++ dquote)%string).
Proof.
  rewrite (proj1 (C4_simulateTransaction_throws_on_program_failure toy_lib
                    (scripted toy_snapshot sim_failed (fun _ => None) (fun _ => 120))
                    (toy_world false false) (inr (toy_vtx 2)) ["acct1"%string]
                    toy_snapshot (toy_vtx 2) sim_failed eq_refl eq_refl eq_refl)
             (TxErrString "AccountInUse") eq_refl eq_refl).
  reflexivity.
Defined.

(** C5 on the network that reports ["processed"] four times and then
    ["finalized"].  [processTransaction] runs its loop on the transaction the
    wallet returned; in that loop the sub-poll is not stopped by
    ["processed"], it stops at its fifth answer, and the loop returns after
    one send. *)
Lemma C5_witness :
  spamSendTx (this (toy_world true false)) = true /\
  processTransaction toy_lib slow_net 1 (inl (toy_tx 2)) None None None
    (toy_world true false)
  = catch (spamLoop slow_net 1 spamSendOptions_process is_finalized "finalized" 200
             (connection_of (toy_client true false) None)
             (connection_of (toy_client true false) None) wallet_signed 150 "pending")
      (fun error => raise (classify toy_lib (toy_client true false) error))
      (after (toy_world true false)
         [EvGetLatestBlockhashAndContext (connection_of (toy_client true false) None);
          EvWalletSignTransaction compiled_vtx]) /\
  spamLoop slow_net 1 spamSendOptions_process is_finalized "finalized" 200 toy_connection
    toy_connection (toy_vtx 2) 150 "pending" (toy_world true false)
  = (Return "5igNatur3"%string,
     after (toy_world true false)
       (EvSendTransaction toy_connection (toy_vtx 2)
          {| so_skipPreflight := None; so_preflightCommitment := None;
             so_maxRetries := Some 0; so_minContextSlot := None |}
        :: poll_rounds toy_connection "5igNatur3" 200 4
        ++ [status_query toy_connection "5igNatur3";
            EvGetBlockHeight toy_connection None])).
Proof.
  split; [reflexivity|]. split.
  - refine (proj1 (C5_spam_iteration_protocol toy_lib slow_net 1 (toy_world true false)
                     eq_refl)
              (inl (toy_tx 2)) None None None (connection_of (toy_client true false) None)
              {| b_minContextSlot := 96; b_blockhash := "hash1";
                 b_lastValidBlockHeight := 150; b_versionedTransaction := compiled_vtx |}
              (after (toy_world true false)
                 [EvGetLatestBlockhashAndContext
                    (connection_of (toy_client true false) None)])
              wallet_signed
              (after (toy_world true false)
                 [EvGetLatestBlockhashAndContext
                    (connection_of (toy_client true false) None);
                  EvWalletSignTransaction compiled_vtx])
              _ _ _ _ _); vm_compute; reflexivity.
  - refine (proj1 (proj2 (proj2 (C5_spam_iteration_protocol toy_lib slow_net 0
                                   (toy_world true false) eq_refl)))
              0%nat toy_connection toy_connection (toy_vtx 2) 150 (toy_world true false)
              "5igNatur3"%string 4%nat
              {| ss_slot := 101; ss_err := None;
                 confirmationStatus := Some "finalized"%string |}
              120 _ _ _ _ _ _ _).
    + reflexivity.
    + lia.
    + intros i Hi. exists (with_status "processed"). split.
      * destruct i as [| [| [| [| i]]]]; try reflexivity; lia.
      * intros st H. inversion H. discriminate.
    + reflexivity.
    + reflexivity.
    + reflexivity.
    + lia.
Defined.

(** C6 at a pass whose first status answer is ["finalized"] while the block
    height is already 151. *)
Lemma C6_witness :
  spamIteration (scripted toy_snapshot sim_ok (fun _ => with_status "finalized")
                   (fun _ => 151))
    spamSendOptions_process is_finalized "finalized" 200 toy_connection toy_connection
    (toy_vtx 2) 150 "pending" (toy_world true false)
  = (Throw (ProcessTransactionError timeout_message TimeoutError None),
     {| this := toy_client true false;
        trace := [EvSendTransaction toy_connection (toy_vtx 2) spamSendOptions_process;
                  status_query toy_connection "5igNatur3";
                  EvGetBlockHeight toy_connection None] |}).
Proof.
  refine (proj1 (C6_expiry_checked_after_status
                   (scripted toy_snapshot sim_ok (fun _ => with_status "finalized")
                      (fun _ => 151))
                   spamSendOptions_process is_finalized "finalized" 200 toy_connection
                   toy_connection (toy_vtx 2) 150 "pending" (toy_world true false)
                   "5igNatur3" 0 (with_status "finalized") 151 0 _ _ _ _ _ _ _)).
  - reflexivity.
  - lia.
  - intros i Hi. lia.
  - reflexivity.
  - reflexivity.
  - reflexivity.
  - lia.
Defined.

(** C7 at a spam-mode client that simulates first, with no options: the
    snapshot is at slot 100 and the simulation is given 96. *)
Lemma C7_witness :
  exists evs,
    trace (snd (processTransaction toy_lib healthy_net 2 (inl (toy_tx 2)) None None None
                  (toy_world true true))) = [] ++ evs /\
    Forall (slot_use (Some 96)) evs.
Proof.
  exact (proj1 (C7_minContextSlot_is_slot_minus_4 toy_lib healthy_net 2
                  (toy_world true true) None toy_snapshot toy_snapshot eq_refl eq_refl)
           (inl (toy_tx 2)) None None).
Defined.


(** C10 at a [fetch] without options. *)
Lemma C10_witness :
  spamSendTx toy_fetched = false /\ skipPreflightInSpam toy_fetched = false.
Proof.
  assert (H : fetch toy_lib healthy_net toy_config toy_wallet toy_connection None
                {| this := tt; trace := [] |}
              = (Return toy_fetched,
                 snd (fetch toy_lib healthy_net toy_config toy_wallet toy_connection None
                        {| this := tt; trace := [] |}))) by (vm_compute; reflexivity).
  pose proof (C10_fetch_defaults_flags_to_false toy_lib healthy_net toy_config toy_wallet
                toy_connection None _ _ _ H) as (H1 & H2 & _).
  split; [exact (H1 eq_refl) | exact (H2 eq_refl)].
Defined.

(** ** The further properties at concrete inputs *)

(** X1 at: three addresses asked, the second one unknown. *)
Lemma X1_witness :
  keyBankDatas ["bankA"; "bankX"; "bankB"] [Some 1%nat; None; Some 2%nat]
  = [("bankA", 1%nat); ("bankB", 2%nat)].
Proof.
  rewrite (X1_keyBankDatas_keeps_addresses_aligned [Some 1%nat; None; Some 2%nat]
             ["bankA"; "bankX"; "bankB"] ltac:(simpl; lia)).
  reflexivity.
Defined.

(** X3 at: the batch of account infos is empty. *)
Lemma X3_witness :
  fetchGroupData ledger_lib groupless_net ledger_program "group1" None None None static_world
  = (Throw (Error "Failed to fetch the on-chain group data"),
     after static_world
       [EvBankAll 41 "group1";
        EvGetMultipleAccountsInfo ["group1"; "oracle-bankA"; "oracle-bankB"] None]).
Proof.
  exact (X3_fetchGroupData_fails_without_group_account ledger_lib groupless_net ledger_program
           "group1" None None None static_world
           [("bankA", "oracle-bankA"); ("bankB", "oracle-bankB")] []
           eq_refl eq_refl eq_refl).
Defined.

(** X4 at: the feed of the second bank is [null]. *)
Lemma X4_witness :
  fetchGroupData ledger_lib feedless_net ledger_program "group1" None None None static_world
  = (Throw (Error "Failed to fetch price oracle account for bank bankB"),
     after static_world
       [EvBankAll 41 "group1";
        EvGetMultipleAccountsInfo ["group1"; "oracle-bankA"; "oracle-bankB"] None]).
Proof.
  exact (X4_fetchGroupData_names_first_bank_without_price_feed ledger_lib feedless_net
           ledger_program "group1" None None None static_world
           [("bankA", "oracle-bankA"); ("bankB", "oracle-bankB")]
           [Some {| ai_data := [1%nat] |}; Some {| ai_data := [1%nat] |}; None]
           {| ai_data := [1%nat] |} tt [("bankA", None); ("bankB", None)] 1%nat
           ("bankB", "oracle-bankB")
           eq_refl eq_refl eq_refl eq_refl eq_refl eq_refl eq_refl
           ltac:(intros j' b' Hlt Hn; destruct j' as [| j'];
                 [inversion Hn; eexists; reflexivity | lia])).
Defined.

(** X5 at: the two banks of the ledger. *)
Lemma X5_witness :
  map fst [("bankA", @None string); ("bankB", None)]
  = map fst [("bankA", 1%nat); ("bankB", 1%nat)].
Proof.
  exact (X5_fetchGroupData_banks_and_prices_share_keys ledger_lib synced_net ledger_program
           "group1" None None None static_world
           (snd (fetchGroupData ledger_lib synced_net ledger_program "group1" None None None
                   static_world))
           tt [("bankA", None); ("bankB", None)] [("bankA", 1%nat); ("bankB", 1%nat)]
           eq_refl).
Defined.

(** X6 at: a client fetched with the metadata of both banks, then reloaded. *)
Lemma X6_witness :
  exists raw : string, Bank_fromAccountParsed ledger_lib "bankA" raw None = Resolved None.
Proof.
  refine (X6_reload_decodes_banks_without_metadata ledger_lib synced_net
            (ledger_world synced_net)
            (snd (reload ledger_lib synced_net (ledger_world synced_net)))
            "bankA" None _ _).
  - vm_compute. reflexivity.
  - vm_compute. left. reflexivity.
Defined.

(** X7 at: an address the ledger does not hold. *)
Lemma X7_witness :
  getBankByPk (this (snd (reload ledger_lib synced_net (ledger_world synced_net)))) "bankZ"
  = None <->
  getOraclePriceByBank (this (snd (reload ledger_lib synced_net (ledger_world synced_net))))
    "bankZ" = None.
Proof.
  refine (X7_reload_keeps_banks_and_prices_in_step ledger_lib synced_net
            (ledger_world synced_net)
            (snd (reload ledger_lib synced_net (ledger_world synced_net))) "bankZ" _).
  vm_compute. reflexivity.
Defined.

(** X8 at: the metadata service is down: the fetch returns a client without
    metadata. *)
Lemma X8_witness :
  bankMetadataMap (ledger_fetched_on offline_net) = None /\
  exists raw : string,
    Bank_fromAccountParsed ledger_lib "bankA" raw
      (metadata_of (bankMetadataMap (ledger_fetched_on offline_net)) "bankA")
    = Resolved None.
Proof.
  refine (X8_fetch_decodes_banks_with_loaded_metadata ledger_lib offline_net toy_config
            toy_wallet toy_connection None static_world
            (snd (fetch ledger_lib offline_net toy_config toy_wallet toy_connection None
                    static_world))
            (ledger_fetched_on offline_net) "bankA" None _ _).
  - vm_compute. reflexivity.
  - vm_compute. left. reflexivity.
Defined.

(** X17 at: two tables are configured for the group, and the second does not
    exist. *)
Lemma X17_witness :
  exists before tables,
    trace (snd (fetch toy_lib healthy_net toy_config toy_wallet toy_connection None
                  static_world))
    = [] ++ before ++ map (EvGetAddressLookupTable toy_connection) ["lutA"; "lutB"] /\
    calls m_getAddressLookupTable before = 0%nat /\
    settle_all (lookup_answers healthy_net toy_connection 0 ["lutA"; "lutB"])
    = Resolved tables /\
    addressLookupTables toy_fetched
    = flat_map (fun table => match table with Some t => [t] | None => [] end) tables.
Proof.
  refine (X17_fetch_loads_configured_lookup_tables toy_lib healthy_net toy_config toy_wallet
            toy_connection None static_world
            (snd (fetch toy_lib healthy_net toy_config toy_wallet toy_connection None
                    static_world))
            toy_fetched _).
  vm_compute. reflexivity.
Defined.

(** X9 at: a dry run on a client in spam mode, without fuel. *)
Lemma X9_witness :
  exists evs,
    trace (snd (processTransaction toy_lib healthy_net 0 (inl (toy_tx 2)) None
                  (Some dry_run_opts) None (toy_world true true))) = [] ++ evs /\
    Forall read_or_simulate evs /\
    (length evs <= 2)%nat /\
    fst (processTransaction toy_lib healthy_net 0 (inl (toy_tx 2)) None
           (Some dry_run_opts) None (toy_world true true)) <> Diverge.
Proof.
  exact (X9_processTransaction_dry_run_only_simulates toy_lib healthy_net 0 (inl (toy_tx 2))
           None (Some dry_run_opts) None (toy_world true true) eq_refl).
Defined.


(** X11 at: a client in spam mode that skips the simulation. *)
Lemma X11_witness :
  exists evs,
    trace (snd (processTransaction toy_lib healthy_net 3 (inl (toy_tx 2)) None None None
                  (toy_world true false))) = [] ++ evs /\
    Forall (fun e => method_of e <> m_simulateTransaction) evs.
Proof.
  exact (proj1 (X11_spam_without_preflight_never_simulates toy_lib healthy_net 3
                  (toy_world true false) eq_refl eq_refl)
           (inl (toy_tx 2)) None None None eq_refl).
Defined.

(** X12 at: a client in spam mode that simulates first, on a network whose
    simulation reports a program error. *)
Lemma X12_witness :
  exists evs,
    trace (snd (processTransaction toy_lib failing_sim_net 3 (inl (toy_tx 2)) None None None
                  (toy_world true true))) = [] ++ evs /\
    (calls m_sendTransaction evs = 0%nat \/
     exists vtx cfg response,
       In (EvSimulateTransaction (connection_of (toy_client true true) None) vtx cfg) evs /\
       rpc_simulateTransaction failing_sim_net 0
         (connection_of (toy_client true true) None) vtx cfg = Resolved response /\
       err_truthy (sr_err response) = false).
Proof.
  exact (X12_spam_preflight_failure_sends_nothing toy_lib failing_sim_net 3 (inl (toy_tx 2))
           None None None (toy_world true true) eq_refl eq_refl eq_refl).
Defined.

(** X14 at: a tip of zero. *)
Lemma X14_witness :
  signTranscationJito toy_lib healthy_net PrimFloat.zero (toy_tx 2) None None
    (toy_world false false)
  = (Throw (Error "Jito bundle tip has not been set."), toy_world false false).
Proof.
  exact (X14_signTranscationJito_refuses_zero_tip toy_lib healthy_net PrimFloat.zero
           (toy_tx 2) None None (toy_world false false) eq_refl).
Defined.

(** X15 at: a tip of 0.001 SOL; the simulation reports ["AccountInUse"], and the
    transaction is signed all the same. *)
Lemma X15_witness :
  fst (signTranscationJito toy_lib failing_sim_net whole_tip (toy_tx 2) None None
         (toy_world false false))
  = Return (ReturnedTransaction
              {| message := tipped_message; signatures := [repeat 7%nat 64] |}).
Proof.
  rewrite (X15_signTranscationJito_signs_whatever_the_simulation_reports toy_lib
             failing_sim_net whole_tip (toy_tx 2) None None (toy_world false false)
             (instructions (toy_tx 2)
              ++ [TransferInstruction "payer1" JITO_TIP_ACCOUNT 1000000])
             toy_snapshot tipped_message (repeat 0%nat 260)
             (toy_static tipped_message ++ toy_looked_up tipped_message)
             sim_failed
             eq_refl ltac:(vm_compute; reflexivity) eq_refl eq_refl
             ltac:(vm_compute; reflexivity) ltac:(vm_compute; reflexivity)
             ltac:(vm_compute; intro H; discriminate H)
             ltac:(vm_compute; reflexivity)
             eq_refl).
  reflexivity.
Defined.

(** X24 at: a tip of 0.000065 SOL, which is not a whole number of lamports. *)
Lemma X24_witness :
  signTranscationJito toy_lib healthy_net fractional_tip (toy_tx 2) None None
    (toy_world false false)
  = (Throw (RangeError
              "The number cannot be converted to a BigInt because it is not an integer"),
     toy_world false false).
Proof.
  refine (X24_signTranscationJito_throws_what_the_builders_throw toy_lib healthy_net
            fractional_tip (toy_tx 2) None None (toy_world false false) _ _ _).
  - reflexivity.
  - right. split; [left; reflexivity | vm_compute; reflexivity].
Defined.


(** X18 at: a read-only client without send endpoint and options that ask for
    a dry run. *)
Lemma X18_witness :
  exists rest,
    trace (snd (sendAndConfirmTransaction toy_lib healthy_net 0 (toy_vtx 2)
                  (Some dry_run_opts) None read_only_world))
    = [] ++ EvGetLatestBlockhashAndContext (connection_of (this read_only_world) None)
         :: EvSendTransaction (connection_of (this read_only_world) None) (toy_vtx 2)
              {| so_skipPreflight := None; so_preflightCommitment := Some "processed";
                 so_maxRetries := None; so_minContextSlot := None |}
         :: rest /\
    calls m_walletSignTransaction rest = 0%nat /\
    calls m_simulateTransaction rest = 0%nat.
Proof.
  exact (proj2 (X18_sendAndConfirmTransaction_sends_whatever_the_options toy_lib healthy_net
                  0 (toy_vtx 2) (Some dry_run_opts) None read_only_world toy_snapshot
                  eq_refl eq_refl)).
Defined.

(** X19 at: a client in spam mode that simulates first, on a network whose
    simulation reports a program error. *)
Lemma X19_witness :
  exists evs,
    trace (snd (sendAndConfirmTransaction toy_lib failing_sim_net 3 (toy_vtx 2) None None
                  (toy_world true true))) = [] ++ evs /\
    (calls m_sendTransaction evs = 0%nat \/
     exists cfg response,
       In (EvSimulateTransaction (connection_of (toy_client true true) None) (toy_vtx 2) cfg)
         evs /\
       rpc_simulateTransaction failing_sim_net 0
         (connection_of (toy_client true true) None) (toy_vtx 2) cfg = Resolved response /\
       err_truthy (sr_err response) = false).
Proof.
  exact (X19_sendAndConfirmTransaction_preflight_failure_sends_nothing toy_lib
           failing_sim_net 3 (toy_vtx 2) None None (toy_world true true) eq_refl eq_refl).
Defined.

(** X21 at: the bank of [SOL] is found by its symbol after the fetch, and is not
    after the reload. *)
Lemma X21_witness :
  getBankByTokenSymbol ledger_acc (ledger_fetched_on synced_net) (Some "SOL")
  = Some (Some "SOL") /\
  getBankByTokenSymbol ledger_acc
    (this (snd (reload ledger_lib synced_net (ledger_world synced_net)))) (Some "SOL")
  = None.
Proof.
  split; [vm_compute; reflexivity|].
  refine (X21_reload_loses_token_symbols ledger_lib synced_net ledger_acc
            (ledger_world synced_net)
            (snd (reload ledger_lib synced_net (ledger_world synced_net)))
            (Some "SOL") _ _).
  - intros address raw bank H. inversion H. reflexivity.
  - vm_compute. reflexivity.
Defined.

(** X22 at: three accounts asked, the second one missing. *)
Lemma X22_witness :
  getMultipleMarginfiAccounts ledger_acc ["acct1"; "ghost"; "acct3"]
    (ledger_world synced_net)
  = (Throw (Error "Account not found for pubkey: ghost"), ledger_world synced_net).
Proof.
  exact (X22_getMultipleMarginfiAccounts_names_first_missing_account ledger_acc
           ["acct1"; "ghost"; "acct3"] (ledger_world synced_net) (ledger_world synced_net)
           [Some "raw-acct1"; None; Some "raw-acct3"] 1%nat "ghost"
           eq_refl eq_refl eq_refl
           ltac:(intros j' a Hlt Hn; destruct j' as [| j'];
                 [inversion Hn; eexists; reflexivity | lia])).
Defined.

(** X23 at: an account key given by the caller, and two generated keypairs. *)
Lemma X23_witness :
  createMarginfiAccount ledger_lib synced_net ledger_acc 0
    {| signer_publicKey := "ephemeral2"; signer_secretKey := [2%nat] |}
    None (Some "acctNew") (ledger_world synced_net)
  = (Return None,
     snd (createMarginfiAccount ledger_lib synced_net ledger_acc 0
            {| signer_publicKey := "ephemeral1"; signer_secretKey := [1%nat] |}
            None (Some "acctNew") (ledger_world synced_net))).
Proof.
  refine (proj2 (X23_createMarginfiAccount_returns_no_account_on_dry_run_or_given_key
                   ledger_lib synced_net ledger_acc 0
                   {| signer_publicKey := "ephemeral1"; signer_secretKey := [1%nat] |}
                   None (Some "acctNew") (ledger_world synced_net)
                   (snd (createMarginfiAccount ledger_lib synced_net ledger_acc 0
                           {| signer_publicKey := "ephemeral1";
                              signer_secretKey := [1%nat] |}
                           None (Some "acctNew") (ledger_world synced_net)))
                   None (or_intror (ex_intro _ "acctNew" eq_refl)) _)
            "acctNew" {| signer_publicKey := "ephemeral2"; signer_secretKey := [2%nat] |}
            eq_refl).
  vm_compute. reflexivity.
Defined.
